(* ===== verification/_CoqProject ===== *)
-Q . S2P
Prelude.v
JsString.v
JsMap.v
Effects.v
Instance.v
Validate.v
Remove.v
Sanitize.v
Clone.v
Inject.v
Bridge.v
Pipeline.v
Json.v
Cli.v
