(* ===== verification/Prelude.v ===== *)
(** * Verification of the rbxm bridge (src/bridge.ts)

    The program merges the roots of a donor object tree (the "infection"
    file) into the first root of a target tree (the "model" file).  The
    trees are made of [Instance] nodes of the rbxm-parser library: a node
    has a name, a class name, a property bag (a JavaScript [Map] from
    property names to typed values) and an ordered list of children.
    Before the donors are copied, the target is stripped of a fixed list of
    named subtrees and its scripts are scanned for suspicious keywords; the
    donors are validated; then every donor root is deep-cloned under the
    target root, and the target is encoded and written.

    ** Files, in dependency order

    - [Prelude] (this file): the scope [bridge_scope], the tactics and the
      hint databases of the development, and the lemmas on lists that the
      components share ([flat_map], [fold_left], [forallb],
      [map_offsets]).
    - [JsString]: the JavaScript string built-ins the source calls
      ([toLowerCase], [includes], [startsWith], [length], numbers in
      template literals) as functions on [string], with their algebra: a
      substring test that is equivalent to a decomposition
      [a ++ kw ++ b], lower-casing that never yields an upper-case
      letter, a tail-recursive length equal to [String.length].
    - [JsMap]: the JavaScript [Map] as an association list in insertion
      order ([get], [set], [has], [size]), the invariant "keys are unique"
      and its preservation, the equivalence of maps up to order with its
      [Proper] instances, and the refinement to stdpp's [gmap].
    - [Effects]: the monad [M] in which the stateful functions of the
      source run.  Its state [RunState] holds the module-level
      [scriptSourceCache] (line 70), the lines written to the console and
      the allocator of node identities; a computation ends in [Ret] or in
      [Throw] (a JavaScript exception), and keeps the state it reached in
      both cases.  The file gives the equations of [run] on every
      primitive (rewrite database [run_rw], tactic [simpl_run]) and a
      weakest-precondition calculus [wp] with the rules of [bind],
      [try_catch] and the [for] loops.
    - [Instance]: the node model.  [RobloxValue] is the library's typed
      value (type tag and payload); [Instance] is the tree; [Source] is the
      accessor of script nodes; the class [RbxmApi] is the interface to
      the library's own [SetProp], which is outside src/ and may throw;
      [GenericInstance_SetProp] is the override of lines 42-53;
      [instanceConstructors] is the class registry of lines 56-68.
    - [Validate]: [validateInstance] (lines 95-119).
    - [Remove]: [removeInstances] (lines 175-186).
    - [Sanitize]: [findAndRemoveSuspiciousScripts] (lines 188-213).
    - [Clone]: [cacheScriptSources] (lines 81-93) and [cloneInstance]
      (lines 121-173).
    - [Inject]: [printInstanceHierarchy] (lines 72-79) and
      [injectInfection] (lines 215-258).
    - [Bridge]: [RbxmBridge.processModel] (lines 261-297) over the class
      [Host] of the file system and the codec.
    - [Pipeline]: the state machine of spec.md 4.7 (Load, Strip, Sanitize,
      ValidateDonors, CloneEach, Persist) as the step relation [step] on
      configurations, over the code of the stages, with the function
      [next] that computes it.
    - [Json]: [JSON.stringify] on the values the program prints, with the
      quoting of strings and its inverse.
    - [Cli]: [RbxmBridge.loadInfection] (lines 299-322),
      [RbxmBridge.validateModel] (lines 324-352), [printUsage] (lines
      354-364) and [main] (lines 367-415) on the list of arguments.

    ** How the model corresponds to the code

    Object graph.  The source mutates a graph of objects with parent
    pointers.  The model is a pure tree: a function that mutates a node in
    place returns the new node, [x.Parent = p] is the append of [x] to the
    children of [p] ([appendChild]), and [child.Destroy()] is the removal
    of the child from its parent's list.  This is faithful because the
    target and the donors are decoded from two buffers and never share a
    node.  Object identity, which the source uses as the key of
    [scriptSourceCache], is the field [referent] of a node; nodes made by
    a constructor take a fresh referent from the counter [nextReferent] of
    the run state.  The theorems that depend on the identity of donor
    nodes assume that their referents are distinct.

    Loops.  The body of every [for] loop of the source is a definition of
    its own ([validateProp], [removeChild], [sanitizeChild], [copyProp],
    [cloneChild], [validateRoot], [injectRoot]) and the loop is [foldM],
    [forM_] or [fold_left] over it.

    Library.  rbxm-parser is not under src/: the node record, the value
    record, the accessors and the base [SetProp] are modelled from spec.md
    (sections 3 and 4.1) and marked so in the manifest.  The base
    [SetProp] is a parameter ([RbxmApi]): the theorems of [Clone],
    [Inject] and [Bridge] hold for every library behaviour or state what
    they need of it, and the witnesses run on the two instances
    [permissive_api] (never throws, as spec.md 4.1 says) and [typed_api]
    (throws when the payload does not fit the type tag).  What the model
    assumes of the library beyond that: the base [SetProp] either throws,
    as a function of the class name, the key, the tag and the payload, or
    stores the value and returns [true]; the tag [DataType.String] of line
    159 is the literal ['String'] that lines 46 and 137 compare tags with;
    constructors and the setters of [Name], [Parent] and [Source] never
    throw; every node has [Destroy] (line 180), which detaches it from its
    parent.  The file system and the codec are the parameter [Host] in the
    same way; its four operations are functions of their arguments, so the
    file system has no state of its own, which is enough for a program
    that reads two files and then writes one.

    Strings.  A JavaScript string is a Rocq [string] whose characters are
    the UTF-16 code units below 256.  [toLowerCase] maps A-Z and the
    upper-case letters of Latin-1 (U+00C0-U+00D6 and U+00D8-U+00DE) to the
    code unit 32 above and leaves every other code unit alone, which is
    what JavaScript does below 256.  Strings with code units from 256 on
    (among them U+212A, which lower-cases to k) are outside the model.
    Lengths are compared in
    [N] so that the limits 500000 and 1000000 of the source are literal
    and the model evaluates on values that exceed them.

    Property values.  A bag maps a name to [option RobloxValue]; [None]
    stands for both [null] and [undefined], which the source never tells
    apart.  Values that are not [{type, value}] objects are outside the
    model.

    Exceptions.  When a computation throws inside [cloneInstance] the
    source leaves a partially built clone attached to the target; the
    model returns [Throw] and no tree, which is what [processModel]
    observes: it exits without writing the target.  [console.log] of an
    exception object keeps the name and the message of the exception, not
    its stack.

    ** What the theorems show

    - [JsMap]: [set] keeps keys unique, [get] after [set], the bindings of
      [set], refinement of [get]/[set] by [gmap] lookup/insert.
    - [Instance]: the behaviour of [GenericInstance_SetProp] on each
      branch (the [UniqueId] guard, the 500000-character limit, delegation
      to the library); the registry answers exactly its eleven class names
      and every constructor builds a node of the class it is filed under.
    - [Validate]: [validateInstance] computes the pair [valid_tree],
      [diagnostics]; the verdict is [true] exactly when no property of the
      tree is null; diagnostics are only appended; the number of [[ERROR]]
      lines is the number of null properties; traversal does not stop at
      the first invalid child; the paths of spec.md 8.
    - [Remove]: [removeInstances] computes the pure filter [strip]; no
      proper descendant of the result carries a denied name; the pass is
      idempotent; the root itself is never tested; one log line per
      removed subtree.
    - [Sanitize]: [findAndRemoveSuspiciousScripts] computes the pure
      rewrite [scrub]; names, classes and child order are unchanged; the
      count is the number of suspicious scripts and of log lines; a second
      pass rewrites nothing; the two keywords that contain an upper-case
      letter can never match.
    - [Clone]: the loop over the properties always returns and is the
      filter [kept]; one rule of the traversal, [wp_cloneInstance], from
      which follow: a clone has the shape of its donor; no node of a
      clone holds a [UniqueId], an oversized binary or a null; clones are
      made of new objects with consecutive referents; the only exception
      that escapes is the library's refusal of a source text; under a
      cache that agrees with the donors the clone is the pure function
      [clone_tree], whatever the cache holds; [cacheScriptSources]
      establishes such a cache.
    - [Inject]: [injectInfection] prepares the target ([strip] then
      [scrub]), is fail-fast on validation (no clone is made when a donor
      is not valid), and on success returns the file whose first root is
      the prepared target followed by one faithful clone per donor root,
      in order; a clone always passes the validator.
    - [Bridge]: no exception escapes [processModel]; it exits with status
      1 on an empty target and on a donor that is not valid, without
      writing; on success it saves the encoding of the file whose first
      root is [injected].
    - [Pipeline]: [processModel] implements the machine (a step runs the
      code that remains up to the next configuration, and the answer of
      [processModel] is the end the machine reaches); the machine is never
      stuck before an end and [exec] reaches one with the fuel [weight];
      by induction on the steps, the invariant of the
      reachable configurations: no referent is taken before [CloneEach],
      which is entered only with valid donors, and the clone loop appends
      one clone per donor to the prepared children of the first root.
    - [Json]: [unquote] reads back what [quote] wrote, so quoting is
      injective.
    - [Cli]: the line each of [validateModel] and [loadInfection] prints
      for a file that loads; no exception escapes [main], its exit status
      is 1 whenever it exits, it runs a command only on a well-formed
      invocation and prints the usage on every other.

    ** Bounds and fuel

    No definition that models code uses fuel: every traversal of the
    source is a structural recursion on the tree, so the model functions
    are total by construction, the equations of the code against its
    specification are unconditional, and "the function returns" is part of
    what is proved.  The numeric limits are those of the source.  Fuel
    appears in two places outside the code of the program.
    [Pipeline.exec] runs the machine for a number of steps; [weight], one
    step per stage that remains and one per donor still to be cloned, is
    proved to be enough to reach an end.  [Json.read_string], the inverse
    of the quoting, takes the length of the text, which [Json.unquote]
    gives it.

    ** Not modelled

    The binary codec and the file system (parameters of [Host]), the
    garbage-collector hint of lines 254-256, the stack of an exception
    printed by [console.log], and the handlers of lines 417-429 for
    exceptions that nobody caught, which [main] never lets happen. *)

From Stdlib Require Import String Ascii NArith Lia.
From stdpp Require Import base tactics option list.

Declare Scope bridge_scope.
Delimit Scope bridge_scope with bridge.
#[global] Open Scope bridge_scope.

(** ** Hint databases

    [bridge] collects the resolution hints of the components; [bridge_rw]
    collects the rewrite rules that evaluate model functions. *)
Create HintDb bridge discriminated.
Create Rewrite HintDb bridge_rw.
#[export] Hint Constants Opaque : bridge.
#[export] Hint Variables Opaque : bridge.

(** ** Tactics *)

(** Invert a hypothesis and substitute the equations it yields. *)
Ltac invert H := inversion H; subst; clear H.

(** Case analysis on the first boolean test, [decide] or [match] scrutinee
    that blocks the goal. *)
Ltac case_test :=
  match goal with
  | |- context [if ?b then _ else _] =>
      lazymatch type of b with
      | bool => destruct b eqn:?
      | _ => destruct b
      end
  end.

(** Close a goal by the hints of the development. *)
Ltac bridge_auto := eauto with bridge.

(** ** Arrays

    [Array.prototype.includes] on an array of strings or numbers. *)
Definition array_includes {A : Type} `{EqDecision A} (l : list A) (x : A) : bool :=
  bool_decide (x ∈ l).

Notation "x ∈? l" := (array_includes l x) (at level 70) : bridge_scope.

(** [map_offsets f w r l] maps [f] over [l], giving each element the
    offset at which it starts: [r] for the first, and for each next one the
    offset of the one before plus its weight [w]. *)
Section map_offsets.
Context {A B : Type} (f : nat → A → B) (w : A → nat).

Fixpoint map_offsets (r : nat) (l : list A) : list B :=
  match l with
  | [] => []
  | x :: l' => f r x :: map_offsets (r + w x) l'
  end.

Lemma length_map_offsets r l : length (map_offsets r l) = length l.
Proof. revert r. induction l as [|x l IH]; intros r; simpl; [done|]. by rewrite IH. Qed.

End map_offsets.

Section lists.
Context {A B : Type}.
Implicit Types (l k : list A) (x : A).

Lemma array_includes_true `{EqDecision A} l x : (x ∈? l) = true ↔ x ∈ l.
Proof. unfold array_includes. apply bool_decide_eq_true. Qed.

Lemma array_includes_false `{EqDecision A} l x : (x ∈? l) = false ↔ x ∉ l.
Proof. unfold array_includes. apply bool_decide_eq_false. Qed.

(** A filter that keeps everything is the identity, stated for the boolean
    predicates the passes use. *)
Lemma filter_all_true (p : A → bool) l :
  Forall (λ x, p x = true) l → filter (λ x, p x = true) l = l.
Proof.
  induction 1 as [|x l Hx _ IH]; [done|].
  by rewrite filter_cons_True, IH.
Qed.

(** [sum_list_with] over a list whose summands all vanish. *)
Lemma sum_list_with_zero (f : A → nat) l :
  Forall (λ x, f x = 0) l → sum_list_with f l = 0.
Proof. induction 1 as [|x l Hx _ IH]; simpl; lia. Qed.

(** Mapping a function that fixes every element. *)
Lemma map_id_Forall (f : A → A) l : Forall (λ x, f x = x) l → f <$> l = l.
Proof. induction 1 as [|x l Hx _ IH]; csimpl; congruence. Qed.

Lemma map_ext_Forall (f g : A → B) l :
  Forall (λ x, f x = g x) l → f <$> l = g <$> l.
Proof. induction 1 as [|x l Hx _ IH]; csimpl; congruence. Qed.

(** Membership and [Forall] through [flat_map], in stdpp's vocabulary. *)
Lemma elem_of_flat_map (f : A → list B) l (y : B) :
  y ∈ flat_map f l ↔ ∃ x, x ∈ l ∧ y ∈ f x.
Proof.
  rewrite list_elem_of_In, in_flat_map.
  by setoid_rewrite list_elem_of_In.
Qed.

Lemma Forall_flat_map (P : B → Prop) (f : A → list B) l :
  Forall P (flat_map f l) ↔ Forall (λ x, Forall P (f x)) l.
Proof.
  induction l as [|x l IH]; simpl; [by split; constructor|].
  by rewrite Forall_app, Forall_cons, IH.
Qed.

Lemma flat_map_nil_Forall (f : A → list B) l :
  Forall (λ x, f x = []) l → flat_map f l = [].
Proof. induction 1 as [|x l Hx _ IH]; simpl; [done|]. by rewrite Hx, IH. Qed.

Lemma length_flat_map (f : A → list B) l :
  length (flat_map f l) = sum_list_with (λ x, length (f x)) l.
Proof. induction l as [|x l IH]; simpl; [done|]. by rewrite length_app, IH. Qed.

Lemma filter_flat_map (P : B → Prop) `{∀ y, Decision (P y)}
    (f : A → list B) l :
  filter P (flat_map f l) = flat_map (λ x, filter P (f x)) l.
Proof. induction l as [|x l IH]; simpl; [done|]. by rewrite filter_app, IH. Qed.

(** [forallb] and [existsb] as [Forall] and [Exists] of boolean tests. *)
Lemma forallb_Forall_true (p : A → bool) l :
  forallb p l = true ↔ Forall (λ x, p x = true) l.
Proof.
  induction l as [|x l IH]; simpl; [by split; constructor|].
  by rewrite andb_true_iff, Forall_cons, IH.
Qed.

Lemma existsb_Exists_true (p : A → bool) l :
  existsb p l = true ↔ Exists (λ x, p x = true) l.
Proof.
  induction l as [|x l IH]; simpl; [by rewrite Exists_nil|].
  by rewrite orb_true_iff, Exists_cons, IH.
Qed.

(** Two predicates that agree on every element of a list. *)
Lemma Forall_iff_pointwise (P Q : A → Prop) l :
  Forall (λ x, P x ↔ Q x) l → Forall P l ↔ Forall Q l.
Proof.
  induction 1 as [|x l Hx _ IH]; [by split; constructor|].
  by rewrite !Forall_cons, Hx, IH.
Qed.

Lemma sum_list_with_ext_Forall (f g : A → nat) l :
  Forall (λ x, f x = g x) l → sum_list_with f l = sum_list_with g l.
Proof. induction 1 as [|x l Hx _ IH]; simpl; congruence. Qed.

Lemma sum_list_with_eq_0 (f : A → nat) l :
  sum_list_with f l = 0 ↔ Forall (λ x, f x = 0) l.
Proof.
  induction l as [|x l IH]; simpl; [by split; constructor|].
  rewrite Forall_cons, <-IH. lia.
Qed.

Lemma fold_left_flat_map (f : B → A → B) {C} (g : C → list A) (l : list C) b :
  fold_left f (flat_map g l) b = fold_left (λ b c, fold_left f (g c) b) l b.
Proof.
  revert b. induction l as [|c l IH]; intros b; simpl; [done|].
  by rewrite fold_left_app, IH.
Qed.

Lemma fold_left_ext_Forall (f g : B → A → B) l b :
  Forall (λ x, ∀ b, f b x = g b x) l → fold_left f l b = fold_left g l b.
Proof.
  intros Hall. revert b. induction Hall as [|x l Hx _ IH]; intros b; simpl; [done|].
  by rewrite Hx, IH.
Qed.

(** An invariant of the steps of a fold holds of its result. *)
Lemma fold_left_invariant (I : B → Prop) (f : B → A → B) l b :
  (∀ b x, x ∈ l → I b → I (f b x)) → I b → I (fold_left f l b).
Proof.
  revert b. induction l as [|x l IH]; intros b Hstep Hb; simpl; [done|].
  apply IH; [intros b' y Hy; apply Hstep; by right|]. apply Hstep; [left|done].
Qed.

Lemma forallb_ext_pointwise (f g : A → bool) l :
  (∀ x, f x = g x) → forallb f l = forallb g l.
Proof. intros Hfg. induction l as [|x l IH]; simpl; [done|]. by rewrite Hfg, IH. Qed.

Lemma flat_map_ext_pointwise (f g : A → list B) l :
  (∀ x, f x = g x) → flat_map f l = flat_map g l.
Proof. intros Hfg. induction l as [|x l IH]; simpl; [done|]. by rewrite Hfg, IH. Qed.

(** A list that fails [forallb] has a first element that fails. *)
Lemma forallb_false_split (f : A → bool) l :
  forallb f l = false →
  ∃ pre x rest, l = pre ++ x :: rest ∧ forallb f pre = true ∧ f x = false.
Proof.
  induction l as [|x l IH]; simpl; [done|].
  destruct (f x) eqn:Hx; simpl.
  - intros (pre & y & rest & -> & Hpre & Hy)%IH.
    exists (x :: pre), y, rest. simpl. by rewrite Hx.
  - intros _. by exists [], x, l.
Qed.

(** A function whose images over a list are distinct is injective on
    the list. *)
Lemma NoDup_fmap_inj (f : A → B) l x y :
  NoDup (f <$> l) → x ∈ l → y ∈ l → f x = f y → x = y.
Proof.
  induction l as [|z l IH]; csimpl; [by intros _ ?%elem_of_nil|].
  intros [Hz Hl]%NoDup_cons [->|Hx]%elem_of_cons [->|Hy]%elem_of_cons Hf;
    [done| | |by apply IH].
  - destruct Hz. rewrite Hf. by apply list_elem_of_fmap_2.
  - destruct Hz. rewrite <-Hf. by apply list_elem_of_fmap_2.
Qed.

End lists.

#[export] Hint Resolve filter_all_true sum_list_with_zero map_id_Forall : bridge.
#[export] Hint Rewrite @array_includes_true @array_includes_false : bridge_rw.
