(* ===== verification/JsString.v ===== *)
(** * JavaScript string built-ins

    The string operations that src/bridge.ts calls, as functions on
    [string]: [toLowerCase] and [includes] (line 199), [length] (lines 46
    and 137).  A character is one UTF-16 code unit below 256, and on
    these [toLowerCase] is the function of JavaScript; strings with code
    units from 256 on are outside the model.  The lemmas
    give each operation its algebraic meaning; the passes of [Sanitize] and
    [Instance] are proved from them and never unfold the recursion. *)

From Stdlib Require Import String Ascii NArith Lia DecimalString.
From stdpp Require Import base tactics option list strings.
From S2P Require Import Prelude.

#[local] Open Scope string_scope.

Module JsString.

(** An upper-case letter among the code units below 256: A-Z, and the
    letters U+00C0-U+00D6 and U+00D8-U+00DE of Latin-1.  These are the code
    units below 256 that [toLowerCase] changes, each to the code unit 32
    above it. *)
Definition is_upper (c : ascii) : bool :=
  let n := N_of_ascii c in
  (65 <=? n)%N && (n <=? 90)%N
  || (192 <=? n)%N && (n <=? 214)%N
  || (216 <=? n)%N && (n <=? 222)%N.

Definition lower_ascii (c : ascii) : ascii :=
  if is_upper c then ascii_of_N (N_of_ascii c + 32) else c.

(** [String.prototype.toLowerCase]. *)
Fixpoint toLowerCase (s : string) : string :=
  match s with
  | EmptyString => EmptyString
  | String c s' => String (lower_ascii c) (toLowerCase s')
  end.

(** [String.prototype.startsWith]: [kw] is a prefix of [s]. *)
Definition startsWith (s kw : string) : bool := String.prefix kw s.

(** [String.prototype.includes]: [kw] occurs in [s] at some position. *)
Fixpoint includes (s kw : string) : bool :=
  startsWith s kw ||
  match s with
  | EmptyString => false
  | String _ s' => includes s' kw
  end.

(** Some character of [s] is an upper-case letter. *)
Fixpoint has_upper (s : string) : bool :=
  match s with
  | EmptyString => false
  | String c s' => is_upper c || has_upper s'
  end.

(** [String.prototype.length], counted in [N] with an accumulator so that
    it evaluates on strings of a million characters. *)
Fixpoint length_acc (s : string) (acc : N) : N :=
  match s with
  | EmptyString => acc
  | String _ s' => length_acc s' (N.succ acc)
  end.

Definition length (s : string) : N := length_acc s 0.

(** A natural number in a template literal: its decimal digits. *)
Definition of_nat (n : nat) : string := NilZero.string_of_uint (Nat.to_uint n).

Definition of_N (n : N) : string := NilZero.string_of_uint (N.to_uint n).

(** [String.prototype.repeat] on a positive count: test data for the
    size limits. *)
Fixpoint repeat (s : string) (p : positive) : string :=
  match p with
  | xH => s
  | xO p' => let r := repeat s p' in r +:+ r
  | xI p' => let r := repeat s p' in s +:+ (r +:+ r)
  end.

(** ** Concatenation

    stdpp keeps [+:+] from unfolding under [simpl]; these two equations
    and the tactic [simpl_append] unfold it on constructors. *)

Lemma append_nil_l t : "" +:+ t = t.
Proof. reflexivity. Qed.

Lemma append_cons c s t : String c s +:+ t = String c (s +:+ t).
Proof. reflexivity. Qed.

Lemma append_nil_r s : s +:+ "" = s.
Proof. induction s as [|c s IH]; [done|]. by rewrite append_cons, IH. Qed.

Lemma append_assoc s t u : (s +:+ t) +:+ u = s +:+ (t +:+ u).
Proof. induction s as [|c s IH]; [done|]. by rewrite !append_cons, IH. Qed.

Ltac simpl_append :=
  repeat first
    [ rewrite append_cons in * | rewrite append_nil_l in * ].

(** ** Lower-casing *)

Lemma is_upper_lower_ascii c : is_upper (lower_ascii c) = false.
Proof. destruct c as [[] [] [] [] [] [] [] []]; reflexivity. Qed.

(** Lower-casing adds 32 to the code of an upper-case letter, without
    wrapping around, and keeps every other code. *)
Lemma N_of_lower_ascii c :
  N_of_ascii (lower_ascii c) =
  (if is_upper c then N_of_ascii c + 32 else N_of_ascii c)%N.
Proof. destruct c as [[] [] [] [] [] [] [] []]; reflexivity. Qed.

Lemma lower_ascii_idem c : lower_ascii (lower_ascii c) = lower_ascii c.
Proof. unfold lower_ascii at 1. by rewrite is_upper_lower_ascii. Qed.

Lemma lower_ascii_not_upper c : is_upper c = false → lower_ascii c = c.
Proof. unfold lower_ascii. by intros ->. Qed.

Lemma has_upper_toLowerCase s : has_upper (toLowerCase s) = false.
Proof.
  induction s as [|c s IH]; [done|]. simpl.
  by rewrite is_upper_lower_ascii, IH.
Qed.

Lemma toLowerCase_no_upper s : has_upper s = false → toLowerCase s = s.
Proof.
  induction s as [|c s IH]; [done|]. simpl.
  intros [Hc Hs]%orb_false_elim.
  by rewrite lower_ascii_not_upper, IH.
Qed.

Lemma toLowerCase_idem s : toLowerCase (toLowerCase s) = toLowerCase s.
Proof. apply toLowerCase_no_upper, has_upper_toLowerCase. Qed.

Lemma toLowerCase_app s t :
  toLowerCase (s +:+ t) = toLowerCase s +:+ toLowerCase t.
Proof.
  induction s as [|c s IH]; [done|]. rewrite !append_cons. simpl.
  by rewrite IH, append_cons.
Qed.

Lemma has_upper_app s t : has_upper (s +:+ t) = has_upper s || has_upper t.
Proof.
  induction s as [|c s IH]; [done|]. rewrite append_cons. simpl.
  by rewrite IH, orb_assoc.
Qed.

(** ** Prefix and substring *)

Lemma startsWith_spec s kw : startsWith s kw = true ↔ ∃ b, s = kw +:+ b.
Proof.
  unfold startsWith. revert s.
  induction kw as [|c kw IH]; intros s; simpl.
  - destruct s; split; eauto.
  - destruct s as [|d s]; simpl.
    + split; [done|]. by intros [b ?].
    + destruct (ascii_dec c d) as [->|Hne].
      * rewrite IH. split; intros [b Hb]; exists b; simpl_append; congruence.
      * split; [done|]. intros [b Hb]. simpl_append. congruence.
Qed.

Lemma includes_spec s kw :
  includes s kw = true ↔ ∃ a b, s = a +:+ kw +:+ b.
Proof.
  induction s as [|c s IH]; cbn [includes];
    rewrite orb_true_iff, startsWith_spec.
  - split.
    + intros [[b Hb]|?]; [|done]. by exists "", b.
    + intros (a & b & Hab). left.
      destruct a; simpl_append; [eauto|done].
  - rewrite IH. split.
    + intros [[b Hb]|(a & b & ->)]; [by exists "", b|].
      by exists (String c a), b.
    + intros ([|d a] & b & Hab); simpl_append; [eauto|].
      right. exists a, b. congruence.
Qed.

Lemma includes_empty_keyword s : includes s "" = true.
Proof. apply includes_spec. by exists "", s. Qed.

Lemma includes_refl s : includes s s = true.
Proof.
  apply includes_spec. exists "", "". by rewrite append_nil_l, append_nil_r.
Qed.

(** A string without upper-case letters includes no keyword that has one:
    the reason why a lower-cased source never matches ["_G"]. *)
Lemma includes_has_upper s kw :
  includes s kw = true → has_upper kw = true → has_upper s = true.
Proof.
  intros (a & b & ->)%includes_spec Hkw.
  by rewrite !has_upper_app, Hkw, orb_true_r.
Qed.

Lemma includes_toLowerCase_upper s kw :
  has_upper kw = true → includes (toLowerCase s) kw = false.
Proof.
  intros Hkw. apply not_true_is_false. intros Hin.
  pose proof (includes_has_upper _ _ Hin Hkw) as Hup.
  by rewrite has_upper_toLowerCase in Hup.
Qed.

(** ** Length *)

Lemma length_acc_spec s acc :
  length_acc s acc = (acc + N.of_nat (String.length s))%N.
Proof.
  revert acc. induction s as [|c s IH]; intros acc; simpl; [lia|].
  rewrite IH. lia.
Qed.

Lemma length_spec s : length s = N.of_nat (String.length s).
Proof. unfold length. by rewrite length_acc_spec. Qed.

Lemma String_length_app s t :
  String.length (s +:+ t) = String.length s + String.length t.
Proof.
  induction s as [|c s IH]; [done|]. rewrite append_cons. simpl. by rewrite IH.
Qed.

Lemma length_app s t : length (s +:+ t) = (length s + length t)%N.
Proof. rewrite !length_spec, String_length_app. lia. Qed.

Lemma length_repeat s p : length (repeat s p) = (N.pos p * length s)%N.
Proof.
  induction p as [p IH|p IH|]; simpl; rewrite ?length_app, ?IH; lia.
Qed.

Lemma length_toLowerCase s : length (toLowerCase s) = length s.
Proof.
  rewrite !length_spec. f_equal.
  induction s as [|c s IH]; simpl; congruence.
Qed.

End JsString.

#[export] Hint Rewrite JsString.has_upper_toLowerCase JsString.toLowerCase_idem
  JsString.length_repeat JsString.length_app JsString.includes_refl : bridge_rw.
#[export] Hint Resolve JsString.includes_toLowerCase_upper : bridge.
