(* ===== verification/JsMap.v ===== *)
(** * The JavaScript [Map]

    src/bridge.ts keeps three [Map]s: the property bag [_props] of a node,
    the class registry [instanceConstructors] and the
    [scriptSourceCache].  A [Map] iterates in insertion order and [set] on
    a key that is present keeps the key's position, so the model is an
    association list: the order of the diagnostics of [validateInstance]
    and of the properties copied by [cloneInstance] depends on it.

    The representation invariant [wf] says that keys are unique.  The
    equivalence [equiv] forgets the order; [to_gmap] maps a [Map] to the
    finite map it denotes and [get]/[set] refine lookup/insert. *)

From Stdlib Require Import String NArith Lia.
From stdpp Require Import base tactics option list gmap.
From S2P Require Import Prelude.

Abbreviation JsMap K V := (list (K * V)) (only parsing).

Module JsMap.

Section defs.
Context {K V : Type} `{EqDecision K}.
Implicit Types (m : JsMap K V) (k : K) (v : V).

(** [new Map()]. *)
Definition empty : JsMap K V := [].

(** [Map.prototype.get]; [None] is [undefined]. *)
Fixpoint get m k : option V :=
  match m with
  | [] => None
  | (k', v) :: m' => if decide (k' = k) then Some v else get m' k
  end.

(** [Map.prototype.has]. *)
Definition has m k : bool := bool_decide (is_Some (get m k)).

(** [Map.prototype.set]: in place when the key is present, at the end
    otherwise. *)
Fixpoint set m k v : JsMap K V :=
  match m with
  | [] => [(k, v)]
  | (k', v') :: m' =>
      if decide (k' = k) then (k, v) :: m' else (k', v') :: set m' k v
  end.

(** [Map.prototype.size]. *)
Definition size m : N := N.of_nat (length m).

(** The keys in iteration order. *)
Definition keys m : list K := m.*1.

(** Keys are unique. *)
Definition wf m : Prop := NoDup (keys m).

(** Two maps with the same bindings, in any order. *)
Definition equiv m1 m2 : Prop := ∀ k, get m1 k = get m2 k.

End defs.

Section to_gmap.
Context {K V : Type} `{Countable K}.

(** The finite map a [Map] denotes. *)
Definition to_gmap (m : JsMap K V) : gmap K V := list_to_map m.

End to_gmap.

Section lemmas.
Context {K V : Type} `{EqDecision K}.
Implicit Types (m : JsMap K V) (k : K) (v : V).

Lemma get_set_eq m k v : get (set m k v) k = Some v.
Proof.
  induction m as [|[k' v'] m IH]; simpl; repeat case_decide; simpl;
    repeat case_decide; congruence.
Qed.

Lemma get_set_ne m k k' v : k ≠ k' → get (set m k v) k' = get m k'.
Proof.
  intros Hne. induction m as [|[k0 v0] m IH]; simpl; repeat case_decide;
    simpl; repeat case_decide; congruence.
Qed.

Lemma get_set m k k' v :
  get (set m k v) k' = if decide (k = k') then Some v else get m k'.
Proof.
  case_decide as Hk; [subst; apply get_set_eq|by apply get_set_ne].
Qed.

Lemma get_None m k : get m k = None ↔ k ∉ keys m.
Proof.
  unfold keys. induction m as [|[k' v'] m IH]; csimpl.
  - split; [intros _; apply not_elem_of_nil|done].
  - rewrite not_elem_of_cons. destruct (decide (k' = k)) as [->|Hne].
    + split; [done|by intros [? _]].
    + rewrite IH. split; [intros; split; [congruence|done]|by intros [_ ?]].
Qed.

Lemma get_is_Some m k : is_Some (get m k) ↔ k ∈ keys m.
Proof.
  rewrite <-not_eq_None_Some, get_None.
  destruct (decide (k ∈ keys m)); naive_solver.
Qed.

Lemma has_true m k : has m k = true ↔ k ∈ keys m.
Proof. unfold has. by rewrite bool_decide_eq_true, get_is_Some. Qed.

Lemma get_Some_elem m k v : get m k = Some v → (k, v) ∈ m.
Proof.
  induction m as [|[k' v'] m IH]; simpl; [done|].
  case_decide; intros; simplify_eq; [left|right; auto].
Qed.

Lemma elem_get_Some m k v : wf m → (k, v) ∈ m → get m k = Some v.
Proof.
  unfold wf, keys. induction m as [|[k' v'] m IH]; csimpl.
  - by intros _ ?%elem_of_nil.
  - intros [Hk' Hm]%NoDup_cons [?|Hin]%elem_of_cons; simplify_eq.
    + by rewrite decide_True.
    + rewrite decide_False; [auto|]. intros ->. apply Hk'.
      by apply (list_elem_of_fmap_2 fst _ (k, v)).
Qed.

(** [set] on a present key keeps the keys and their order; on an absent
    key it appends the key. *)
Lemma keys_set m k v :
  keys (set m k v) = if decide (k ∈ keys m) then keys m else keys m ++ [k].
Proof.
  unfold keys. induction m as [|[k' v'] m IH]; csimpl.
  - done.
  - destruct (decide (k' = k)) as [->|Hne]; csimpl.
    + by rewrite decide_True by left.
    + rewrite IH. destruct (decide (k ∈ m.*1)) as [Hin|Hin].
      * by rewrite decide_True by (by right).
      * rewrite decide_False; [done|]. rewrite not_elem_of_cons. naive_solver.
Qed.

Lemma wf_empty : wf (@empty K V).
Proof. apply NoDup_nil_2. Qed.

Lemma wf_set m k v : wf m → wf (set m k v).
Proof.
  unfold wf. rewrite keys_set. case_decide as Hk; [done|].
  intros Hm. apply NoDup_app. split_and!; [done| |apply NoDup_singleton].
  intros x Hx ->%list_elem_of_singleton. done.
Qed.

(** The bindings of [set m k v] are those of [m] and the new one. *)
Lemma elem_of_set m k v e : e ∈ set m k v → e = (k, v) ∨ e ∈ m.
Proof.
  induction m as [|[k' v'] m IH]; simpl.
  - intros ?%list_elem_of_singleton. by left.
  - destruct (decide (k' = k)); rewrite !elem_of_cons.
    + intros [->|?]; auto.
    + intros [->|[->|?]%IH]; auto.
Qed.

Lemma Forall_set (P : K * V → Prop) m k v :
  Forall P m → P (k, v) → Forall P (set m k v).
Proof.
  rewrite !Forall_forall. intros Hm Hkv e [->|He]%elem_of_set; auto.
Qed.

Lemma set_absent m k v : k ∉ keys m → set m k v = m ++ [(k, v)].
Proof.
  unfold keys. induction m as [|[k' v'] m IH]; csimpl; [done|].
  rewrite not_elem_of_cons. intros [Hne Hk].
  rewrite decide_False by done. by rewrite IH.
Qed.

Lemma set_set m k v v' : set (set m k v) k v' = set m k v'.
Proof.
  induction m as [|[k0 v0] m IH]; simpl; repeat case_decide; simpl;
    repeat case_decide; congruence.
Qed.

Lemma size_set m k v :
  size (set m k v) = if has m k then size m else N.succ (size m).
Proof.
  unfold size. rewrite <-(length_fmap fst (set m k v)), <-(length_fmap fst m).
  fold (keys (set m k v)) (keys m). rewrite keys_set.
  destruct (has m k) eqn:Hh.
  - apply has_true in Hh. by rewrite decide_True.
  - rewrite decide_False; [rewrite length_app; simpl; lia|].
    by rewrite <-has_true, Hh.
Qed.

(** ** The order-forgetting equivalence *)

#[export] Instance equiv_equivalence : Equivalence (@equiv K V _).
Proof.
  split.
  - by intros m k.
  - by intros m1 m2 E k.
  - intros m1 m2 m3 E1 E2 k. by rewrite E1.
Qed.

#[export] Instance get_proper : Proper (equiv ==> eq ==> eq) (@get K V _).
Proof. intros m1 m2 E k ? <-. apply E. Qed.

#[export] Instance set_proper :
  Proper (equiv ==> eq ==> eq ==> equiv) (@set K V _).
Proof. intros m1 m2 E k ? <- v ? <- k'. rewrite !get_set. by rewrite E. Qed.

(** Setting two different keys commutes up to order. *)
Lemma set_comm m k1 k2 v1 v2 :
  k1 ≠ k2 → equiv (set (set m k1 v1) k2 v2) (set (set m k2 v2) k1 v1).
Proof. intros Hne k. rewrite !get_set. repeat case_decide; congruence. Qed.

End lemmas.

Section refinement.
Context {K V : Type} `{Countable K}.
Implicit Types (m : JsMap K V) (k : K) (v : V).

Lemma to_gmap_get m k : to_gmap m !! k = get m k.
Proof.
  unfold to_gmap. induction m as [|[k' v'] m IH]; simpl; [done|].
  rewrite lookup_insert. by case_decide.
Qed.

Lemma to_gmap_set m k v : to_gmap (set m k v) = <[k:=v]> (to_gmap m).
Proof.
  apply map_eq. intros k'.
  rewrite lookup_insert, !to_gmap_get, get_set. by repeat case_decide.
Qed.

Lemma to_gmap_equiv m1 m2 : equiv m1 m2 ↔ to_gmap m1 = to_gmap m2.
Proof.
  split.
  - intros E. apply map_eq. intros k. by rewrite !to_gmap_get.
  - intros E k. by rewrite <-!to_gmap_get, E.
Qed.

Lemma to_gmap_dom m : dom (to_gmap m) = list_to_set (keys m).
Proof.
  apply set_eq. intros k.
  by rewrite elem_of_dom, to_gmap_get, get_is_Some, elem_of_list_to_set.
Qed.

End refinement.

End JsMap.

#[export] Hint Resolve JsMap.wf_empty JsMap.wf_set : bridge.
#[export] Hint Rewrite @JsMap.get_set_eq @JsMap.set_set : bridge_rw.
