(* ===== verification/Effects.v ===== *)
(** * Effects: module state, console and exceptions

    The functions of src/bridge.ts write to the console, read and write
    the module-level [scriptSourceCache] (line 70), allocate objects and
    throw.  [M A] is the type of such a computation: it takes the run
    state and returns an [Outcome] with the state it reached.  A thrown
    exception keeps the state, as in JavaScript: what was logged or cached
    before the [throw] stays logged and cached.

    The cache is keyed by object identity in the source and by the
    referent of a node (a natural number) here.

    The file gives the equations of [run] on every primitive and loop
    (rewrite database [run_rw], tactic [simpl_run]) and the
    weakest-precondition calculus [wp m Q E st]: [m] run from [st] returns
    a value and a state that satisfy [Q] or throws an exception and a
    state that satisfy [E]; with [E := no_throw] it says that [m]
    returns. *)

From Stdlib Require Import String NArith Lia.
From stdpp Require Import base tactics option list strings.
From S2P Require Import Prelude JsString JsMap.


(** A JavaScript exception value: [new Error(message)] or a [TypeError]
    raised by the runtime or the library. *)
Inductive JsError :=
| Error (message : string)
| TypeError (message : string).

(** [String(e)], as a template literal renders an exception. *)
Definition JsError_toString (e : JsError) : string :=
  match e with
  | Error m => "Error: " +:+ m
  | TypeError m => "TypeError: " +:+ m
  end.

(** A line of output: [console.log] writes to [Out], [console.error] to
    [Err]. *)
Inductive Line :=
| Out (text : string)
| Err (text : string).

(** The state of a run. *)
Record RunState := mkRunState {
  scriptSourceCache : JsMap nat string;
  console : list Line;
  nextReferent : nat;
}.

Inductive Outcome (A : Type) :=
| Ret (a : A)
| Throw (e : JsError).
Arguments Ret {A} a.
Arguments Throw {A} e.

Definition M (A : Type) : Type := RunState → Outcome A * RunState.

(** [run m st] runs [m] from the state [st]. *)
Definition run {A : Type} (m : M A) (st : RunState) : Outcome A * RunState :=
  m st.
Arguments run : simpl never.

#[export] Instance M_ret : MRet M := λ A a st, (Ret a, st).

#[export] Instance M_bind : MBind M := λ A B k m st,
  match m st with
  | (Ret a, st') => k a st'
  | (Throw e, st') => (Throw e, st')
  end.

#[export] Instance M_fmap : FMap M := λ A B f m, a ← m; mret (f a).

(** [throw e]. *)
Definition throw {A : Type} (e : JsError) : M A := λ st, (Throw e, st).

(** [try { m } catch (e) { h e }]. *)
Definition try_catch {A : Type} (m : M A) (h : JsError → M A) : M A := λ st,
  match m st with
  | (Ret a, st') => (Ret a, st')
  | (Throw e, st') => h e st'
  end.

(** The state after [lines] were written to the console. *)
Definition emit (st : RunState) (lines : list Line) : RunState :=
  mkRunState (scriptSourceCache st) (console st ++ lines) (nextReferent st).

(** [console.log(text)] and [console.error(text)]. *)
Definition console_log (text : string) : M unit := λ st,
  (Ret (), emit st [Out text]).

Definition console_error (text : string) : M unit := λ st,
  (Ret (), emit st [Err text]).

(** [scriptSourceCache.get(key)], [.set(key, value)] and [.size]. *)
Definition cache_get (key : nat) : M (option string) := λ st,
  (Ret (JsMap.get (scriptSourceCache st) key), st).

Definition cache_set (key : nat) (value : string) : M unit := λ st,
  (Ret (), mkRunState (JsMap.set (scriptSourceCache st) key value)
             (console st) (nextReferent st)).

Definition cache_size : M N := λ st, (Ret (JsMap.size (scriptSourceCache st)), st).

(** The identity of a freshly allocated object. *)
Definition fresh_referent : M nat := λ st,
  (Ret (nextReferent st),
   mkRunState (scriptSourceCache st) (console st) (S (nextReferent st))).

(** [for (const x of l) { acc = f acc x }]. *)
Definition foldM {A B : Type} (f : B → A → M B) : list A → B → M B :=
  fix go l b :=
    match l with
    | [] => mret b
    | x :: l' => b' ← f b x; go l' b'
    end.

(** [for (const x of l) { f x }]. *)
Definition forM_ {A : Type} (f : A → M unit) : list A → M unit :=
  fix go l :=
    match l with
    | [] => mret ()
    | x :: l' => f x;; go l'
    end.

(** [l.map(f)] for an effectful [f], left to right. *)
Definition mapM {A B : Type} (f : A → M B) : list A → M (list B) :=
  fix go l :=
    match l with
    | [] => mret []
    | x :: l' => y ← f x; ys ← go l'; mret (y :: ys)
    end.

(** The initial state of a process: empty cache, empty console. *)
Definition initial_state (next : nat) : RunState := mkRunState [] [] next.

(** The text lines written to standard output, in order. *)
Definition stdout (st : RunState) : list string :=
  omap (λ l, match l with Out t => Some t | Err _ => None end) (console st).

(** ** Equations of the monad *)

Section laws.
Implicit Types (st : RunState) (e : JsError).

Lemma run_ret {A} (a : A) st : run (mret a) st = (Ret a, st).
Proof. reflexivity. Qed.

Lemma run_bind {A B} (m : M A) (k : A → M B) st :
  run (m ≫= k) st =
  match run m st with
  | (Ret a, st') => run (k a) st'
  | (Throw e, st') => (Throw e, st')
  end.
Proof. reflexivity. Qed.

Lemma run_bind_Ret {A B} (m : M A) (k : A → M B) st a st' :
  run m st = (Ret a, st') → run (m ≫= k) st = run (k a) st'.
Proof. intros Hm. by rewrite run_bind, Hm. Qed.

Lemma run_bind_Throw {A B} (m : M A) (k : A → M B) st e st' :
  run m st = (Throw e, st') → run (m ≫= k) st = (Throw e, st').
Proof. intros Hm. by rewrite run_bind, Hm. Qed.

(** The monad laws that [run] sees: [bind] is associative, and two
    continuations that run alike give binds that run alike. *)
Lemma run_bind_assoc {A B C} (m : M A) (k : A → M B) (k' : B → M C) st :
  run ((m ≫= k) ≫= k') st = run (m ≫= λ a, k a ≫= k') st.
Proof. rewrite !run_bind. by destruct (run m st) as [[a|e] st']. Qed.

Lemma run_bind_ext {A B} (m : M A) (k k' : A → M B) st :
  (∀ a st', run (k a) st' = run (k' a) st') → run (m ≫= k) st = run (m ≫= k') st.
Proof. intros Hk. rewrite !run_bind. by destruct (run m st) as [[a|e] st']. Qed.

Lemma run_fmap {A B} (f : A → B) (m : M A) st :
  run (f <$> m) st =
  match run m st with
  | (Ret a, st') => (Ret (f a), st')
  | (Throw e, st') => (Throw e, st')
  end.
Proof. reflexivity. Qed.

Lemma run_throw {A} e st : run (@throw A e) st = (Throw e, st).
Proof. reflexivity. Qed.

Lemma run_try_catch {A} (m : M A) h st :
  run (try_catch m h) st =
  match run m st with
  | (Ret a, st') => (Ret a, st')
  | (Throw e, st') => run (h e) st'
  end.
Proof. reflexivity. Qed.

Lemma run_console_log text st :
  run (console_log text) st = (Ret (), emit st [Out text]).
Proof. reflexivity. Qed.

Lemma run_console_error text st :
  run (console_error text) st = (Ret (), emit st [Err text]).
Proof. reflexivity. Qed.

Lemma emit_nil st : emit st [] = st.
Proof. destruct st. unfold emit. simpl. by rewrite app_nil_r. Qed.

Lemma emit_emit st l1 l2 : emit (emit st l1) l2 = emit st (l1 ++ l2).
Proof. unfold emit. simpl. by rewrite app_assoc. Qed.

Lemma console_emit st lines : console (emit st lines) = console st ++ lines.
Proof. reflexivity. Qed.

Lemma scriptSourceCache_emit st lines :
  scriptSourceCache (emit st lines) = scriptSourceCache st.
Proof. reflexivity. Qed.

Lemma nextReferent_emit st lines : nextReferent (emit st lines) = nextReferent st.
Proof. reflexivity. Qed.

Lemma run_cache_get key st :
  run (cache_get key) st = (Ret (JsMap.get (scriptSourceCache st) key), st).
Proof. reflexivity. Qed.

Lemma run_cache_set key value st :
  run (cache_set key value) st =
  (Ret (), mkRunState (JsMap.set (scriptSourceCache st) key value)
             (console st) (nextReferent st)).
Proof. reflexivity. Qed.

Lemma run_cache_size st :
  run cache_size st = (Ret (JsMap.size (scriptSourceCache st)), st).
Proof. reflexivity. Qed.

Lemma run_fresh_referent st :
  run fresh_referent st =
  (Ret (nextReferent st),
   mkRunState (scriptSourceCache st) (console st) (S (nextReferent st))).
Proof. reflexivity. Qed.

Lemma run_foldM_nil {A B} (f : B → A → M B) b st :
  run (foldM f [] b) st = (Ret b, st).
Proof. reflexivity. Qed.

Lemma run_foldM_cons {A B} (f : B → A → M B) x l b st :
  run (foldM f (x :: l) b) st = run (f b x ≫= foldM f l) st.
Proof. reflexivity. Qed.

Lemma run_forM__nil {A} (f : A → M unit) st : run (forM_ f []) st = (Ret (), st).
Proof. reflexivity. Qed.

Lemma run_forM__cons {A} (f : A → M unit) x l st :
  run (forM_ f (x :: l)) st = run (f x;; forM_ f l) st.
Proof. reflexivity. Qed.

(** [lines.forEach(line => console.log(line))]. *)
Lemma run_forM__console_log lines st :
  run (forM_ console_log lines) st = (Ret (), emit st (Out <$> lines)).
Proof.
  revert st. induction lines as [|line lines IH]; intros st.
  - by rewrite run_forM__nil, emit_nil.
  - by rewrite run_forM__cons, run_bind, run_console_log, IH, emit_emit.
Qed.

Lemma run_foldM_app {A B} (f : B → A → M B) l1 l2 b st :
  run (foldM f (l1 ++ l2) b) st = run (foldM f l1 b ≫= foldM f l2) st.
Proof.
  revert b st. induction l1 as [|x l1 IH]; intros b st; [done|].
  simpl app.
  rewrite run_foldM_cons, (run_bind (foldM f (x :: l1) b)), run_foldM_cons.
  rewrite !run_bind. destruct (run (f b x) st) as [[b'|e] st']; [|done].
  by rewrite IH, run_bind.
Qed.

Lemma run_mapM_nil {A B} (f : A → M B) st : run (mapM f []) st = (Ret [], st).
Proof. reflexivity. Qed.

Lemma run_mapM_cons {A B} (f : A → M B) x l st :
  run (mapM f (x :: l)) st =
  run (y ← f x; ys ← mapM f l; mret (y :: ys)) st.
Proof. reflexivity. Qed.

End laws.

(** ** The console only grows *)

(** [extends st st']: [st'] has the console of [st] followed by more
    lines.  Every primitive of [M] extends the state. *)
Definition extends (st st' : RunState) : Prop :=
  ∃ more, console st' = console st ++ more.

#[export] Instance extends_preorder : PreOrder extends.
Proof.
  split.
  - intros st. exists []. by rewrite app_nil_r.
  - intros st1 st2 st3 [m1 H1] [m2 H2]. exists (m1 ++ m2).
    by rewrite H2, H1, app_assoc.
Qed.

Lemma extends_emit st lines : extends st (emit st lines).
Proof. by exists lines. Qed.

Lemma extends_console_log text st : extends st (run (console_log text) st).2.
Proof. apply extends_emit. Qed.

Lemma extends_console_error text st : extends st (run (console_error text) st).2.
Proof. apply extends_emit. Qed.

Lemma extends_cache_set key value st : extends st (run (cache_set key value) st).2.
Proof. exists []. simpl. by rewrite app_nil_r. Qed.

Lemma extends_fresh_referent st : extends st (run fresh_referent st).2.
Proof. exists []. simpl. by rewrite app_nil_r. Qed.

#[export] Hint Resolve extends_emit extends_console_log extends_console_error
  extends_cache_set extends_fresh_referent : bridge.
(** [run_rw] evaluates a computation one primitive at a time. *)
Create Rewrite HintDb run_rw.
#[export] Hint Rewrite emit_nil emit_emit console_emit scriptSourceCache_emit
  nextReferent_emit : run_rw.
#[export] Hint Rewrite @run_ret @run_throw @run_bind @run_fmap @run_try_catch
  run_console_log run_console_error run_cache_get run_cache_set run_cache_size
  run_fresh_referent @run_foldM_nil @run_foldM_cons @run_forM__nil
  @run_forM__cons @run_mapM_nil @run_mapM_cons : run_rw.

(** Evaluate the primitives of [M] in the goal and in the hypotheses. *)
Ltac simpl_run :=
  repeat first
    [ progress autorewrite with run_rw in *
    | progress cbn beta iota in * ].

(** ** Weakest preconditions

    [wp m Q E st]: run from [st], the computation [m] either returns a
    value and a state that satisfy [Q], or throws an exception and reaches
    a state that satisfy [E].  With [E := no_throw] this is total
    correctness: [m] returns. *)
Definition wp {A : Type} (m : M A) (Q : A → RunState → Prop)
    (E : JsError → RunState → Prop) (st : RunState) : Prop :=
  match run m st with
  | (Ret a, st') => Q a st'
  | (Throw e, st') => E e st'
  end.

Definition no_throw : JsError → RunState → Prop := λ _ _, False.

Section wp.
Implicit Types (st : RunState) (E : JsError → RunState → Prop).

Lemma wp_run {A} (m : M A) Q st :
  wp m Q no_throw st ↔ ∃ a st', run m st = (Ret a, st') ∧ Q a st'.
Proof.
  unfold wp. destruct (run m st) as [[a|e] st'].
  { split; [eauto|by intros (? & ? & [= <- <-] & ?)]. }
  split; [done|]. by intros (a & st'' & ? & _).
Qed.

Lemma wp_ret {A} (a : A) Q E st : wp (mret a) Q E st ↔ Q a st.
Proof. reflexivity. Qed.

Lemma wp_throw {A} e (Q : A → RunState → Prop) E st : wp (throw e) Q E st ↔ E e st.
Proof. reflexivity. Qed.

Lemma wp_bind {A B} (m : M A) (k : A → M B) Q E st :
  wp (m ≫= k) Q E st ↔ wp m (λ a st', wp (k a) Q E st') E st.
Proof. unfold wp. rewrite run_bind. by destruct (run m st) as [[a|e] st']. Qed.

Lemma wp_fmap {A B} (f : A → B) (m : M A) Q E st :
  wp (f <$> m) Q E st ↔ wp m (λ a st', Q (f a) st') E st.
Proof. unfold wp. rewrite run_fmap. by destruct (run m st) as [[a|e] st']. Qed.

Lemma wp_try_catch {A} (m : M A) h Q E st :
  wp (try_catch m h) Q E st ↔ wp m Q (λ e st', wp (h e) Q E st') st.
Proof.
  unfold wp. rewrite run_try_catch. by destruct (run m st) as [[a|e] st'].
Qed.

Lemma wp_mono {A} (m : M A) (Q Q' : A → RunState → Prop) E E' st :
  wp m Q E st →
  (∀ a st', Q a st' → Q' a st') → (∀ e st', E e st' → E' e st') →
  wp m Q' E' st.
Proof. unfold wp. destruct (run m st) as [[a|e] st']; eauto. Qed.

(** Every computation satisfies the trivial conditions. *)
Lemma wp_True {A} (m : M A) st : wp m (λ _ _, True) (λ _ _, True) st.
Proof. unfold wp. by destruct (run m st) as [[a|e] st']. Qed.

(** Skip a step whose result does not matter. *)
Lemma wp_bind_any {A B} (m : M A) (k : A → M B) Q E st :
  (∀ a st', wp (k a) Q E st') → (∀ e st', E e st') → wp (m ≫= k) Q E st.
Proof.
  intros Hk HE. apply wp_bind. eapply wp_mono; [apply wp_True|..]; auto.
Qed.

(** A computation whose run is known. *)
Lemma wp_eq {A} (m : M A) Q E st a st' :
  run m st = (Ret a, st') → wp m Q E st ↔ Q a st'.
Proof. unfold wp. by intros ->. Qed.

(** The rule of the [for] loop: [I pre b st] holds after the elements
    [pre] were processed with the accumulator at [b]. *)
Lemma wp_foldM {A B} (I : list A → B → RunState → Prop) (f : B → A → M B) l b E st :
  I [] b st →
  (∀ pre x rest b st, l = pre ++ x :: rest → I pre b st →
     wp (f b x) (I (pre ++ [x])) E st) →
  wp (foldM f l b) (I l) E st.
Proof.
  intros Hinit Hstep.
  enough (∀ pre rest b st, l = pre ++ rest → I pre b st →
            wp (foldM f rest b) (I l) E st) as Hgen by by apply (Hgen [] l).
  clear b st Hinit. intros pre rest. revert pre.
  induction rest as [|x rest IH]; intros pre b st Hl HI.
  - rewrite app_nil_r in Hl. subst. unfold wp. by rewrite run_foldM_nil.
  - unfold wp. rewrite run_foldM_cons.
    fold (wp (f b x ≫= foldM f rest) (I l) E st).
    apply wp_bind. eapply wp_mono; [eapply Hstep; eassumption| |done].
    intros b' st' HI'. apply (IH (pre ++ [x])); [|done].
    by rewrite <-app_assoc.
Qed.

(** The rule of the [for] loop without an accumulator. *)
Lemma wp_forM_ {A} (I : list A → RunState → Prop) (f : A → M unit) l E st :
  I [] st →
  (∀ pre x rest st, l = pre ++ x :: rest → I pre st →
     wp (f x) (λ _, I (pre ++ [x])) E st) →
  wp (forM_ f l) (λ _, I l) E st.
Proof.
  intros Hinit Hstep.
  enough (∀ pre rest st, l = pre ++ rest → I pre st →
            wp (forM_ f rest) (λ _, I l) E st) as Hgen by by apply (Hgen [] l).
  clear st Hinit. intros pre rest. revert pre.
  induction rest as [|x rest IH]; intros pre st Hl HI.
  - rewrite app_nil_r in Hl. subst. unfold wp. by rewrite run_forM__nil.
  - unfold wp. rewrite run_forM__cons.
    fold (wp (f x;; forM_ f rest) (λ _, I l) E st).
    apply wp_bind. eapply wp_mono; [eapply Hstep; eassumption| |done].
    intros [] st' HI'. apply (IH (pre ++ [x])); [|done].
    by rewrite <-app_assoc.
Qed.

End wp.

Lemma wp_console_log text (Q : unit → RunState → Prop) E st :
  wp (console_log text) Q E st ↔ Q () (emit st [Out text]).
Proof. reflexivity. Qed.

Lemma wp_console_error text (Q : unit → RunState → Prop) E st :
  wp (console_error text) Q E st ↔ Q () (emit st [Err text]).
Proof. reflexivity. Qed.

Lemma wp_cache_get key (Q : option string → RunState → Prop) E st :
  wp (cache_get key) Q E st ↔ Q (JsMap.get (scriptSourceCache st) key) st.
Proof. reflexivity. Qed.

Lemma wp_cache_set key value (Q : unit → RunState → Prop) E st :
  wp (cache_set key value) Q E st ↔
  Q () (mkRunState (JsMap.set (scriptSourceCache st) key value) (console st)
          (nextReferent st)).
Proof. reflexivity. Qed.

Lemma wp_cache_size (Q : N → RunState → Prop) E st :
  wp cache_size Q E st ↔ Q (JsMap.size (scriptSourceCache st)) st.
Proof. reflexivity. Qed.

Lemma wp_fresh_referent (Q : nat → RunState → Prop) E st :
  wp fresh_referent Q E st ↔
  Q (nextReferent st)
    (mkRunState (scriptSourceCache st) (console st) (S (nextReferent st))).
Proof. reflexivity. Qed.

(** Reduce a [wp] goal by the rules of the primitives. *)
Ltac wp_step :=
  lazymatch goal with
  | |- wp (mret _) _ _ _ => apply wp_ret
  | |- wp (throw _) _ _ _ => apply wp_throw
  | |- wp (_ ≫= _) _ _ _ => apply wp_bind
  | |- wp (try_catch _ _) _ _ _ => apply wp_try_catch
  | |- wp (_ <$> _) _ _ _ => apply wp_fmap
  | |- wp (console_log _) _ _ _ => apply wp_console_log
  | |- wp (console_error _) _ _ _ => apply wp_console_error
  | |- wp (cache_get _) _ _ _ => apply wp_cache_get
  | |- wp (cache_set _ _) _ _ _ => apply wp_cache_set
  | |- wp cache_size _ _ _ => apply wp_cache_size
  | |- wp fresh_referent _ _ _ => apply wp_fresh_referent
  end.

Ltac wp_steps := repeat (wp_step; cbn beta).
