(* ===== verification/Instance.v ===== *)
(** * The node model

    [Instance] is the tree node of rbxm-parser as spec.md section 3
    describes it; [GenericInstance] (src/bridge.ts lines 22-54) is the
    subclass the bridge adds for class names that are not in its registry
    [instanceConstructors] (lines 56-68).

    The library's own [SetProp] is outside src/.  The interface [RbxmApi]
    says when it throws; when it does not, it stores the typed value under
    the name (spec.md 4.1).  [GenericInstance_SetProp] is the override of
    lines 42-53 and [SetProp] is the dynamic dispatch on the node's kind. *)

From Stdlib Require Import String NArith ZArith Lia.
From stdpp Require Import base tactics option list strings.
From S2P Require Import Prelude JsString JsMap Effects.

(** ** Values *)

(** The type tag of a property value.  The source compares tags with
    string literals (['String'], ['BinaryString']). *)
Definition DataType : Type := string.

(** [DataType.String] (line 159), a constant of the library: taken to be
    the tag ['String'] that line 46 compares with. *)
Definition DataType_String : DataType := "String".

(** The payload of a property value, a JavaScript value. *)
Inductive Payload :=
| PString (s : string)
| PBuffer (bytes : list N)
| PNumber (n : Z)
| PBool (b : bool)
| PNull.

(** [typeof value === 'string']. *)
Definition is_string (value : Payload) : bool :=
  match value with PString _ => true | _ => false end.

(** [value.length]: defined on strings and byte arrays, [undefined]
    ([None]) on every other payload. *)
Definition payload_length (value : Payload) : option N :=
  match value with
  | PString s => Some (JsString.length s)
  | PBuffer bytes => Some (N.of_nat (length bytes))
  | _ => None
  end.

(** [x > limit] where [x] may be [undefined]: false on [undefined]. *)
Definition exceeds (x : option N) (limit : N) : bool :=
  match x with
  | Some n => (limit <? n)%N
  | None => false
  end.

(** The library's typed value [{type, value}]. *)
Record RobloxValue := mkRobloxValue {
  type : DataType;
  value : Payload;
}.

#[export] Instance Payload_eq_dec : EqDecision Payload.
Proof. solve_decision. Defined.

#[export] Instance RobloxValue_eq_dec : EqDecision RobloxValue.
Proof. solve_decision. Defined.

(** ** Nodes *)

(** What a node is an instance of: a class of the library, or the
    [GenericInstance] of the bridge with its two private fields. *)
Inductive InstanceKind :=
| LibraryClass (className : string)
| GenericInstance (_customClassName : string)
    (_propertyValidationsEnabled : bool).

#[export] Instance InstanceKind_eq_dec : EqDecision InstanceKind.
Proof. solve_decision. Defined.

Unset Elimination Schemes.
Inductive Instance := mkInstance {
  referent : nat;
  kind : InstanceKind;
  Name : string;
  _props : JsMap string (option RobloxValue);
  Children : list Instance;
}.
Set Elimination Schemes.

(** The read-only accessor [ClassName]: the class of a library node, the
    [_customClassName] of a generic one (lines 31-35). *)
Definition ClassName (i : Instance) : string :=
  match kind i with
  | LibraryClass className => className
  | GenericInstance _customClassName _ => _customClassName
  end.

(** [this._propertyValidationsEnabled]; a library node has no such field
    and no validation. *)
Definition validationsEnabled (i : Instance) : bool :=
  match kind i with
  | LibraryClass _ => false
  | GenericInstance _ enabled => enabled
  end.

(** Field updates. *)
Definition set_kind (i : Instance) (k : InstanceKind) : Instance :=
  mkInstance (referent i) k (Name i) (_props i) (Children i).

Definition set_Name (i : Instance) (name : string) : Instance :=
  mkInstance (referent i) (kind i) name (_props i) (Children i).

Definition set_props (i : Instance)
    (props : JsMap string (option RobloxValue)) : Instance :=
  mkInstance (referent i) (kind i) (Name i) props (Children i).

Definition set_Children (i : Instance) (children : list Instance) : Instance :=
  mkInstance (referent i) (kind i) (Name i) (_props i) children.

(** [child.Parent = parent] for a [child] that has no parent yet: the
    child goes to the end of the parent's children. *)
Definition appendChild (parent child : Instance) : Instance :=
  set_Children parent (Children parent ++ [child]).

(** The accessor [Source] of script nodes: the text stored under
    ["Source"], [None] ([undefined] or [null]) when there is none. *)
Definition Source (i : Instance) : option string :=
  match JsMap.get (_props i) "Source" with
  | Some (Some (mkRobloxValue _ (PString s))) => Some s
  | _ => None
  end.

(** [instance.Source = text]: the setter of the library stores the text
    and never throws, unlike [SetProp]. *)
Definition set_Source (i : Instance) (text : string) : Instance :=
  set_props i
    (JsMap.set (_props i) "Source"
       (Some (mkRobloxValue DataType_String (PString text)))).

(** ** Constructors *)

(** [new C()] for a class [C] of the library: an empty node. *)
Definition new_LibraryClass (className : string) (ref : nat) : Instance :=
  mkInstance ref (LibraryClass className) className [] [].

(** [new GenericInstance(className)] (lines 26-36); the parameter
    defaults to ["Instance"]. *)
Definition new_GenericInstance (className : option string) (ref : nat) :
    Instance :=
  let _customClassName := default "Instance" className in
  mkInstance ref (GenericInstance _customClassName true) _customClassName [] [].

(** [enablePropertyValidation] (lines 38-40). *)
Definition enablePropertyValidation (i : Instance) (enable : bool) : Instance :=
  match kind i with
  | GenericInstance _customClassName _ =>
      set_kind i (GenericInstance _customClassName enable)
  | LibraryClass _ => i
  end.

(** The class registry (lines 56-68): a constructor takes the identity of
    the object it allocates. *)
Definition instanceConstructors : JsMap string (nat → Instance) :=
  [ ("Model", new_LibraryClass "Model");
    ("Script", new_LibraryClass "Script");
    ("ModuleScript", new_LibraryClass "ModuleScript");
    ("Folder", new_LibraryClass "Folder");
    ("BuoyancySensor", new_LibraryClass "BuoyancySensor");
    ("Configuration", new_LibraryClass "Configuration");
    ("AtmosphereSensor", new_LibraryClass "AtmosphereSensor");
    ("ControllerPartSensor", new_LibraryClass "ControllerPartSensor");
    ("FluidForceSensor", new_LibraryClass "FluidForceSensor");
    ("ClickDetector", new_LibraryClass "ClickDetector");
    ("IntValue", new_LibraryClass "IntValue") ].

(** ** Traversals *)

(** The nodes of a tree in document order, the root first. *)
Fixpoint nodes (i : Instance) : list Instance :=
  i :: flat_map nodes (Children i).

(** The proper descendants of a node. *)
Definition descendants (i : Instance) : list Instance :=
  flat_map nodes (Children i).

(** The shape of a tree: names and class names, children in order. *)
Unset Elimination Schemes.
Inductive Shape := mkShape (name className : string) (children : list Shape).
Set Elimination Schemes.

Fixpoint shape (i : Instance) : Shape :=
  mkShape (Name i) (ClassName i) (shape <$> Children i).

(** ** The library interface *)

(** [SetProp_check className name type value] is the exception the
    library's [SetProp] throws on a node of class [className], or [None]
    when it accepts the value. *)
Class RbxmApi := {
  SetProp_check : string → string → DataType → Payload → option JsError;
}.

(** The library of spec.md 4.1: [SetProp] accepts everything. *)
Definition permissive_api : RbxmApi := {| SetProp_check := λ _ _ _ _, None |}.

(** A library that checks the payload against the tag ["String"]. *)
Definition typed_api : RbxmApi :=
  {| SetProp_check := λ _ name type value,
       if bool_decide (type = DataType_String) && negb (is_string value)
       then Some (TypeError ("Invalid value for property " +:+ name))
       else None |}.

Section setprop.
Context {api : RbxmApi}.

(** [Instance.prototype.SetProp] of the library. *)
Definition Instance_SetProp (i : Instance) (name : string) (type : DataType)
    (value : Payload) : M (bool * Instance) :=
  match SetProp_check (ClassName i) name type value with
  | Some e => throw e
  | None =>
      mret (true,
            set_props i
              (JsMap.set (_props i) name (Some (mkRobloxValue type value))))
  end.

(** [GenericInstance.prototype.SetProp] (lines 42-53). *)
Definition GenericInstance_SetProp (i : Instance) (name : string)
    (type : DataType) (value : Payload) : M (bool * Instance) :=
  if validationsEnabled i then
    if bool_decide (name = "UniqueId") then mret (false, i)
    else if bool_decide (type = "String") && is_string value
            && exceeds (payload_length value) 500000
    then
      console_log ("[WARN] Skipping large string property " +:+ name);;
      mret (false, i)
    else Instance_SetProp i name type value
  else Instance_SetProp i name type value.

(** [instance.SetProp(name, type, value)]: the method of the node's
    class. *)
Definition SetProp (i : Instance) (name : string) (type : DataType)
    (value : Payload) : M (bool * Instance) :=
  match kind i with
  | LibraryClass _ => Instance_SetProp i name type value
  | GenericInstance _ _ => GenericInstance_SetProp i name type value
  end.

End setprop.

(** ** Induction on trees *)

Definition Instance_ind (P : Instance → Prop)
    (step : ∀ r k n p cs, Forall P cs → P (mkInstance r k n p cs)) :
    ∀ i, P i :=
  fix go (i : Instance) : P i :=
    match i with
    | mkInstance r k n p cs =>
        step r k n p cs
          ((fix go_list (l : list Instance) : Forall P l :=
              match l with
              | [] => List.Forall_nil P
              | c :: l' => @List.Forall_cons _ P c l' (go c) (go_list l')
              end) cs)
    end.

(** ** Field updates *)

Lemma set_Children_Children i : set_Children i (Children i) = i.
Proof. by destruct i. Qed.

Lemma Children_set_Children i cs : Children (set_Children i cs) = cs.
Proof. reflexivity. Qed.

Lemma ClassName_set_props i p : ClassName (set_props i p) = ClassName i.
Proof. reflexivity. Qed.

Lemma ClassName_set_Name i n : ClassName (set_Name i n) = ClassName i.
Proof. reflexivity. Qed.

Lemma ClassName_appendChild p c : ClassName (appendChild p c) = ClassName p.
Proof. reflexivity. Qed.

Lemma Source_set_Source i text : Source (set_Source i text) = Some text.
Proof. unfold Source, set_Source. simpl. by rewrite JsMap.get_set_eq. Qed.

Lemma set_Source_set_Source i s t :
  set_Source (set_Source i s) t = set_Source i t.
Proof. unfold set_Source. simpl. unfold set_props. simpl. by rewrite JsMap.set_set. Qed.

(** ** Traversals, one level at a time *)

Lemma nodes_eq i : nodes i = i :: flat_map nodes (Children i).
Proof. by destruct i. Qed.

Lemma shape_eq i : shape i = mkShape (Name i) (ClassName i) (shape <$> Children i).
Proof. by destruct i. Qed.

Lemma shape_set_Children i cs :
  shape (set_Children i cs) = mkShape (Name i) (ClassName i) (shape <$> cs).
Proof. reflexivity. Qed.

Lemma shape_inv i j :
  shape i = shape j →
  Name i = Name j ∧ ClassName i = ClassName j ∧
  shape <$> Children i = shape <$> Children j.
Proof. rewrite (shape_eq i), (shape_eq j). by intros [= -> -> ->]. Qed.

Lemma nodes_set_Children i cs :
  nodes (set_Children i cs) = set_Children i cs :: flat_map nodes cs.
Proof. reflexivity. Qed.

(** A tree is one of its nodes, and so are the nodes of its children. *)
Lemma elem_of_nodes_root i : i ∈ nodes i.
Proof. rewrite nodes_eq. left. Qed.

Lemma elem_of_nodes_child i c n : c ∈ Children i → n ∈ nodes c → n ∈ nodes i.
Proof.
  intros Hc Hn. rewrite nodes_eq. right. apply elem_of_flat_map. eauto.
Qed.

(** ** The registry *)

(** The registry answers exactly its eleven class names. *)
Lemma instanceConstructors_keys :
  JsMap.keys instanceConstructors =
  ["Model"; "Script"; "ModuleScript"; "Folder"; "BuoyancySensor";
   "Configuration"; "AtmosphereSensor"; "ControllerPartSensor";
   "FluidForceSensor"; "ClickDetector"; "IntValue"].
Proof. reflexivity. Qed.

Lemma instanceConstructors_wf : JsMap.wf instanceConstructors.
Proof. unfold JsMap.wf. rewrite instanceConstructors_keys. compute_done. Qed.

(** Every constructor of the registry builds an empty library node of the
    class it is filed under. *)
Lemma instanceConstructors_get className ctor :
  JsMap.get instanceConstructors className = Some ctor →
  ctor = new_LibraryClass className.
Proof.
  intros Hget. apply JsMap.get_Some_elem in Hget.
  unfold instanceConstructors in Hget.
  repeat (apply elem_of_cons in Hget as [Heq|Hget]; [by simplify_eq|]).
  by apply elem_of_nil in Hget.
Qed.

(** ** [SetProp] *)

Section setprop_lemmas.
Context {api : RbxmApi}.
Implicit Types (i : Instance) (st : RunState).

Lemma run_Instance_SetProp_accept i name type value st :
  SetProp_check (ClassName i) name type value = None →
  run (Instance_SetProp i name type value) st =
  (Ret (true, set_props i
                (JsMap.set (_props i) name (Some (mkRobloxValue type value)))),
   st).
Proof. unfold Instance_SetProp. by intros ->. Qed.

Lemma run_Instance_SetProp_throw i name type value e st :
  SetProp_check (ClassName i) name type value = Some e →
  run (Instance_SetProp i name type value) st = (Throw e, st).
Proof. unfold Instance_SetProp. by intros ->. Qed.

Lemma run_GenericInstance_SetProp_UniqueId i type value st :
  validationsEnabled i = true →
  run (GenericInstance_SetProp i "UniqueId" type value) st = (Ret (false, i), st).
Proof. unfold GenericInstance_SetProp. by intros ->. Qed.

(** C19: with validations enabled, [GenericInstance.SetProp] answers
    [false] on a string of more than 500000 characters, logs one warning
    and leaves the node as it was. *)
Lemma run_GenericInstance_SetProp_large i name s st :
  validationsEnabled i = true → name ≠ "UniqueId" →
  (500000 < JsString.length s)%N →
  run (GenericInstance_SetProp i name "String" (PString s)) st =
  (Ret (false, i),
   emit st [Out ("[WARN] Skipping large string property " +:+ name)]).
Proof.
  intros Hen Hname Hlen. unfold GenericInstance_SetProp.
  rewrite Hen, bool_decide_eq_false_2 by done. simpl.
  by rewrite (proj2 (N.ltb_lt _ _) Hlen).
Qed.

(** C20: the limit of line 46 is strict: under any name but [UniqueId],
    [GenericInstance.SetProp] hands a string of 500000 characters or fewer
    to the library's [SetProp], whatever the tag and whether validations
    are enabled or not, so it is stored or refused as the library
    decides. *)
Lemma run_GenericInstance_SetProp_within_limit i name type s st :
  name ≠ "UniqueId" → (JsString.length s ≤ 500000)%N →
  run (GenericInstance_SetProp i name type (PString s)) st =
  run (Instance_SetProp i name type (PString s)) st.
Proof.
  intros Hname Hlen. unfold GenericInstance_SetProp.
  destruct (validationsEnabled i); [|done].
  rewrite bool_decide_eq_false_2 by done. cbn [is_string payload_length exceeds].
  by rewrite (proj2 (N.ltb_ge _ _) Hlen), andb_false_r.
Qed.

Lemma run_GenericInstance_SetProp_disabled i name type value st :
  validationsEnabled i = false →
  run (GenericInstance_SetProp i name type value) st =
  run (Instance_SetProp i name type value) st.
Proof. unfold GenericInstance_SetProp. by intros ->. Qed.

(** When [SetProp] answers [false] the node is unchanged; when it answers
    [true] the bag has the value under the name. *)
Lemma run_SetProp_inv i name type value st b i' st' :
  run (SetProp i name type value) st = (Ret (b, i'), st') →
  if b then
    i' = set_props i
           (JsMap.set (_props i) name (Some (mkRobloxValue type value)))
  else i' = i.
Proof.
  unfold SetProp, GenericInstance_SetProp, Instance_SetProp.
  destruct (kind i), (validationsEnabled i);
    repeat case_match; intros; simpl_run; by simplify_eq.
Qed.

End setprop_lemmas.

Lemma run_GenericInstance_SetProp_large_witness :
  run
    (GenericInstance_SetProp (api := permissive_api)
       (new_GenericInstance (Some "Part") 0) "Data"
       "String" (PString (JsString.repeat "a" 500001)))
    (initial_state 1) =
  (Ret (false, new_GenericInstance (Some "Part") 0),
   mkRunState [] [Out "[WARN] Skipping large string property Data"] 1).
Proof.
  apply (run_GenericInstance_SetProp_large (api := permissive_api));
    [reflexivity | done | vm_compute; reflexivity].
Defined.

Lemma run_GenericInstance_SetProp_within_limit_witness :
  run
    (GenericInstance_SetProp (api := permissive_api)
       (new_GenericInstance (Some "Part") 0) "Data"
       "String" (PString (JsString.repeat "a" 500000)))
    (initial_state 1) =
  (Ret (true,
        set_props (new_GenericInstance (Some "Part") 0)
          [("Data", Some (mkRobloxValue "String"
                            (PString (JsString.repeat "a" 500000))))]),
   initial_state 1).
Proof.
  rewrite (run_GenericInstance_SetProp_within_limit (api := permissive_api));
    [reflexivity | done | vm_compute; discriminate].
Defined.

#[export] Hint Rewrite ClassName_set_props ClassName_set_Name
  ClassName_appendChild Source_set_Source set_Source_set_Source : bridge_rw.
#[export] Hint Resolve instanceConstructors_wf : bridge.
