(* ===== verification/Validate.v ===== *)
(** * The structural validator

    [validateInstance] (src/bridge.ts lines 95-119) walks a tree, appends
    one warning per [UniqueId] property and one error per property whose
    value is [null] or [undefined], and answers whether no error was found.
    The array [errors] is passed by reference in the source; here it is
    threaded: the function takes the array and returns it with the new
    lines appended.

    The specification is the pair of pure functions [valid_tree] and
    [diagnostics]; [validateInstance_eq] shows that the code computes
    exactly them. *)

From Stdlib Require Import String NArith Lia.
From stdpp Require Import base tactics option list strings.
From S2P Require Import Prelude JsString JsMap Effects Instance.

(** ** The code *)

(** Line 97: [path ? `${path}.${instance.Name}` : instance.Name].  The
    empty string is falsy. *)
Definition currentPath (path : string) (instance : Instance) : string :=
  if bool_decide (path = "") then Name instance
  else path +:+ "." +:+ Name instance.

(** The body of the loop of lines 100-109, on the running verdict and the
    array of diagnostics. *)
Definition validateProp (currentPath : string) (acc : bool * list string)
    (entry : string * option RobloxValue) : bool * list string :=
  let '(isValid, errors) := acc in
  let '(propName, propValue) := entry in
  let errors :=
    if bool_decide (propName = "UniqueId")
    then errors ++ ["[WARN] Found UniqueId at " +:+ currentPath]
    else errors in
  match propValue with
  | None =>
      (false,
       errors ++ ["[ERROR] Null/undefined property " +:+ propName +:+ " at "
                  +:+ currentPath])
  | Some _ => (isValid, errors)
  end.

(** [validateInstance(instance, errors, path)] (lines 95-119). *)
Fixpoint validateInstance (instance : Instance) (errors : list string)
    (path : string) : bool * list string :=
  let currentPath := currentPath path instance in
  let afterProps :=
    fold_left (validateProp currentPath) (_props instance) (true, errors) in
  fold_left
    (λ (acc : bool * list string) (child : Instance),
       let '(isValid, errors) := acc in
       let '(childValid, errors) := validateInstance child errors currentPath in
       (childValid && isValid, errors))
    (Children instance) afterProps.

(** ** The specification *)

(** The diagnostics of one property. *)
Definition prop_diagnostics (currentPath : string)
    (entry : string * option RobloxValue) : list string :=
  (if bool_decide (entry.1 = "UniqueId")
   then ["[WARN] Found UniqueId at " +:+ currentPath] else []) ++
  (if entry.2 is None
   then ["[ERROR] Null/undefined property " +:+ entry.1 +:+ " at "
         +:+ currentPath]
   else []).

(** The diagnostics of a tree, in the order of the traversal. *)
Fixpoint diagnostics (path : string) (instance : Instance) : list string :=
  let currentPath := currentPath path instance in
  flat_map (prop_diagnostics currentPath) (_props instance) ++
  flat_map (diagnostics currentPath) (Children instance).

(** A property that holds a value. *)
Definition prop_ok (entry : string * option RobloxValue) : bool :=
  bool_decide (is_Some entry.2).

(** No property of the tree is [null]. *)
Fixpoint valid_tree (instance : Instance) : bool :=
  forallb prop_ok (_props instance) && forallb valid_tree (Children instance).

(** A line of the array is an error. *)
Definition is_error (line : string) : bool := JsString.startsWith line "[ERROR]".

(** The number of [null] properties of a tree. *)
Fixpoint null_count (instance : Instance) : nat :=
  sum_list_with (λ e, if prop_ok e then 0 else 1) (_props instance) +
  sum_list_with null_count (Children instance).

(** ** The code computes the specification *)

Lemma validateProp_spec cp acc entry :
  validateProp cp acc entry =
  (acc.1 && prop_ok entry, acc.2 ++ prop_diagnostics cp entry).
Proof.
  destruct acc as [b errs], entry as [name [v|]];
    unfold validateProp, prop_diagnostics, prop_ok; simpl;
    case_bool_decide; simpl;
    rewrite ?app_nil_r, ?andb_true_r, ?andb_false_r, <-?app_assoc; done.
Qed.

Lemma fold_validateProp cp props b errs :
  fold_left (validateProp cp) props (b, errs) =
  (b && forallb prop_ok props, errs ++ flat_map (prop_diagnostics cp) props).
Proof.
  revert b errs.
  induction props as [|e props IH]; intros b errs; cbn [fold_left forallb flat_map].
  - by rewrite andb_true_r, app_nil_r.
  - by rewrite validateProp_spec, IH, andb_assoc, app_assoc.
Qed.

(** The loop over the children, given that each child obeys the
    specification. *)
Lemma fold_validate_children cp children b errs :
  Forall (λ c, ∀ errs path, validateInstance c errs path =
                 (valid_tree c, errs ++ diagnostics path c)) children →
  fold_left
    (λ (acc : bool * list string) (child : Instance),
       let '(isValid, errors) := acc in
       let '(childValid, errors) := validateInstance child errors cp in
       (childValid && isValid, errors))
    children (b, errs) =
  (b && forallb valid_tree children,
   errs ++ flat_map (diagnostics cp) children).
Proof.
  intros Hall. revert b errs.
  induction Hall as [|c children Hc _ IH]; intros b errs;
    cbn [fold_left forallb flat_map].
  - by rewrite andb_true_r, app_nil_r.
  - rewrite Hc, IH, app_assoc. f_equal.
    by rewrite (andb_comm _ b), andb_assoc.
Qed.

(** [validateInstance] returns the verdict [valid_tree] and the given
    array followed by the diagnostics of the whole tree. *)
Lemma validateInstance_eq instance errors path :
  validateInstance instance errors path =
  (valid_tree instance, errors ++ diagnostics path instance).
Proof.
  revert errors path.
  induction instance as [r k n p cs IH] using Instance_ind; intros errors path.
  simpl. rewrite fold_validateProp, (fold_validate_children _ _ _ _ IH).
  by rewrite app_assoc.
Qed.

(** ** Consequences *)

(** The number of error lines of an array. *)
Definition errors_in (lines : list string) : nat :=
  length (filter (λ l, is_error l = true) lines).

Lemma errors_in_app l1 l2 : errors_in (l1 ++ l2) = errors_in l1 + errors_in l2.
Proof. unfold errors_in. by rewrite filter_app, length_app. Qed.

Lemma errors_in_flat_map {A} (f : A → list string) l :
  errors_in (flat_map f l) = sum_list_with (λ x, errors_in (f x)) l.
Proof. unfold errors_in. by rewrite filter_flat_map, length_flat_map. Qed.

Lemma errors_in_prop_diagnostics cp entry :
  errors_in (prop_diagnostics cp entry) = if prop_ok entry then 0 else 1.
Proof.
  destruct entry as [name [v|]]; unfold prop_diagnostics, prop_ok; simpl;
    case_bool_decide; reflexivity.
Qed.

(** The diagnostics of a tree hold one error line per null property. *)
Lemma errors_in_diagnostics path instance :
  errors_in (diagnostics path instance) = null_count instance.
Proof.
  revert path.
  induction instance as [r k n p cs IH] using Instance_ind; intros path.
  simpl. rewrite errors_in_app, !errors_in_flat_map. f_equal.
  - apply sum_list_with_ext_Forall, Forall_forall. intros e _.
    apply errors_in_prop_diagnostics.
  - apply sum_list_with_ext_Forall. eapply Forall_impl; [exact IH|]. auto.
Qed.

Lemma valid_tree_null_count instance :
  valid_tree instance = true ↔ null_count instance = 0.
Proof.
  induction instance as [r k n p cs IH] using Instance_ind. simpl.
  rewrite andb_true_iff, !forallb_Forall_true, Nat.eq_add_0.
  rewrite !sum_list_with_eq_0, (Forall_iff_pointwise _ _ _ IH).
  apply and_iff_compat_r, Forall_iff_pointwise, Forall_forall.
  intros e _. by destruct (prop_ok e).
Qed.

(** C7: the verdict of [validateInstance] is [true] exactly when the call
    appended no [[ERROR]] line to the array, and the number of error lines
    it appends is the number of null properties of the tree. *)
Theorem validateInstance_errors instance errors path :
  errors_in (validateInstance instance errors path).2 =
    errors_in errors + null_count instance ∧
  ((validateInstance instance errors path).1 = true ↔
   errors_in (validateInstance instance errors path).2 = errors_in errors).
Proof.
  rewrite validateInstance_eq. simpl.
  rewrite errors_in_app, errors_in_diagnostics, valid_tree_null_count.
  split; lia.
Qed.

(** The verdict is about every node of the tree. *)
Lemma valid_tree_nodes instance :
  valid_tree instance = true ↔
  Forall (λ n, forallb prop_ok (_props n) = true) (nodes instance).
Proof.
  induction instance as [r k n p cs IH] using Instance_ind. simpl.
  rewrite andb_true_iff, Forall_cons, Forall_flat_map.
  by rewrite (forallb_Forall_true valid_tree), (Forall_iff_pointwise _ _ _ IH).
Qed.

(** C24: [validateInstance] answers [true] exactly when every property of
    every node of the tree holds a value, and it only appends to the
    array it is given. *)
Theorem validateInstance_sound instance errors path :
  ((validateInstance instance errors path).1 = true ↔
   Forall (λ n, Forall (λ e, is_Some e.2) (_props n)) (nodes instance)) ∧
  errors `prefix_of` (validateInstance instance errors path).2.
Proof.
  rewrite validateInstance_eq. cbn [fst snd]. split; [|by apply prefix_app_r].
  rewrite valid_tree_nodes. apply Forall_iff_pointwise, Forall_forall.
  intros n _. rewrite forallb_Forall_true. apply Forall_iff_pointwise, Forall_forall.
  intros e _. unfold prop_ok. by rewrite bool_decide_eq_true.
Qed.

(** The verdict does not depend on the array or on the path. *)
Lemma validateInstance_verdict instance errors path errors' path' :
  (validateInstance instance errors path).1 =
  (validateInstance instance errors' path').1.
Proof. by rewrite !validateInstance_eq. Qed.

(** ** The trees of spec.md section 8 *)

Definition example_child (props : JsMap string (option RobloxValue)) : Instance :=
  mkInstance 2 (LibraryClass "Part") "Child" props [].

Definition example_root (props : JsMap string (option RobloxValue)) : Instance :=
  mkInstance 1 (LibraryClass "Model") "Root" [] [example_child props].

Example validate_null_property :
  validateInstance (example_root [("X", None)]) [] "" =
  (false, ["[ERROR] Null/undefined property X at Root.Child"]).
Proof. reflexivity. Qed.

Example validate_UniqueId_property :
  validateInstance
    (example_root [("UniqueId", Some (mkRobloxValue "String" (PString "abc")))])
    [] "" =
  (true, ["[WARN] Found UniqueId at Root.Child"]).
Proof. reflexivity. Qed.

(** A [UniqueId] that is null yields the warning and then the error. *)
Example validate_null_UniqueId :
  validateInstance (example_root [("UniqueId", None)]) [] "" =
  (false, ["[WARN] Found UniqueId at Root.Child";
           "[ERROR] Null/undefined property UniqueId at Root.Child"]).
Proof. reflexivity. Qed.

(** An invalid first child does not stop the traversal: the second child
    is still reported. *)
Example validate_no_short_circuit :
  validateInstance
    (mkInstance 1 (LibraryClass "Model") "Root" []
       [mkInstance 2 (LibraryClass "Part") "A" [("X", None)] [];
        mkInstance 3 (LibraryClass "Part") "B" [("Y", None)] []]) [] "" =
  (false, ["[ERROR] Null/undefined property X at Root.A";
           "[ERROR] Null/undefined property Y at Root.B"]).
Proof. reflexivity. Qed.

(** ** Paths *)

(** Below a node whose path is empty (an unnamed root) the separator is
    dropped: the child's path is its bare name, where spec.md 4.5 writes
    [parentPath.childName]. *)
Lemma currentPath_empty path instance :
  path = "" → currentPath path instance = Name instance.
Proof. by intros ->. Qed.

Lemma currentPath_nonempty path instance :
  path ≠ "" → currentPath path instance = path +:+ "." +:+ Name instance.
Proof. intros Hp. unfold currentPath. by rewrite bool_decide_eq_false_2. Qed.

Example validate_unnamed_root :
  validateInstance
    (mkInstance 1 (LibraryClass "Model") "" [] [example_child [("X", None)]])
    [] "" =
  (false, ["[ERROR] Null/undefined property X at Child"]).
Proof. reflexivity. Qed.
