(* ===== verification/Remove.v ===== *)
(** * The removal pass

    [removeInstances] (src/bridge.ts lines 175-186) walks the children of a
    node over a snapshot of the child array.  A child whose name is in
    [namesToRemove] is destroyed, which detaches it from its parent with
    its whole subtree, and one line is logged; the pass recurses into the
    other children.  The node the pass is called on is never tested.
    Every node of the library has [Destroy], so the test of line 180
    always passes.

    The source mutates the tree; the model returns the new node.  The
    children that survive are collected in order in [kept], which is the
    child array of the node after the loop.

    The specification is the pure function [strip] with the log
    [removal_log]. *)

From Stdlib Require Import String NArith Lia.
From stdpp Require Import base tactics option list strings.
From S2P Require Import Prelude JsString JsMap Effects Instance.

(** ** The code *)

(** The log line of line 181. *)
Definition removed_line (child : Instance) : string :=
  "[INFO] Removed instance: " +:+ Name child +:+ " (" +:+ ClassName child
  +:+ ")".

(** The body of the loop of lines 178-185.  [recurse] is the recursive
    call [removeInstances(child, namesToRemove)]; [kept] holds the children
    that were not destroyed so far. *)
Definition removeChild (recurse : Instance → M Instance)
    (namesToRemove : list string) (kept : list Instance) (child : Instance) :
    M (list Instance) :=
  if Name child ∈? namesToRemove then
    console_log (removed_line child);;
    mret kept
  else
    child' ← recurse child;
    mret (kept ++ [child']).

(** [removeInstances(instance, namesToRemove)] (lines 175-186). *)
Fixpoint removeInstances (instance : Instance) (namesToRemove : list string) :
    M Instance :=
  let children := Children instance in
  kept ← foldM
    (removeChild (λ child, removeInstances child namesToRemove) namesToRemove)
    children [];
  mret (set_Children instance kept).

(** ** The specification *)

(** The tree without the subtrees whose root carries a denied name. *)
Fixpoint strip (names : list string) (instance : Instance) : Instance :=
  set_Children instance
    (omap (λ child, if Name child ∈? names then None
                    else Some (strip names child))
       (Children instance)).

(** The lines the pass logs, in order. *)
Fixpoint removal_log (names : list string) (instance : Instance) : list Line :=
  flat_map (λ child, if Name child ∈? names then [Out (removed_line child)]
                     else removal_log names child)
    (Children instance).

(** The name of a node is allowed. *)
Definition allowed (names : list string) (instance : Instance) : Prop :=
  Name instance ∉ names.

#[export] Instance allowed_dec names instance : Decision (allowed names instance).
Proof. unfold allowed. apply _. Defined.

(** ** The code computes the specification *)

Section spec.
Context (names : list string).
Implicit Types (i c : Instance) (st : RunState).

Lemma Children_strip i :
  Children (strip names i) = strip names <$> filter (allowed names) (Children i).
Proof.
  destruct i as [r k n p cs]. simpl.
  induction cs as [|c cs IH]; [done|]. csimpl.
  destruct (Name c ∈? names) eqn:Hc.
  - apply array_includes_true in Hc. by rewrite filter_cons_False by eauto.
  - apply array_includes_false in Hc. rewrite filter_cons_True by done.
    csimpl. by rewrite IH.
Qed.

Lemma run_removeChild recurse kept c st :
  run (removeChild recurse names kept c) st =
  if Name c ∈? names then (Ret kept, emit st [Out (removed_line c)])
  else
    match run (recurse c) st with
    | (Ret c', st') => (Ret (kept ++ [c']), st')
    | (Throw e, st') => (Throw e, st')
    end.
Proof. unfold removeChild. destruct (_ ∈? _); by simpl_run. Qed.

(** The loop of lines 178-185, given that each child obeys the
    specification. *)
Lemma run_remove_children children kept st :
  Forall (λ c, ∀ st, run (removeInstances c names) st =
                 (Ret (strip names c), emit st (removal_log names c)))
    children →
  run (foldM (removeChild (λ child, removeInstances child names) names)
         children kept) st =
  (Ret (kept ++ omap (λ child, if Name child ∈? names then None
                               else Some (strip names child)) children),
   emit st (flat_map (λ child, if Name child ∈? names
                               then [Out (removed_line child)]
                               else removal_log names child) children)).
Proof.
  intros Hall. revert kept st.
  induction Hall as [|c children Hc _ IH]; intros kept st.
  - simpl_run. by rewrite app_nil_r.
  - rewrite run_foldM_cons, run_bind, run_removeChild. csimpl.
    destruct (Name c ∈? names); rewrite ?Hc, IH, emit_emit; [done|].
    by rewrite <-app_assoc.
Qed.

Lemma run_removeInstances i st :
  run (removeInstances i names) st =
  (Ret (strip names i), emit st (removal_log names i)).
Proof.
  revert st. induction i as [r k n p cs IH] using Instance_ind; intros st.
  cbn [removeInstances]. rewrite run_bind, (run_remove_children _ _ _ IH).
  by simpl_run.
Qed.

(** ** Properties of the result *)

(** The node the pass is called on keeps its name, class, properties and
    identity, whatever its name. *)
Lemma strip_root i :
  referent (strip names i) = referent i ∧ kind (strip names i) = kind i ∧
  Name (strip names i) = Name i ∧ _props (strip names i) = _props i.
Proof. by destruct i. Qed.

(** After the pass no proper descendant of the node carries a denied
    name. *)
Lemma strip_clean i : Forall (allowed names) (descendants (strip names i)).
Proof.
  induction i as [r k n p cs IH] using Instance_ind.
  unfold descendants. rewrite Children_strip. simpl.
  rewrite Forall_flat_map, Forall_fmap, Forall_forall.
  intros c [Hallowed Hc]%list_elem_of_filter.
  rewrite Forall_forall in IH. specialize (IH c Hc).
  destruct c as [r' k' n' p' cs']. cbn [nodes compose].
  apply Forall_cons. split; [exact Hallowed|exact IH].
Qed.

(** A tree whose descendants are all allowed is left as it is, and nothing
    is logged. *)
Lemma strip_allowed i :
  Forall (allowed names) (descendants i) →
  strip names i = i ∧ removal_log names i = [].
Proof.
  induction i as [r k n p cs IH] using Instance_ind.
  unfold descendants. simpl. rewrite Forall_flat_map. intros Hall.
  assert (Forall (λ c, (Name c ∈? names) = false ∧ strip names c = c ∧
                       removal_log names c = []) cs) as Hcs.
  { rewrite Forall_forall in IH, Hall. apply Forall_forall. intros c Hc.
    specialize (Hall c Hc). destruct c as [r' k' n' p' cs'].
    apply Forall_cons in Hall as [Hn Hd].
    split; [by apply array_includes_false|]. by apply (IH _ Hc). }
  clear IH Hall. unfold set_Children. simpl.
  induction Hcs as [|c cs (Hn & Hs & Hl) _ [IH1 IH2]]; [done|].
  csimpl. rewrite Hn, Hs, Hl. simpl. split; [|done].
  by injection IH1 as ->.
Qed.

(** One line is logged per removed subtree, and the tree does not grow. *)
Lemma length_nodes_strip i :
  length (nodes (strip names i)) + length (removal_log names i) ≤
  length (nodes i).
Proof.
  induction i as [r k n p cs IH] using Instance_ind. simpl.
  apply le_n_S. induction IH as [|c cs Hc _ IH]; [done|]. csimpl.
  destruct (Name c ∈? names); csimpl; rewrite !length_app.
  - destruct c. simpl in *. lia.
  - lia.
Qed.

(** C8: [removeInstances] always returns; in its result no proper
    descendant of the node carries a denied name; the node itself keeps
    its identity, class, name and properties, whatever its name; one line
    is logged per removed subtree, and no node is added. *)
Theorem removeInstances_clean i st :
  ∃ i',
    run (removeInstances i names) st = (Ret i', emit st (removal_log names i)) ∧
    Forall (allowed names) (descendants i') ∧
    set_Children i' [] = set_Children i [] ∧
    length (nodes i') + length (removal_log names i) ≤ length (nodes i).
Proof.
  exists (strip names i). rewrite run_removeInstances.
  split_and!; [done|apply strip_clean| |apply length_nodes_strip].
  by destruct i.
Qed.

(** C23: the pass is idempotent: a second pass over its result changes
    nothing and logs nothing. *)
Theorem removeInstances_idempotent i st :
  run (removeInstances i names ≫= λ i', removeInstances i' names) st =
  run (removeInstances i names) st.
Proof.
  rewrite run_bind, !run_removeInstances.
  destruct (strip_allowed (strip names i) (strip_clean i)) as [-> ->].
  by rewrite emit_nil.
Qed.

End spec.

(** ** The trees of spec.md section 8 *)

Definition node (name : string) (children : list Instance) : Instance :=
  mkInstance 0 (LibraryClass "Folder") name [] children.

(** [Root -> A -> B] with [A] denied: [A] goes, and [B] with it. *)
Example remove_shallow :
  run (removeInstances (node "Root" [node "A" [node "B" []]]) ["A"])
    (initial_state 0) =
  (Ret (node "Root" []),
   emit (initial_state 0) [Out "[INFO] Removed instance: A (Folder)"]).
Proof. reflexivity. Qed.

(** With [B] denied and [A] not: only [B] goes. *)
Example remove_deep :
  run (removeInstances (node "Root" [node "A" [node "B" []]]) ["B"])
    (initial_state 0) =
  (Ret (node "Root" [node "A" []]),
   emit (initial_state 0) [Out "[INFO] Removed instance: B (Folder)"]).
Proof. reflexivity. Qed.

(** The root is not tested: a root named [A] survives. *)
Example remove_root_untested :
  run (removeInstances (node "A" [node "A" []]) ["A"]) (initial_state 0) =
  (Ret (node "A" []),
   emit (initial_state 0) [Out "[INFO] Removed instance: A (Folder)"]).
Proof. reflexivity. Qed.

