(* ===== verification/Sanitize.v ===== *)
(** * The sanitizer

    [findAndRemoveSuspiciousScripts] (src/bridge.ts lines 188-213) visits
    every node of a tree.  On a node of class [Script] or [LocalScript] it
    lower-cases the source and looks for the keywords of
    [SUSPICIOUS_KEYWORDS] in order; at the first one it finds, it logs a
    line, replaces the source by a fixed text and counts one.  It returns
    the count for the tree.

    The source mutates the nodes; the model returns the new tree with the
    count.  The specification is the pure rewrite [scrub] with
    [suspicious_count] and [scrub_log]. *)

From Stdlib Require Import String Ascii NArith Lia.
From stdpp Require Import base tactics option list strings.
From S2P Require Import Prelude JsString JsMap Effects Instance.

(** ** The code *)

(** Lines 189-192. *)
Definition SUSPICIOUS_KEYWORDS : list string :=
  ["require"; "getfenv"; "loadstring"; "_G";
   "setfenv"; "webhook"; "MarketplaceService"].

(** The text of line 201. *)
Definition placeholder : string :=
  "-- This script's content was removed for security reasons.".

(** The double quote character of the log line. *)
Definition dquote : string := String "034"%char "".

(** The log line of line 200. *)
Definition suspicious_line (keyword : string) (instance : Instance) : string :=
  "Found suspicious keyword " +:+ dquote +:+ keyword +:+ dquote
  +:+ " in script: " +:+ Name instance +:+ ". Rewriting content.".

(** The test of line 196. *)
Definition is_script (instance : Instance) : bool :=
  bool_decide (ClassName instance = "Script")
  || bool_decide (ClassName instance = "LocalScript").

(** The loop of lines 198-205 without its body: it stops at the first
    keyword that the lower-cased source includes ([break]). *)
Definition first_keyword (source : string) : option string :=
  find (λ keyword, JsString.includes (JsString.toLowerCase source) keyword)
    SUSPICIOUS_KEYWORDS.

(** Lines 196-206: the node itself. *)
Definition sanitizeNode (instance : Instance) : M (Instance * nat) :=
  if is_script instance then
    let source := default "" (Source instance) in
    match first_keyword source with
    | Some keyword =>
        console_log (suspicious_line keyword instance);;
        mret (set_Source instance placeholder, 1)
    | None => mret (instance, 0)
    end
  else mret (instance, 0).

(** The body of the loop of lines 208-210: [removedCount += recurse child].
    [acc] holds the children visited so far and the running count. *)
Definition sanitizeChild (recurse : Instance → M (Instance * nat))
    (acc : list Instance * nat) (child : Instance) : M (list Instance * nat) :=
  r ← recurse child;
  mret (acc.1 ++ [r.1], acc.2 + r.2).

(** [findAndRemoveSuspiciousScripts(instance)] (lines 188-213): the new
    tree and [removedCount]. *)
Fixpoint findAndRemoveSuspiciousScripts (instance : Instance) :
    M (Instance * nat) :=
  r ← sanitizeNode instance;
  acc ← foldM (sanitizeChild findAndRemoveSuspiciousScripts)
         (Children instance) ([], r.2);
  mret (set_Children r.1 acc.1, acc.2).

(** ** The specification *)

(** The first keyword the lower-cased source of a script includes. *)
Definition matched_keyword (instance : Instance) : option string :=
  if is_script instance then first_keyword (default "" (Source instance))
  else None.

Definition suspicious (instance : Instance) : bool :=
  bool_decide (is_Some (matched_keyword instance)).

(** The node with its source replaced when it is suspicious. *)
Definition scrub_node (instance : Instance) : Instance :=
  if suspicious instance then set_Source instance placeholder else instance.

Fixpoint scrub (instance : Instance) : Instance :=
  set_Children (scrub_node instance) (scrub <$> Children instance).

Fixpoint suspicious_count (instance : Instance) : nat :=
  (if suspicious instance then 1 else 0) +
  sum_list_with suspicious_count (Children instance).

Fixpoint scrub_log (instance : Instance) : list Line :=
  match matched_keyword instance with
  | Some keyword => [Out (suspicious_line keyword instance)]
  | None => []
  end ++ flat_map scrub_log (Children instance).

(** ** The code computes the specification *)

Implicit Types (i c : Instance) (st : RunState).

Lemma run_sanitizeNode i st :
  run (sanitizeNode i) st =
  (Ret (scrub_node i, if suspicious i then 1 else 0),
   emit st match matched_keyword i with
           | Some keyword => [Out (suspicious_line keyword i)]
           | None => []
           end).
Proof.
  unfold sanitizeNode, scrub_node, suspicious, matched_keyword.
  destruct (is_script i); [|by simpl_run].
  destruct (first_keyword _); by simpl_run.
Qed.

Lemma run_sanitizeChild recurse acc c st :
  run (sanitizeChild recurse acc c) st =
  match run (recurse c) st with
  | (Ret r, st') => (Ret (acc.1 ++ [r.1], acc.2 + r.2), st')
  | (Throw e, st') => (Throw e, st')
  end.
Proof. unfold sanitizeChild. by simpl_run. Qed.

Lemma run_sanitize_children children acc st :
  Forall (λ c, ∀ st, run (findAndRemoveSuspiciousScripts c) st =
                 (Ret (scrub c, suspicious_count c), emit st (scrub_log c)))
    children →
  run (foldM (sanitizeChild findAndRemoveSuspiciousScripts) children acc) st =
  (Ret (acc.1 ++ (scrub <$> children),
        acc.2 + sum_list_with suspicious_count children),
   emit st (flat_map scrub_log children)).
Proof.
  intros Hall. revert acc st.
  induction Hall as [|c children Hc _ IH]; intros [kept n] st.
  - simpl_run. simpl. by rewrite app_nil_r, Nat.add_0_r.
  - rewrite run_foldM_cons, run_bind, run_sanitizeChild, Hc, IH, emit_emit.
    simpl. by rewrite <-app_assoc, Nat.add_assoc.
Qed.

Lemma run_findAndRemoveSuspiciousScripts i st :
  run (findAndRemoveSuspiciousScripts i) st =
  (Ret (scrub i, suspicious_count i), emit st (scrub_log i)).
Proof.
  revert st. induction i as [r k n p cs IH] using Instance_ind; intros st.
  cbn [findAndRemoveSuspiciousScripts].
  rewrite run_bind, run_sanitizeNode, run_bind.
  rewrite (run_sanitize_children _ _ _ IH). by simpl_run.
Qed.

(** ** Properties of the result *)

Lemma ClassName_scrub_node i : ClassName (scrub_node i) = ClassName i.
Proof. unfold scrub_node. by destruct (suspicious i). Qed.

Lemma Name_scrub_node i : Name (scrub_node i) = Name i.
Proof. unfold scrub_node. by destruct (suspicious i). Qed.

Lemma scrub_eq i : scrub i = set_Children (scrub_node i) (scrub <$> Children i).
Proof. by destruct i. Qed.

(** The sanitizer changes no name, no class and no child list. *)
Lemma shape_scrub i : shape (scrub i) = shape i.
Proof.
  induction i as [r k n p cs IH] using Instance_ind.
  set (i := mkInstance r k n p cs).
  rewrite scrub_eq, shape_set_Children, (shape_eq i), <-list_fmap_compose.
  rewrite Name_scrub_node, ClassName_scrub_node. f_equal.
  by apply map_ext_Forall.
Qed.

(** The replacement text includes no keyword. *)
Lemma placeholder_clean : first_keyword placeholder = None.
Proof. reflexivity. Qed.

Lemma suspicious_scrub_node i : suspicious (scrub_node i) = false.
Proof.
  unfold scrub_node. destruct (suspicious i) eqn:Hs; [|done].
  unfold suspicious, matched_keyword.
  rewrite Source_set_Source. cbn [from_option id]. rewrite placeholder_clean.
  by destruct (is_script _).
Qed.

Lemma scrub_node_not_suspicious i : suspicious i = false → scrub_node i = i.
Proof. unfold scrub_node. by intros ->. Qed.

Lemma suspicious_set_Children i cs :
  suspicious (set_Children i cs) = suspicious i.
Proof. reflexivity. Qed.

Lemma scrub_node_set_Children i cs :
  scrub_node (set_Children i cs) = set_Children (scrub_node i) cs.
Proof.
  unfold scrub_node. rewrite suspicious_set_Children. by destruct (suspicious i).
Qed.

Lemma suspicious_count_eq i :
  suspicious_count i =
  (if suspicious i then 1 else 0) + sum_list_with suspicious_count (Children i).
Proof. by destruct i. Qed.

Lemma scrub_log_eq i :
  scrub_log i =
  match matched_keyword i with
  | Some keyword => [Out (suspicious_line keyword i)]
  | None => []
  end ++ flat_map scrub_log (Children i).
Proof. by destruct i. Qed.

Lemma suspicious_scrub i : suspicious (scrub i) = false.
Proof. by rewrite scrub_eq, suspicious_set_Children, suspicious_scrub_node. Qed.

Lemma matched_keyword_scrub i : matched_keyword (scrub i) = None.
Proof.
  pose proof (suspicious_scrub i) as Hs. unfold suspicious in Hs.
  apply bool_decide_eq_false in Hs. by apply eq_None_not_Some.
Qed.

(** A scrubbed tree holds no suspicious script: a second pass changes
    nothing, counts nothing and logs nothing. *)
Lemma scrub_scrub i :
  scrub (scrub i) = scrub i ∧ suspicious_count (scrub i) = 0 ∧
  scrub_log (scrub i) = [].
Proof.
  induction i as [r k n p cs IH] using Instance_ind.
  set (i := mkInstance r k n p cs).
  rewrite (scrub_eq (scrub i)), (suspicious_count_eq (scrub i)).
  rewrite (scrub_log_eq (scrub i)), suspicious_scrub, matched_keyword_scrub.
  rewrite scrub_node_not_suspicious by apply suspicious_scrub.
  replace (Children (scrub i)) with (scrub <$> cs) by done.
  split_and!.
  - rewrite <-list_fmap_compose, (map_ext_Forall (scrub ∘ scrub) scrub).
    + apply (set_Children_Children (scrub i)).
    + eapply Forall_impl; [exact IH|]. by intros c (Hc & _).
  - apply sum_list_with_eq_0, Forall_fmap.
    eapply Forall_impl; [exact IH|]. by intros c (_ & Hc & _).
  - apply flat_map_nil_Forall, Forall_fmap.
    eapply Forall_impl; [exact IH|]. by intros c (_ & _ & Hc).
Qed.

(** The count is the number of suspicious nodes of the tree. *)
Lemma suspicious_count_nodes i :
  suspicious_count i = length (filter (λ n, suspicious n = true) (nodes i)).
Proof.
  induction i as [r k n p cs IH] using Instance_ind.
  set (i := mkInstance r k n p cs).
  rewrite suspicious_count_eq, nodes_eq.
  replace (Children i) with cs by done.
  rewrite (sum_list_with_ext_Forall _ _ _ IH).
  destruct (suspicious i) eqn:Hs.
  - rewrite filter_cons_True by done. cbn [length].
    by rewrite filter_flat_map, length_flat_map.
  - rewrite filter_cons_False by (by rewrite Hs).
    by rewrite filter_flat_map, length_flat_map.
Qed.

(** One line is logged per suspicious node. *)
Lemma length_scrub_log i : length (scrub_log i) = suspicious_count i.
Proof.
  induction i as [r k n p cs IH] using Instance_ind.
  set (i := mkInstance r k n p cs).
  rewrite scrub_log_eq, suspicious_count_eq, length_app, length_flat_map.
  replace (Children i) with cs by done.
  rewrite (sum_list_with_ext_Forall _ _ _ IH). f_equal.
  unfold suspicious. by destruct (matched_keyword i).
Qed.

Lemma nodes_scrub_clean i : Forall (λ n, suspicious n = false) (nodes (scrub i)).
Proof.
  induction i as [r k n p cs IH] using Instance_ind.
  set (i := mkInstance r k n p cs).
  rewrite scrub_eq, nodes_set_Children. apply Forall_cons. split.
  - by rewrite suspicious_set_Children, suspicious_scrub_node.
  - by apply Forall_flat_map, Forall_fmap.
Qed.

(** The sanitizer changes no name. *)
Lemma Name_nodes_scrub i : Name <$> nodes (scrub i) = Name <$> nodes i.
Proof.
  induction i as [r k n p cs IH] using Instance_ind.
  set (i := mkInstance r k n p cs).
  rewrite scrub_eq, nodes_set_Children, (nodes_eq i), !fmap_cons. f_equal.
  { apply (Name_scrub_node i). }
  change (Children i) with cs. clear i.
  induction IH as [|c cs Hc _ IH]; [done|]. csimpl. by rewrite !fmap_app, Hc, IH.
Qed.

(** C9: [findAndRemoveSuspiciousScripts] always returns; the count it
    returns is the number of lines it logs and the number of suspicious
    scripts of the tree; the result has the names, classes and child order
    of the tree, and no suspicious script is left in it. *)
Theorem findAndRemoveSuspiciousScripts_counts i st :
  ∃ i' lines,
    run (findAndRemoveSuspiciousScripts i) st =
      (Ret (i', length lines), emit st lines) ∧
    length lines = length (filter (λ n, suspicious n = true) (nodes i)) ∧
    shape i' = shape i ∧
    Forall (λ n, suspicious n = false) (nodes i').
Proof.
  exists (scrub i), (scrub_log i).
  rewrite run_findAndRemoveSuspiciousScripts, length_scrub_log.
  split_and!; [done|apply suspicious_count_nodes|apply shape_scrub
              |apply nodes_scrub_clean].
Qed.

(** C22: the sanitizer is idempotent: a second pass over its result changes
    nothing, counts nothing and logs nothing. *)
Theorem findAndRemoveSuspiciousScripts_idempotent i st :
  run (r ← findAndRemoveSuspiciousScripts i;
       findAndRemoveSuspiciousScripts r.1) st =
  (Ret (scrub i, 0), emit st (scrub_log i)).
Proof.
  rewrite run_bind, !run_findAndRemoveSuspiciousScripts. cbn [fst].
  destruct (scrub_scrub i) as (-> & -> & ->). by rewrite emit_nil.
Qed.

(** ** Keywords that cannot match *)

(** The source is lower-cased before the search, so a keyword that
    contains an upper-case letter is never found. *)
Lemma upper_keyword_never_matches source keyword :
  JsString.has_upper keyword = true →
  JsString.includes (JsString.toLowerCase source) keyword = false.
Proof. apply JsString.includes_toLowerCase_upper. Qed.

(** The keywords that can match. *)
Definition effective_keywords : list string :=
  filter (λ keyword, JsString.has_upper keyword = false) SUSPICIOUS_KEYWORDS.

Lemma effective_keywords_eq :
  effective_keywords = ["require"; "getfenv"; "loadstring"; "setfenv"; "webhook"].
Proof. reflexivity. Qed.

(** C21: the sanitizer searches the lower-cased source, so the keywords [_G]
    and [MarketplaceService] of the list are never found: the search is
    the one over the five lower-case keywords. *)
Theorem first_keyword_effective source :
  first_keyword source =
  find (λ keyword, JsString.includes (JsString.toLowerCase source) keyword)
    effective_keywords.
Proof.
  rewrite effective_keywords_eq.
  unfold first_keyword, SUSPICIOUS_KEYWORDS. cbn [find].
  rewrite (upper_keyword_never_matches _ "_G") by reflexivity.
  by rewrite (upper_keyword_never_matches _ "MarketplaceService") by reflexivity.
Qed.
