(* ===== verification/Clone.v ===== *)
(** * The script-source cache and the tree cloner

    [cacheScriptSources] (src/bridge.ts lines 81-93) records the source of
    every [Script] and [ModuleScript] of a donor tree in
    [scriptSourceCache], keyed by the node.  [cloneInstance] (lines
    121-173) builds a copy of a donor node under a target parent: it makes
    a node of the same class through the registry, copies the properties
    one by one, copies the name, attaches the node to the parent, sets the
    source of a script from the cache, and clones the children into the new
    node.

    In the source the new node is attached to its parent at line 154,
    before its children are cloned; the model returns the finished node
    together with the parent it has been appended to.  The two agree on
    every run that does not throw, and a run that throws has no tree to
    show (see [Prelude]).

    The specification of one node is [clone_node]; the rule
    [wp_cloneInstance] lifts a relation between a donor and its clone from
    nodes to trees, and the theorems on shape, cleanliness, fresh
    referents and the cache are instances of it.  Under a cache that
    agrees with the donors the clone is the pure function [clone_tree]. *)

From Stdlib Require Import String NArith Lia.
From stdpp Require Import base tactics option list strings.
From S2P Require Import Prelude JsString JsMap Effects Instance.

(** ** The code *)

(** The test of lines 82 and 156. *)
Definition has_cached_source (instance : Instance) : bool :=
  bool_decide (ClassName instance = "Script")
  || bool_decide (ClassName instance = "ModuleScript").

(** Lines 82-86: the node itself. *)
Definition cacheNode (instance : Instance) : M unit :=
  if has_cached_source instance then
    match Source instance with
    | Some source => cache_set (referent instance) source
    | None => mret ()
    end
  else mret ().

(** [cacheScriptSources(instance)] (lines 81-93). *)
Fixpoint cacheScriptSources (instance : Instance) : M unit :=
  cacheNode instance;;
  forM_ cacheScriptSources (Children instance).

(** Lines 124-129: the constructor of the registry for the class name, or
    a [GenericInstance] that carries the name. *)
Definition construct (className : string) : M Instance :=
  ref ← fresh_referent;
  match JsMap.get instanceConstructors className with
  | Some constructor => mret (constructor ref)
  | None => mret (new_GenericInstance (Some className) ref)
  end.

(** The test of line 137:
    [value?.type === 'BinaryString' && value.value?.length > 1000000]. *)
Definition is_large_binary (value : option RobloxValue) : bool :=
  match value with
  | Some v =>
      bool_decide (type v = "BinaryString")
      && exceeds (payload_length (Instance.value v)) 1000000
  | None => false
  end.

Section clone.
Context {api : RbxmApi}.

(** The body of the loop of lines 134-150, on the new node. *)
Definition copyProp (newInstance : Instance)
    (entry : string * option RobloxValue) : M Instance :=
  let '(key, value) := entry in
  if bool_decide (key = "UniqueId") then mret newInstance
  else if is_large_binary value then
    console_log ("[INFO] Skipping large BinaryString property " +:+ key);;
    mret newInstance
  else
    try_catch
      (match value with
       | Some v =>
           r ← SetProp newInstance key (type v) (Instance.value v);
           mret r.2
       | None => mret newInstance
       end)
      (λ _,
         console_log ("[WARN] Failed to set property " +:+ key
                      +:+ " via SetProp, using direct assignment");;
         mret (set_props newInstance (JsMap.set (_props newInstance) key value))).

(** Lines 131-151: the new node starts from an empty bag. *)
Definition copyProps (sourceInstance newInstance : Instance) : M Instance :=
  foldM copyProp (_props sourceInstance) (set_props newInstance []).

(** Lines 156-164: the source of a script, from the cache when the node is
    in it. *)
Definition cloneSource (sourceInstance newInstance : Instance) : M Instance :=
  if has_cached_source sourceInstance then
    cachedSource ← cache_get (referent sourceInstance);
    match cachedSource with
    | Some cachedSource =>
        r ← SetProp newInstance "Source" DataType_String (PString cachedSource);
        mret r.2
    | None =>
        match Source sourceInstance with
        | Some source =>
            cache_set (referent sourceInstance) source;;
            r ← SetProp newInstance "Source" DataType_String (PString source);
            mret r.2
        | None => mret newInstance
        end
    end
  else mret newInstance.

(** The body of the loop of lines 167-169: [recurse child newInstance] is
    [cloneInstance(child, newInstance)], whose result is dropped; the new
    node has the clone as its last child afterwards. *)
Definition cloneChild (recurse : Instance → Instance → M (Instance * Instance))
    (newInstance child : Instance) : M Instance :=
  r ← recurse child newInstance;
  mret r.2.

(** [cloneInstance(sourceInstance, targetParent)] (lines 121-173): the new
    node and the parent with the new node appended. *)
Fixpoint cloneInstance (sourceInstance targetParent : Instance) :
    M (Instance * Instance) :=
  newInstance ← construct (ClassName sourceInstance);
  newInstance ← copyProps sourceInstance newInstance;
  let newInstance := set_Name newInstance (Name sourceInstance) in
  newInstance ← cloneSource sourceInstance newInstance;
  newInstance ← foldM (cloneChild cloneInstance) (Children sourceInstance)
                  newInstance;
  mret (newInstance, appendChild targetParent newInstance).

End clone.

(** ** The specification of one node *)

(** The node the registry makes for a class name. *)
Definition constructed (className : string) (ref : nat) : Instance :=
  match JsMap.get instanceConstructors className with
  | Some constructor => constructor ref
  | None => new_GenericInstance (Some className) ref
  end.

(** The test of line 46 on a bag entry: a string of more than 500000
    characters under the tag ["String"]. *)
Definition is_large_string (value : option RobloxValue) : bool :=
  match value with
  | Some v =>
      bool_decide (type v = "String") && is_string (Instance.value v)
      && exceeds (payload_length (Instance.value v)) 500000
  | None => false
  end.

(** The entries that reach the bag of the new node.  [validating] says
    that the new node is a [GenericInstance] with validations enabled. *)
Definition kept (validating : bool) (entry : string * option RobloxValue) : bool :=
  negb (bool_decide (entry.1 = "UniqueId"))
  && negb (is_large_binary entry.2)
  && bool_decide (is_Some entry.2)
  && negb (validating && is_large_string entry.2).

(** The bag of the new node after the loop of lines 134-150. *)
Definition copied_props (validating : bool)
    (props : JsMap string (option RobloxValue)) :
    JsMap string (option RobloxValue) :=
  fold_left (λ bag entry, if kept validating entry
                          then JsMap.set bag entry.1 entry.2 else bag)
    props [].

(** The text [cloneSource] gives a node: the cached one when the node is
    in the cache, its own otherwise; none when the node is not a script. *)
Definition effective_source (cache : JsMap nat string) (instance : Instance) :
    option string :=
  if has_cached_source instance then
    match JsMap.get cache (referent instance) with
    | Some cached => Some cached
    | None => Source instance
    end
  else None.

(** The cache after [cloneSource] and after [cacheNode]: a script that has
    a source and is not in the cache enters it. *)
Definition cache_after (cache : JsMap nat string) (instance : Instance) :
    JsMap nat string :=
  if has_cached_source instance then
    match JsMap.get cache (referent instance), Source instance with
    | None, Some source => JsMap.set cache (referent instance) source
    | _, _ => cache
    end
  else cache.

Definition with_source (text : option string) (instance : Instance) : Instance :=
  match text with
  | Some text => set_Source instance text
  | None => instance
  end.

(** The new node before its children are cloned into it. *)
Definition clone_node (ref : nat) (text : option string)
    (sourceInstance : Instance) : Instance :=
  let newInstance := constructed (ClassName sourceInstance) ref in
  let newInstance :=
    set_props newInstance
      (copied_props (validationsEnabled newInstance) (_props sourceInstance)) in
  with_source text (set_Name newInstance (Name sourceInstance)).

(** ** The steps compute the specification *)

Implicit Types (st : RunState) (src new : Instance).

Lemma run_construct className st :
  run (construct className) st =
  (Ret (constructed className (nextReferent st)),
   mkRunState (scriptSourceCache st) (console st) (S (nextReferent st))).
Proof.
  unfold construct, constructed. simpl_run.
  by destruct (JsMap.get instanceConstructors className).
Qed.

(** The registry makes library nodes of the class asked for; any other
    class name gets a validating generic node that carries the name. *)
Lemma constructed_spec className ref :
  constructed className ref =
  mkInstance ref
    (if JsMap.has instanceConstructors className
     then LibraryClass className else GenericInstance className true)
    className [] [].
Proof.
  unfold constructed, JsMap.has.
  destruct (JsMap.get instanceConstructors className) as [ctor|] eqn:Hget.
  - apply instanceConstructors_get in Hget as ->.
    by rewrite bool_decide_eq_true_2 by eauto.
  - by rewrite bool_decide_eq_false_2 by (by intros [??]).
Qed.

Lemma ClassName_constructed className ref :
  ClassName (constructed className ref) = className.
Proof.
  rewrite constructed_spec. unfold ClassName. cbn [kind].
  by destruct (JsMap.has _ _).
Qed.

Lemma RobloxValue_eta v : mkRobloxValue (type v) (value v) = v.
Proof. by destruct v. Qed.

Section steps.
Context {api : RbxmApi}.

(** One turn of the loop of lines 134-150 always returns: an exception of
    [SetProp] is caught and the value is stored directly.  The entry
    reaches the bag exactly when it is [kept]; the node is otherwise as it
    was, and only the console changes. *)
Lemma run_copyProp new entry st :
  ∃ lines, run (copyProp new entry) st =
    (Ret (if kept (validationsEnabled new) entry
          then set_props new (JsMap.set (_props new) entry.1 entry.2)
          else new),
     emit st lines).
Proof.
  destruct entry as [key value]. unfold copyProp, kept. cbn [fst snd].
  destruct (bool_decide (key = "UniqueId")) eqn:Hkey; cbn [negb andb].
  { exists []. by rewrite emit_nil, run_ret. }
  destruct (is_large_binary value) eqn:Hbin; cbn [negb andb].
  { eexists. by simpl_run. }
  destruct value as [v|]; [|exists []; by rewrite emit_nil, run_try_catch, run_ret].
  rewrite bool_decide_eq_true_2 by eauto. cbn [andb].
  unfold SetProp, GenericInstance_SetProp, Instance_SetProp, validationsEnabled,
    is_large_string.
  rewrite Hkey.
  destruct (kind new) as [cls|cls []]; cbn [negb andb];
    try destruct (_ && exceeds _ _); cbn [negb];
    try destruct (SetProp_check _ _ _ _); simpl_run; rewrite ?RobloxValue_eta;
    first [by exists []; rewrite emit_nil | by eexists].
Qed.

(** The loop of lines 134-150 over a list of entries. *)
Lemma run_copyProp_loop props new st :
  ∃ lines, run (foldM copyProp props new) st =
    (Ret (set_props new
            (fold_left (λ bag entry, if kept (validationsEnabled new) entry
                                     then JsMap.set bag entry.1 entry.2 else bag)
               props (_props new))),
     emit st lines).
Proof.
  revert new st. induction props as [|entry props IH]; intros new st.
  - exists []. rewrite run_foldM_nil, emit_nil. by destruct new.
  - destruct (run_copyProp new entry st) as [lines1 H1].
    rewrite run_foldM_cons, run_bind, H1. cbn beta iota.
    destruct (IH (if kept (validationsEnabled new) entry
                  then set_props new (JsMap.set (_props new) entry.1 entry.2)
                  else new) (emit st lines1)) as [lines2 ->].
    exists (lines1 ++ lines2). rewrite emit_emit. cbn [fold_left].
    by destruct (kept _ entry), new.
Qed.

(** Lines 131-151: the copy of the bag always returns, whatever the
    library does; the new node gets the bag [copied_props] and is
    otherwise unchanged; only the console changes. *)
Lemma run_copyProps src new st :
  ∃ lines, run (copyProps src new) st =
    (Ret (set_props new (copied_props (validationsEnabled new) (_props src))),
     emit st lines).
Proof.
  unfold copyProps.
  destruct (run_copyProp_loop (_props src) (set_props new []) st) as [lines ->].
  exists lines. by destruct new.
Qed.


Lemma wp_copyProps src new (Q : Instance → RunState → Prop) E st :
  (∀ lines,
     Q (set_props new (copied_props (validationsEnabled new) (_props src)))
       (emit st lines)) →
  wp (copyProps src new) Q E st.
Proof.
  intros HQ. destruct (run_copyProps src new st) as [lines Hrun].
  by apply (wp_eq _ _ _ _ _ _ Hrun).
Qed.

Lemma wp_construct className (Q : Instance → RunState → Prop) E st :
  wp (construct className) Q E st ↔
  Q (constructed className (nextReferent st))
    (mkRunState (scriptSourceCache st) (console st) (S (nextReferent st))).
Proof. apply wp_eq, run_construct. Qed.

(** Lines 156-164 on a node of a library class: the node gets the text
    [effective_source], the cache becomes [cache_after], and the only
    exception is the one of the library's [SetProp]. *)
Lemma run_cloneSource src new st :
  (has_cached_source src = true → validationsEnabled new = false) →
  run (cloneSource src new) st =
  let st' := mkRunState (cache_after (scriptSourceCache st) src) (console st)
               (nextReferent st) in
  match effective_source (scriptSourceCache st) src with
  | Some text =>
      match SetProp_check (ClassName new) "Source" DataType_String (PString text) with
      | None => (Ret (set_Source new text), st')
      | Some e => (Throw e, st')
      end
  | None => (Ret new, st')
  end.
Proof.
  intros Hnew. unfold cloneSource, effective_source, cache_after.
  destruct st as [cache out next]. cbn [scriptSourceCache console nextReferent].
  destruct (has_cached_source src); [specialize (Hnew eq_refl)|done].
  assert (∀ text st, run (SetProp new "Source" DataType_String (PString text)) st =
                     run (Instance_SetProp new "Source" DataType_String (PString text)) st)
    as HSet.
  { intros. unfold SetProp, GenericInstance_SetProp. rewrite Hnew.
    by destruct (kind new). }
  simpl_run. cbn [scriptSourceCache console nextReferent].
  destruct (JsMap.get cache (referent src)) as [cached|]; simpl_run;
    [|destruct (Source src) as [source|]; simpl_run; [|done]];
    rewrite HSet; unfold Instance_SetProp;
    by destruct (SetProp_check _ _ _ _).
Qed.

Lemma wp_cloneSource src new (Q : Instance → RunState → Prop) E st :
  (has_cached_source src = true → validationsEnabled new = false) →
  (let st' := mkRunState (cache_after (scriptSourceCache st) src) (console st)
                (nextReferent st) in
   match effective_source (scriptSourceCache st) src with
   | Some text =>
       match SetProp_check (ClassName new) "Source" DataType_String (PString text) with
       | None => Q (set_Source new text) st'
       | Some e => E e st'
       end
   | None => Q new st'
   end) →
  wp (cloneSource src new) Q E st.
Proof.
  intros Hnew HQ. unfold wp. rewrite run_cloneSource by done. cbn zeta in *.
  destruct (effective_source _ _); [destruct (SetProp_check _ _ _ _)|]; done.
Qed.

End steps.

(** A script is made by the registry, as a node of the library. *)
Lemma constructed_script src ref :
  has_cached_source src = true →
  kind (constructed (ClassName src) ref) = LibraryClass (ClassName src).
Proof.
  unfold has_cached_source. rewrite constructed_spec.
  intros [->%bool_decide_eq_true| ->%bool_decide_eq_true]%orb_true_iff; done.
Qed.

(** ** Clones of trees *)

(** The number of nodes of a tree. *)
Definition size (instance : Instance) : nat := length (nodes instance).

(** [chain P ref sources news]: the trees [news] are related to the trees
    [sources] one by one, each at the referent the one before it left. *)
Fixpoint chain (P : nat → Instance → Instance → Prop) (ref : nat)
    (sources news : list Instance) : Prop :=
  match sources, news with
  | [], [] => True
  | src :: sources, new :: news =>
      P ref src new ∧ chain P (ref + size src) sources news
  | _, _ => False
  end.

Lemma chain_snoc P ref sources news src new :
  chain P ref sources news →
  P (ref + sum_list_with size sources) src new →
  chain P ref (sources ++ [src]) (news ++ [new]).
Proof.
  revert ref news. induction sources as [|s sources IH]; intros ref [|n news];
    cbn [chain app sum_list_with]; try done.
  - rewrite Nat.add_0_r. done.
  - intros [Hs Hchain] Hnew. split; [done|]. apply IH; [done|].
    by rewrite <-Nat.add_assoc.
Qed.

Lemma chain_length P ref sources news :
  chain P ref sources news → length news = length sources.
Proof.
  revert ref news. induction sources as [|s sources IH]; intros ref [|n news];
    cbn [chain]; try done.
  intros [_ Hchain]. simpl. f_equal. eauto.
Qed.

Lemma chain_mono (P P' : nat → Instance → Instance → Prop) ref sources news :
  (∀ ref src new, src ∈ sources → P ref src new → P' ref src new) →
  chain P ref sources news → chain P' ref sources news.
Proof.
  revert ref news. induction sources as [|s sources IH]; intros ref [|n news];
    cbn [chain]; try done.
  intros HP [Hs Hchain]. split; [apply HP; [left|done]|].
  apply IH; [|done]. intros ??? Hin. apply HP. by right.
Qed.

Lemma size_eq instance :
  size instance = S (sum_list_with size (Children instance)).
Proof.
  destruct instance as [r k n p cs]. unfold size. simpl. f_equal.
  by rewrite length_flat_map.
Qed.


Lemma clone_node_no_children ref text src : Children (clone_node ref text src) = [].
Proof. unfold clone_node. rewrite constructed_spec. by destruct text. Qed.

(** ** The rule of the traversal

    Every claim about the clone of a tree is an instance of one rule.  [D]
    holds of the donor nodes, [J] is kept by the cache, [P ref src new]
    relates a donor tree to its clone made at referent [ref], and [E] holds
    of the exceptions that escape.  When [P] holds of a node built by
    [clone_node] over children that satisfy [P], it holds of the result of
    [cloneInstance]. *)

Section traversal.
Context {api : RbxmApi}.
Context (D : Instance → Prop) (J : JsMap nat string → Prop).
Context (P : nat → Instance → Instance → Prop) (E : JsError → RunState → Prop).

(** The library accepts the text of the node as a source. *)
Definition source_accepted (cache : JsMap nat string) (src : Instance) : Prop :=
  ∀ text, effective_source cache src = Some text →
    SetProp_check (ClassName src) "Source" DataType_String (PString text) = None.

Hypothesis D_child : ∀ src child, D src → child ∈ Children src → D child.
Hypothesis J_step : ∀ cache src, D src → J cache → J (cache_after cache src).
Hypothesis P_step : ∀ src ref cache news,
  D src → J cache → source_accepted cache src →
  chain P (S ref) (Children src) news →
  P ref src (set_Children (clone_node ref (effective_source cache src) src) news).
Hypothesis E_step : ∀ src cache text e st,
  D src → J cache → effective_source cache src = Some text →
  SetProp_check (ClassName src) "Source" DataType_String (PString text) = Some e →
  E e st.

(** What a call of [cloneInstance] on [src] from the state [st] establishes. *)
Definition cloned (src : Instance) (parent : Instance) (st : RunState)
    (r : Instance * Instance) (st' : RunState) : Prop :=
  P (nextReferent st) src r.1 ∧ r.2 = appendChild parent r.1 ∧
  J (scriptSourceCache st') ∧ nextReferent st' = nextReferent st + size src.

(** Lines 124-164: the node before its children are cloned, followed
    by the rest of the function. *)
Lemma wp_clone_node {B} src (k : Instance → M B) (Q : B → RunState → Prop) st :
  D src → J (scriptSourceCache st) →
  (∀ lines, source_accepted (scriptSourceCache st) src →
     wp (k (clone_node (nextReferent st)
              (effective_source (scriptSourceCache st) src) src)) Q E
       (mkRunState (cache_after (scriptSourceCache st) src) (console st ++ lines)
          (S (nextReferent st)))) →
  wp (newInstance ← construct (ClassName src);
      newInstance ← copyProps src newInstance;
      newInstance ← cloneSource src (set_Name newInstance (Name src));
      k newInstance) Q E st.
Proof.
  intros HD HJ HQ. apply wp_bind, wp_construct, wp_bind, wp_copyProps.
  intros lines. apply wp_bind, wp_cloneSource.
  { intros Hs. unfold validationsEnabled. cbn [set_Name set_props kind].
    by rewrite constructed_script. }
  cbn zeta. rewrite ClassName_set_Name, ClassName_set_props, ClassName_constructed.
  simpl_run. cbn [scriptSourceCache console nextReferent].
  specialize (HQ lines). unfold source_accepted, clone_node, with_source in HQ.
  destruct (effective_source _ src) as [text|] eqn:Htext; [|by apply HQ].
  destruct (SetProp_check _ _ _ _) as [e|] eqn:Hcheck; [by eapply E_step|].
  apply HQ. by intros ? [= <-].
Qed.

(** The loop of lines 167-169, given the rule for each child. *)
Lemma wp_clone_children node children st :
  Forall (λ c, ∀ parent st, D c → J (scriptSourceCache st) →
            wp (cloneInstance c parent) (cloned c parent st) E st) children →
  Forall D children → J (scriptSourceCache st) →
  wp (foldM (cloneChild cloneInstance) children node)
    (λ new st', ∃ news,
       new = set_Children node (Children node ++ news) ∧
       chain P (nextReferent st) children news ∧ J (scriptSourceCache st') ∧
       nextReferent st' = nextReferent st + sum_list_with size children) E st.
Proof.
  intros IH HD HJ.
  apply (wp_foldM (λ pre new st', ∃ news,
    new = set_Children node (Children node ++ news) ∧
    chain P (nextReferent st) pre news ∧ J (scriptSourceCache st') ∧
    nextReferent st' = nextReferent st + sum_list_with size pre)).
  { exists []. rewrite app_nil_r, set_Children_Children. simpl. auto with lia. }
  intros pre c rest new st1 -> (news & -> & Hchain & HJ1 & Hnext).
  rewrite Forall_app, Forall_cons in IH, HD.
  destruct IH as (_ & IH & _), HD as (_ & HD & _).
  unfold cloneChild. apply wp_bind.
  eapply wp_mono; [by apply IH| |done].
  intros [new' parent'] st2 (HP & -> & HJ2 & Hnext2). apply wp_ret.
  exists (news ++ [new']). cbn [fst snd] in *. split_and!; [|..|done|].
  - unfold appendChild. cbn [set_Children Children]. by rewrite <-app_assoc.
  - apply chain_snoc; [done|]. by rewrite <-Hnext.
  - rewrite sum_list_with_app. simpl. lia.
Qed.

(** The rule: [cloneInstance] on a donor tree establishes [cloned]. *)
Lemma wp_cloneInstance src parent st :
  D src → J (scriptSourceCache st) →
  wp (cloneInstance src parent) (cloned src parent st) E st.
Proof.
  revert parent st.
  induction src as [r k n p cs IH] using Instance_ind; intros parent st HD HJ.
  set (src := mkInstance r k n p cs) in *.
  apply (wp_clone_node src); [done..|]. intros lines Hacc. apply wp_bind.
  eapply wp_mono; [apply wp_clone_children; [exact IH|..]| |done].
  - apply Forall_forall. intros c Hc. by apply (D_child src).
  - by apply J_step.
  - intros new st' (news & -> & Hchain & HJ' & Hnext). apply wp_ret.
    rewrite clone_node_no_children in *. cbn [app] in *.
    split_and!; [|done..|].
    + by apply P_step.
    + rewrite size_eq. simpl in *. lia.
Qed.

End traversal.

(** ** The node [clone_node] *)

Lemma Name_clone_node ref text src : Name (clone_node ref text src) = Name src.
Proof. unfold clone_node. by destruct text. Qed.

Lemma ClassName_clone_node ref text src :
  ClassName (clone_node ref text src) = ClassName src.
Proof. unfold clone_node. destruct text; exact (ClassName_constructed _ _). Qed.

Lemma referent_clone_node ref text src : referent (clone_node ref text src) = ref.
Proof. unfold clone_node. rewrite constructed_spec. by destruct text. Qed.

Lemma props_clone_node ref text src :
  _props (clone_node ref text src) =
  let bag := copied_props (validationsEnabled (constructed (ClassName src) ref))
               (_props src) in
  match text with
  | Some text =>
      JsMap.set bag "Source" (Some (mkRobloxValue DataType_String (PString text)))
  | None => bag
  end.
Proof. unfold clone_node. by destruct text. Qed.

(** An entry that the validator accepts without a line and that is no
    large binary. *)
Definition clean_entry (entry : string * option RobloxValue) : Prop :=
  entry.1 ≠ "UniqueId" ∧ is_large_binary entry.2 = false ∧ is_Some entry.2.

Definition clean (instance : Instance) : Prop :=
  Forall clean_entry (_props instance).

Lemma kept_clean validating entry : kept validating entry = true → clean_entry entry.
Proof.
  unfold kept, clean_entry.
  rewrite !andb_true_iff, !negb_true_iff, bool_decide_eq_false, bool_decide_eq_true.
  intros [[[??]?]?]. done.
Qed.

(** The entries of the copied bag are entries of the source bag that are
    [kept]. *)
Lemma copied_props_Forall (Q : string * option RobloxValue → Prop) validating props :
  (∀ entry, entry ∈ props → kept validating entry = true → Q entry) →
  Forall Q (copied_props validating props).
Proof.
  unfold copied_props. generalize (List.Forall_nil Q).
  generalize (@nil (string * option RobloxValue)) as bag.
  induction props as [|entry props IH]; intros bag Hbag HQ; [done|].
  cbn [fold_left]. apply IH; [|intros e He; apply HQ; by right].
  destruct (kept validating entry) eqn:Hkept; [|done].
  destruct entry. apply JsMap.Forall_set; [done|]. apply HQ; [left|done].
Qed.

Lemma copied_props_wf validating props : JsMap.wf (copied_props validating props).
Proof.
  unfold copied_props.
  generalize (JsMap.wf_empty : JsMap.wf (@nil (string * option RobloxValue))).
  generalize (@nil (string * option RobloxValue)) as bag.
  induction props as [|entry props IH]; intros bag Hbag; [done|].
  cbn [fold_left]. apply IH. destruct (kept validating entry); [|done].
  by apply JsMap.wf_set.
Qed.

(** Over a source bag without duplicate keys the copy is the filter: the
    surviving entries keep their order. *)
Lemma copied_props_filter validating props :
  JsMap.wf props →
  copied_props validating props = filter (λ e, kept validating e = true) props.
Proof.
  unfold copied_props.
  enough (∀ bag, NoDup (JsMap.keys bag ++ JsMap.keys props) →
            fold_left (λ bag entry, if kept validating entry
                                    then JsMap.set bag entry.1 entry.2 else bag)
              props bag = bag ++ filter (λ e, kept validating e = true) props)
    as Hgen by (intros Hwf; by apply (Hgen [])).
  unfold JsMap.keys.
  induction props as [|[k v] props IH]; intros bag Hnd; csimpl in *.
  { by rewrite app_nil_r. }
  apply NoDup_app in Hnd as (Hbag & Hdisj & [Hk Hprops]%NoDup_cons).
  destruct (kept validating (k, v)) eqn:Hkept.
  - rewrite filter_cons_True by done. cbn [fst snd].
    rewrite JsMap.set_absent by (intros Hin; apply (Hdisj _ Hin); left).
    rewrite IH, <-app_assoc; [done|]. rewrite fmap_app. csimpl.
    rewrite <-app_assoc. apply NoDup_app. split_and!; [done| |by apply NoDup_cons].
    intros x Hx. apply (Hdisj x Hx).
  - rewrite filter_cons_False by (by rewrite Hkept). apply IH.
    apply NoDup_app. split_and!; [done| |done].
    intros x Hx Hin. apply (Hdisj x Hx). by right.
Qed.

Lemma clean_clone_node ref text src : clean (clone_node ref text src).
Proof.
  unfold clean. rewrite props_clone_node. cbn zeta.
  pose proof (copied_props_Forall clean_entry
    (validationsEnabled (constructed (ClassName src) ref)) (_props src)
    (λ e _, kept_clean _ e)) as Hbag.
  destruct text; [|done]. apply JsMap.Forall_set; [done|].
  split_and!; [done|done|by eexists].
Qed.

(** ** Chains of clones *)

Lemma chain_Forall (Q : Instance → Prop) ref sources news :
  chain (λ _ _ new, Q new) ref sources news → Forall Q news.
Proof.
  revert ref news. induction sources as [|s sources IH]; intros ref [|n news];
    cbn [chain]; try done.
  intros [Hn Hchain]. apply Forall_cons. eauto.
Qed.

Lemma chain_fmap {A} (f : Instance → A) ref sources news :
  chain (λ _ src new, f new = f src) ref sources news → f <$> news = f <$> sources.
Proof.
  revert ref news. induction sources as [|s sources IH]; intros ref [|n news];
    cbn [chain]; try done.
  intros [Hn Hchain]. csimpl. f_equal; eauto.
Qed.

Lemma chain_seq (f : Instance → list nat) ref sources news :
  chain (λ ref src new, f new = seq ref (size src)) ref sources news →
  flat_map f news = seq ref (sum_list_with size sources).
Proof.
  revert ref news. induction sources as [|s sources IH]; intros ref [|n news];
    cbn [chain]; try done.
  intros [Hn Hchain]. cbn [flat_map sum_list_with].
  by rewrite seq_app, Hn, (IH _ _ Hchain).
Qed.

(** ** What every clone satisfies *)

Section clone_properties.
Context {api : RbxmApi}.
Implicit Types (parent : Instance).

(** An exception of the library's [SetProp] on a source text. *)
Definition source_rejected (e : JsError) : Prop :=
  ∃ className text,
    SetProp_check className "Source" DataType_String (PString text) = Some e.

(** The rule of the traversal for a relation that does not depend on the
    cache: the relation holds of the clone, the parent has the clone as its
    last child, one referent is taken per node, and the only exception
    that escapes is the library's refusal of a source text. *)
Lemma wp_cloneInstance_structural (P : nat → Instance → Instance → Prop)
    (E : JsError → RunState → Prop) src parent st :
  (∀ src ref text news, chain P (S ref) (Children src) news →
     P ref src (set_Children (clone_node ref text src) news)) →
  (∀ e st, source_rejected e → E e st) →
  wp (cloneInstance src parent)
    (λ r st', P (nextReferent st) src r.1 ∧ r.2 = appendChild parent r.1 ∧
              nextReferent st' = nextReferent st + size src) E st.
Proof.
  intros HP HE.
  eapply wp_mono;
    [apply (wp_cloneInstance (λ _, True) (λ _, True) P E); try done| |done].
  - intros. by apply HP.
  - intros ???? st0 _ _ _ Hcheck. apply HE. by eexists _, _.
  - by intros r st' (? & ? & _ & ?).
Qed.

Lemma shape_clone src ref text news :
  chain (λ _ src new, shape new = shape src) (S ref) (Children src) news →
  shape (set_Children (clone_node ref text src) news) = shape src.
Proof.
  intros Hchain%chain_fmap.
  by rewrite shape_set_Children, Name_clone_node, ClassName_clone_node, Hchain,
    <-shape_eq.
Qed.

Lemma clean_clone src ref text news :
  chain (λ _ _ new, Forall clean (nodes new)) (S ref) (Children src) news →
  Forall clean (nodes (set_Children (clone_node ref text src) news)).
Proof.
  intros Hchain%chain_Forall. rewrite nodes_set_Children.
  apply Forall_cons. split; [apply clean_clone_node|by apply Forall_flat_map].
Qed.

Lemma referents_clone src ref text news :
  chain (λ ref src new, referent <$> nodes new = seq ref (size src))
    (S ref) (Children src) news →
  referent <$> nodes (set_Children (clone_node ref text src) news) =
  seq ref (size src).
Proof.
  intros Hchain%(chain_seq (λ new, referent <$> nodes new)).
  rewrite nodes_set_Children, size_eq. csimpl.
  rewrite referent_clone_node. f_equal.
  rewrite <-Hchain. clear. induction news as [|n news IH]; csimpl; [done|].
  by rewrite fmap_app, IH.
Qed.

(** The three relations together. *)
Definition faithful (ref : nat) (src new : Instance) : Prop :=
  shape new = shape src ∧ Forall clean (nodes new) ∧
  referent <$> nodes new = seq ref (size src).

Lemma faithful_clone src ref text news :
  chain faithful (S ref) (Children src) news →
  faithful ref src (set_Children (clone_node ref text src) news).
Proof.
  intros Hchain. split_and!;
    [apply shape_clone|apply clean_clone|apply referents_clone];
    (eapply chain_mono; [|exact Hchain]); by intros ??? _ (?&?&?).
Qed.

(** What a chain of faithful clones gives for the whole list. *)
Lemma chain_faithful ref sources news :
  chain faithful ref sources news →
  shape <$> news = shape <$> sources ∧
  Forall (λ new, Forall clean (nodes new)) news ∧
  flat_map (λ new, referent <$> nodes new) news =
    seq ref (sum_list_with size sources).
Proof.
  intros Hchain. split_and!;
    [apply (chain_fmap shape ref)|apply (chain_Forall _ ref sources)
    |apply chain_seq];
    (eapply chain_mono; [|exact Hchain]); by intros ??? _ (?&?&?).
Qed.

(** With a library that accepts source texts [cloneInstance] returns a
    faithful clone. *)
Lemma cloneInstance_faithful src parent st :
  (∀ e, ¬ source_rejected e) →
  ∃ new st',
    run (cloneInstance src parent) st = (Ret (new, appendChild parent new), st') ∧
    faithful (nextReferent st) src new ∧
    nextReferent st' = nextReferent st + size src.
Proof.
  intros Hacc.
  pose proof (wp_cloneInstance_structural faithful no_throw src parent st
    faithful_clone (λ e st Hrej, Hacc e Hrej)) as Hwp.
  apply wp_run in Hwp as ([new parent'] & st' & Hrun & Hnew & Hparent & Hnext).
  cbn [fst snd] in *. subst. eauto.
Qed.

(** C10: whatever the library does on the properties, the loop of lines
    134-150 returns: an exception of [SetProp] is caught and the value
    stored directly.  The new node gets the bag [copied_props]; its class,
    name, children and identity, the cache and the referent counter are
    untouched, and the console only grows. *)
Theorem copyProps_recovers src new st :
  wp (copyProps src new)
    (λ new' st',
       new' = set_props new (copied_props (validationsEnabled new) (_props src)) ∧
       scriptSourceCache st' = scriptSourceCache st ∧
       nextReferent st' = nextReferent st ∧ extends st st')
    no_throw st.
Proof.
  apply wp_copyProps. intros lines. simpl_run. auto with bridge.
Qed.

(** C5: the clone has the shape of the donor (names, classes and child
    order at every depth) and is the last child of the parent, given that
    the library accepts source texts. *)
Theorem cloneInstance_preserves_shape src parent st :
  (∀ e, ¬ source_rejected e) →
  ∃ new st',
    run (cloneInstance src parent) st = (Ret (new, appendChild parent new), st') ∧
    shape new = shape src.
Proof.
  intros Hacc.
  pose proof (wp_cloneInstance_structural (λ _ src new, shape new = shape src)
    no_throw src parent st (λ src ref text news, shape_clone src ref text news)
    (λ e st Hrej, Hacc e Hrej)) as Hwp.
  apply wp_run in Hwp as ([new parent'] & st' & Hrun & Hshape & Hparent & _).
  cbn [fst snd] in *. subst. eauto.
Qed.

(** C6: no node of a clone holds a [UniqueId], a [BinaryString] of more than
    1000000 bytes or a null value, whatever the donor holds; the only
    exception that escapes [cloneInstance] is the library's refusal of a
    source text. *)
Theorem cloneInstance_clean src parent st :
  wp (cloneInstance src parent) (λ r _, Forall clean (nodes r.1))
    (λ e _, source_rejected e) st.
Proof.
  eapply wp_mono;
    [apply (wp_cloneInstance_structural (λ _ _ new, Forall clean (nodes new))
              (λ e _, source_rejected e));
     [apply clean_clone|done]| |done].
  by intros r st' (? & _).
Qed.

(** C18: the nodes of a clone are new objects: their referents are the
    [size src] consecutive referents from the counter on, in preorder, and
    the counter advances past them. *)
Theorem cloneInstance_fresh src parent st :
  wp (cloneInstance src parent)
    (λ r st', referent <$> nodes r.1 = seq (nextReferent st) (size src) ∧
              nextReferent st' = nextReferent st + size src)
    (λ e _, source_rejected e) st.
Proof.
  eapply wp_mono;
    [apply (wp_cloneInstance_structural
              (λ ref src new, referent <$> nodes new = seq ref (size src))
              (λ e _, source_rejected e));
     [apply referents_clone|done]| |done].
  by intros r st' (? & _ & ?).
Qed.

End clone_properties.

(** ** The clone as a function of the donor

    When the cache agrees with the donor, the clone is the pure function
    [clone_tree] of the donor and of the referent counter. *)

(** The source of a script node. *)
Definition own_source (src : Instance) : option string :=
  if has_cached_source src then Source src else None.

Fixpoint clone_tree (ref : nat) (src : Instance) : Instance :=
  set_Children (clone_node ref (own_source src) src)
    (map_offsets clone_tree size (S ref) (Children src)).

(** The nodes of a list of donor trees. *)
Definition universe (donors : list Instance) : list Instance :=
  flat_map nodes donors.

(** The cache holds, for the script nodes of the donors, nothing but their
    sources. *)
Definition consistent (donors : list Instance) (cache : JsMap nat string) : Prop :=
  ∀ n text, n ∈ universe donors → has_cached_source n = true →
    JsMap.get cache (referent n) = Some text → Source n = Some text.

(** The cache after [cacheNode]. *)
Definition cache_node (cache : JsMap nat string) (instance : Instance) :
    JsMap nat string :=
  if has_cached_source instance then
    match Source instance with
    | Some source => JsMap.set cache (referent instance) source
    | None => cache
    end
  else cache.

(** The cache after [cacheScriptSources]. *)
Fixpoint cached_sources (cache : JsMap nat string) (instance : Instance) :
    JsMap nat string :=
  fold_left cached_sources (Children instance) (cache_node cache instance).

Lemma clone_tree_eq ref src :
  clone_tree ref src =
  set_Children (clone_node ref (own_source src) src)
    (map_offsets clone_tree size (S ref) (Children src)).
Proof. by destruct src. Qed.

Lemma chain_map_offsets ref sources news :
  chain (λ ref src new, new = clone_tree ref src) ref sources news →
  news = map_offsets clone_tree size ref sources.
Proof.
  revert ref news. induction sources as [|s sources IH]; intros ref [|n news];
    cbn [chain map_offsets]; try done.
  intros [-> Hchain]. f_equal. eauto.
Qed.

Lemma consistent_empty donors : consistent donors [].
Proof. by intros n text _ _ ?. Qed.

Lemma nodes_trans root n c : n ∈ nodes root → c ∈ Children n → c ∈ nodes root.
Proof.
  revert n c. induction root as [r k nm p cs IH] using Instance_ind.
  intros n c. rewrite nodes_eq. cbn [Children].
  intros [->|(c' & Hc' & Hn)%elem_of_flat_map]%elem_of_cons Hc.
  - right. apply elem_of_flat_map. exists c. split; [done|apply elem_of_nodes_root].
  - right. apply elem_of_flat_map. exists c'. split; [done|].
    rewrite Forall_forall in IH. by apply (IH c' Hc' n c).
Qed.

Lemma universe_trans donors n c :
  n ∈ universe donors → c ∈ Children n → c ∈ universe donors.
Proof.
  unfold universe. rewrite !elem_of_flat_map. intros (root & Hroot & Hn) Hc.
  exists root. split; [done|]. by eapply nodes_trans.
Qed.

(** ** The cache *)

Lemma run_cacheNode instance st :
  run (cacheNode instance) st =
  (Ret (), mkRunState (cache_node (scriptSourceCache st) instance) (console st)
             (nextReferent st)).
Proof.
  unfold cacheNode, cache_node. destruct st.
  destruct (has_cached_source instance); [destruct (Source instance)|]; done.
Qed.

Lemma run_cache_children children st :
  Forall (λ c, ∀ st, run (cacheScriptSources c) st =
                 (Ret (), mkRunState (cached_sources (scriptSourceCache st) c)
                            (console st) (nextReferent st))) children →
  run (forM_ cacheScriptSources children) st =
  (Ret (), mkRunState (fold_left cached_sources children (scriptSourceCache st))
             (console st) (nextReferent st)).
Proof.
  intros Hall. revert st. induction Hall as [|c children Hc _ IH]; intros st.
  - by destruct st.
  - by rewrite run_forM__cons, run_bind, Hc, IH.
Qed.

(** [cacheScriptSources] always returns, and changes nothing but the
    cache. *)
Lemma run_cacheScriptSources instance st :
  run (cacheScriptSources instance) st =
  (Ret (), mkRunState (cached_sources (scriptSourceCache st) instance)
             (console st) (nextReferent st)).
Proof.
  revert st. induction instance as [r k n p cs IH] using Instance_ind; intros st.
  cbn [cacheScriptSources]. by rewrite run_bind, run_cacheNode, (run_cache_children _ _ IH).
Qed.

(** The traversal is the preorder of the tree. *)
Lemma cached_sources_nodes cache instance :
  cached_sources cache instance = fold_left cache_node (nodes instance) cache.
Proof.
  revert cache.
  induction instance as [r k n p cs IH] using Instance_ind; intros cache.
  cbn [cached_sources nodes Children fold_left]. rewrite fold_left_flat_map.
  apply fold_left_ext_Forall. eapply Forall_impl; [exact IH|]. auto.
Qed.

(** The loop of line 278 over the donor roots. *)
Lemma run_cache_donors donors st :
  run (forM_ cacheScriptSources donors) st =
  (Ret (), mkRunState (fold_left cache_node (universe donors) (scriptSourceCache st))
             (console st) (nextReferent st)).
Proof.
  rewrite run_cache_children
    by (apply Forall_forall; intros; apply run_cacheScriptSources).
  unfold universe. rewrite fold_left_flat_map.
  rewrite (fold_left_ext_Forall cached_sources
             (λ cache c, fold_left cache_node (nodes c) cache)); [done|].
  apply Forall_forall. intros c _ cache. apply cached_sources_nodes.
Qed.

Section functional.
Context {api : RbxmApi} (donors : list Instance).
Hypothesis donors_distinct : NoDup (referent <$> universe donors).
Implicit Types (cache : JsMap nat string).

Lemma consistent_set cache n source :
  n ∈ universe donors → Source n = Some source → consistent donors cache →
  consistent donors (JsMap.set cache (referent n) source).
Proof.
  intros Hn Hsource HJ m text Hm Hscript. rewrite JsMap.get_set.
  destruct (decide (referent n = referent m)) as [Heq|_]; [|by apply HJ].
  apply (NoDup_fmap_inj _ _ _ _ donors_distinct Hn Hm) in Heq as <-. congruence.
Qed.

Lemma consistent_cache_after cache src :
  src ∈ universe donors → consistent donors cache → consistent donors (cache_after cache src).
Proof.
  intros Hsrc HJ. unfold cache_after. repeat case_match; try done.
  by apply consistent_set.
Qed.

Lemma consistent_cache_node cache src :
  src ∈ universe donors → consistent donors cache → consistent donors (cache_node cache src).
Proof.
  intros Hsrc HJ. unfold cache_node. repeat case_match; try done.
  by apply consistent_set.
Qed.

(** The loop of [cacheScriptSources] keeps the cache in agreement. *)
Lemma consistent_cache_donors cache :
  consistent donors cache →
  consistent donors (fold_left cache_node (universe donors) cache).
Proof.
  intros HJ. apply fold_left_invariant; [|done].
  intros. by apply consistent_cache_node.
Qed.

(** Under a consistent cache a script gets its own source. *)
Lemma effective_source_consistent cache src :
  src ∈ universe donors → consistent donors cache →
  effective_source cache src = own_source src.
Proof.
  intros Hsrc HJ. unfold effective_source, own_source.
  destruct (has_cached_source src) eqn:Hscript; [|done].
  destruct (JsMap.get cache (referent src)) as [text|] eqn:Hget; [|done].
  symmetry. by apply HJ.
Qed.

(** The library accepts the sources of the donor. *)
Definition sources_accepted : Prop :=
  ∀ n text, n ∈ universe donors → own_source n = Some text →
    SetProp_check (ClassName n) "Source" DataType_String (PString text) = None.

Lemma clone_tree_clone src ref cache news :
  src ∈ universe donors → consistent donors cache →
  chain (λ ref src new, new = clone_tree ref src) (S ref) (Children src) news →
  set_Children (clone_node ref (effective_source cache src) src) news =
  clone_tree ref src.
Proof.
  intros Hsrc HJ ->%chain_map_offsets.
  by rewrite effective_source_consistent, clone_tree_eq.
Qed.

(** Over donors whose nodes are distinct objects, from a cache that
    agrees with the donors and with a library that accepts their sources,
    [cloneInstance] on a donor node returns the tree [clone_tree] of it,
    appends it to the parent, keeps the cache in agreement and takes one
    referent per node. *)
Lemma run_cloneInstance_consistent src parent st :
  src ∈ universe donors → consistent donors (scriptSourceCache st) → sources_accepted →
  ∃ st',
    run (cloneInstance src parent) st =
      (Ret (clone_tree (nextReferent st) src,
            appendChild parent (clone_tree (nextReferent st) src)), st') ∧
    consistent donors (scriptSourceCache st') ∧
    nextReferent st' = nextReferent st + size src.
Proof.
  intros Hsrc HJ Hacc.
  assert (wp (cloneInstance src parent)
            (cloned (consistent donors) (λ ref src new, new = clone_tree ref src)
               src parent st) no_throw st) as Hwp.
  { apply (wp_cloneInstance (λ n, n ∈ universe donors)); try done.
    - intros. by eapply universe_trans.
    - intros. by apply consistent_cache_after.
    - intros. by apply clone_tree_clone.
    - intros n cache text e st0 Hn HJ0 Htext Hcheck.
      rewrite effective_source_consistent in Htext by done.
      rewrite (Hacc n text Hn Htext) in Hcheck. done. }
  apply wp_run in Hwp as ([new parent'] & st' & Hrun & Hnew & Hparent & HJ' & Hnext).
  cbn [fst snd] in *. subst. eauto.
Qed.

(** C16: the cache is transparent: over donors whose nodes are distinct
    objects and with a library that accepts their sources, [cloneInstance]
    returns, and the tree it returns from a cache that agrees with the
    donors is the pure function [clone_tree] of the donor and of the
    referent counter, whatever the cache holds. *)
Theorem cloneInstance_cache_transparent src parent st1 st2 :
  src ∈ universe donors → sources_accepted →
  consistent donors (scriptSourceCache st1) →
  consistent donors (scriptSourceCache st2) →
  nextReferent st1 = nextReferent st2 →
  (run (cloneInstance src parent) st1).1 =
    Ret (clone_tree (nextReferent st1) src,
         appendChild parent (clone_tree (nextReferent st1) src)) ∧
  (run (cloneInstance src parent) st2).1 = (run (cloneInstance src parent) st1).1.
Proof.
  intros Hsrc Hacc HJ1 HJ2 Hnext.
  destruct (run_cloneInstance_consistent src parent st1) as (st1' & -> & _);
    [done..|].
  destruct (run_cloneInstance_consistent src parent st2) as (st2' & -> & _);
    [done..|].
  by rewrite Hnext.
Qed.

Lemma cache_node_is_Some cache n k :
  is_Some (JsMap.get cache k) → is_Some (JsMap.get (cache_node cache n) k).
Proof.
  intros Hk. unfold cache_node. repeat case_match; try done.
  rewrite JsMap.get_set. by case_decide.
Qed.

Lemma cache_nodes_has cache l n text :
  n ∈ l → own_source n = Some text →
  is_Some (JsMap.get (fold_left cache_node l cache) (referent n)).
Proof.
  unfold own_source. intros Hn Hown. revert cache.
  induction l as [|m l IH]; intros cache; [by apply elem_of_nil in Hn|].
  apply elem_of_cons in Hn as [<-|Hn]; [|by apply IH]. cbn [fold_left].
  apply fold_left_invariant; [intros; by apply cache_node_is_Some|].
  unfold cache_node. destruct (has_cached_source n); [|done]. rewrite Hown.
  by rewrite JsMap.get_set_eq.
Qed.

(** C17: the loop of [cacheScriptSources] over the donor roots always
    returns and touches nothing but the cache; over donors whose nodes are
    distinct objects the cache then holds the source of every script of
    the donors that has one, and nothing else about them. *)
Theorem cacheScriptSources_caches st :
  consistent donors (scriptSourceCache st) →
  ∃ cache,
    run (forM_ cacheScriptSources donors) st =
      (Ret (), mkRunState cache (console st) (nextReferent st)) ∧
    consistent donors cache ∧
    ∀ n text, n ∈ universe donors → own_source n = Some text →
      JsMap.get cache (referent n) = Some text.
Proof.
  intros HJ. eexists. split; [apply run_cache_donors|].
  pose proof (consistent_cache_donors _ HJ) as HJ'.
  split; [done|]. intros n text Hn Hown.
  destruct (cache_nodes_has (scriptSourceCache st) _ n text Hn Hown) as [text' Hget].
  rewrite Hget. unfold own_source in Hown.
  destruct (has_cached_source n) eqn:Hscript; [|done].
  rewrite <-Hown. symmetry. by apply (HJ' n text').
Qed.

End functional.

(** ** What is lost in a copy *)

(** On a node of a library class the loop keeps exactly the clean entries. *)
Lemma kept_library entry : kept false entry = true ↔ clean_entry entry.
Proof.
  unfold kept, clean_entry. cbn [andb negb].
  rewrite andb_true_r, !andb_true_iff, !negb_true_iff, bool_decide_eq_false,
    bool_decide_eq_true.
  split; [intros [[??]?]|intros (?&?&?)]; done.
Qed.

Section losses.
Context {api : RbxmApi}.

(** C26: over a source bag without duplicate keys the loop of lines 134-150
    is a filter: the new bag holds the entries that are [kept], in the
    order of the source, whatever the library answers. *)
Theorem copyProps_filter src new st :
  JsMap.wf (_props src) →
  ∃ lines,
    run (copyProps src new) st =
    (Ret (set_props new
            (filter (λ e, kept (validationsEnabled new) e = true) (_props src))),
     emit st lines).
Proof.
  intros Hwf. destruct (run_copyProps src new st) as [lines ->].
  exists lines. by rewrite copied_props_filter.
Qed.

(** C27: on a validating generic node a string of more than 500000
    characters does not reach the bag: [SetProp] answers [false] and the
    loop of lines 134-150 does not look at the answer.  spec.md 4.3
    describes a fallback to direct assignment for a rejected value; the
    code has it for exceptions only. *)
Theorem copyProps_drops_large_string src new key value st :
  validationsEnabled new = true → is_large_string value = true →
  wp (copyProps src new) (λ new' _, (key, value) ∉ _props new') no_throw st.
Proof.
  intros Hgeneric Hlarge. apply wp_copyProps. intros lines. rewrite Hgeneric.
  cbn [set_props _props]. intros Hin.
  pose proof (copied_props_Forall (λ e, kept true e = true) true (_props src)
                (λ e _ He, He)) as Hall.
  rewrite Forall_forall in Hall. specialize (Hall _ Hin).
  unfold kept in Hall. cbn [fst snd] in Hall. rewrite Hlarge in Hall.
  by rewrite andb_false_r in Hall.
Qed.

End losses.

(** ** The tree of spec.md section 8 *)

Definition red : RobloxValue := mkRobloxValue "Color3" (PString "red").

Definition Part1 : Instance :=
  mkInstance 7 (LibraryClass "Model") "Part1"
    [("UniqueId", Some (mkRobloxValue "UniqueId" (PString "x")));
     ("Color", Some red)] [].

Definition Workspace : Instance :=
  mkInstance 1 (LibraryClass "Workspace") "Workspace" [] [].

Example clone_end_to_end :
  run (cloneInstance (api := permissive_api) Part1 Workspace) (initial_state 10) =
  (Ret (mkInstance 10 (LibraryClass "Model") "Part1" [("Color", Some red)] [],
        mkInstance 1 (LibraryClass "Workspace") "Workspace" []
          [mkInstance 10 (LibraryClass "Model") "Part1" [("Color", Some red)] []]),
   mkRunState [] [] 11).
Proof. reflexivity. Qed.

Definition Loader : Instance :=
  mkInstance 8 (LibraryClass "Script") "Loader"
    [("Source", Some (mkRobloxValue "String" (PString "print(1)")))] [].

Definition Kit : Instance :=
  mkInstance 6 (LibraryClass "Folder") "Kit"
    [("UniqueId", Some (mkRobloxValue "UniqueId" (PString "k")))] [Part1; Loader].

Lemma permissive_accepts e : ¬ source_rejected (api := permissive_api) e.
Proof. by intros (className & text & ?). Qed.

Lemma cloneInstance_preserves_shape_witness :
  ∃ new st',
    run (cloneInstance (api := permissive_api) Kit Workspace) (initial_state 10) =
      (Ret (new, appendChild Workspace new), st') ∧
    shape new = shape Kit.
Proof.
  apply (cloneInstance_preserves_shape (api := permissive_api)).
  exact permissive_accepts.
Defined.

Lemma cloneInstance_cache_transparent_witness :
  (run (cloneInstance (api := permissive_api) Loader Workspace) (initial_state 10)).1 =
    Ret (clone_tree 10 Loader, appendChild Workspace (clone_tree 10 Loader)) ∧
  (run (cloneInstance (api := permissive_api) Loader Workspace)
     (mkRunState [(8, "print(1)")] [] 10)).1 =
  (run (cloneInstance (api := permissive_api) Loader Workspace) (initial_state 10)).1.
Proof.
  apply (cloneInstance_cache_transparent (api := permissive_api) [Kit]).
  - compute_done.
  - apply (universe_trans [Kit] Kit Loader); repeat constructor.
  - by intros n text _ _.
  - apply consistent_empty.
  - intros n text Hn _ Hget. cbn in Hget. case_decide as Href; [|done].
    injection Hget as <-. revert Href.
    unfold universe in Hn. cbn in Hn.
    repeat (apply elem_of_cons in Hn as [->|Hn]; [by intros [=]|]).
    by apply elem_of_nil in Hn.
  - done.
Defined.

Lemma cacheScriptSources_caches_witness :
  ∃ cache,
    run (forM_ cacheScriptSources [Kit]) (initial_state 10) =
      (Ret (), mkRunState cache [] 10) ∧
    consistent [Kit] cache ∧
    ∀ n text, n ∈ universe [Kit] → own_source n = Some text →
      JsMap.get cache (referent n) = Some text.
Proof.
  apply (cacheScriptSources_caches [Kit]); [compute_done|apply consistent_empty].
Defined.

(** The clone of [Kit]: the [UniqueId]s are gone, the script has its
    source, and the source entered the cache. *)
Example clone_Kit :
  run (cloneInstance (api := permissive_api) Kit Workspace) (initial_state 10) =
  (Ret (clone_tree 10 Kit, appendChild Workspace (clone_tree 10 Kit)),
   mkRunState [(8, "print(1)")] [] 13) ∧
  clone_tree 10 Kit =
  mkInstance 10 (LibraryClass "Folder") "Kit" []
    [mkInstance 11 (LibraryClass "Model") "Part1" [("Color", Some red)] [];
     mkInstance 12 (LibraryClass "Script") "Loader"
       [("Source", Some (mkRobloxValue "String" (PString "print(1)")))] []].
Proof. split; reflexivity. Qed.

(** A library that throws on a value: the value is stored directly, and a
    warning is logged. *)
Example clone_fallback :
  run (cloneInstance (api := typed_api)
         (mkInstance 7 (LibraryClass "Model") "P"
            [("Label", Some (mkRobloxValue "String" (PNumber 3)))] [])
         Workspace) (initial_state 10) =
  (Ret (mkInstance 10 (LibraryClass "Model") "P"
          [("Label", Some (mkRobloxValue "String" (PNumber 3)))] [],
        mkInstance 1 (LibraryClass "Workspace") "Workspace" []
          [mkInstance 10 (LibraryClass "Model") "P"
             [("Label", Some (mkRobloxValue "String" (PNumber 3)))] []]),
   mkRunState []
     [Out "[WARN] Failed to set property Label via SetProp, using direct assignment"]
     11).
Proof. reflexivity. Qed.

(** A donor of a class that is not in the registry, with a string of
    500001 characters: the clone is a generic node without the property. *)
Example clone_generic_large_string :
  run (cloneInstance (api := permissive_api)
         (mkInstance 7 (LibraryClass "Gizmo") "G"
            [("Data", Some (mkRobloxValue "String"
                              (PString (JsString.repeat "a" 500001))))] [])
         Workspace) (initial_state 10) =
  (Ret (mkInstance 10 (GenericInstance "Gizmo" true) "G" [] [],
        mkInstance 1 (LibraryClass "Workspace") "Workspace" []
          [mkInstance 10 (GenericInstance "Gizmo" true) "G" [] []]),
   mkRunState [] [Out "[WARN] Skipping large string property Data"] 11).
Proof. vm_compute. reflexivity. Qed.

Lemma copyProps_filter_witness :
  ∃ lines,
    run (copyProps (api := typed_api) Part1 (new_LibraryClass "Model" 10))
      (initial_state 11) =
    (Ret (set_props (new_LibraryClass "Model" 10)
            (filter (λ e, kept false e = true) (_props Part1))),
     emit (initial_state 11) lines).
Proof. apply (copyProps_filter (api := typed_api)). compute_done. Defined.

Lemma copyProps_drops_large_string_witness :
  wp (copyProps (api := permissive_api)
        (mkInstance 7 (LibraryClass "Gizmo") "G"
           [("Data", Some (mkRobloxValue "String"
                             (PString (JsString.repeat "a" 500001))))] [])
        (new_GenericInstance (Some "Gizmo") 10))
    (λ new' _,
       ("Data", Some (mkRobloxValue "String"
                        (PString (JsString.repeat "a" 500001)))) ∉ _props new')
    no_throw (initial_state 11).
Proof.
  apply (copyProps_drops_large_string (api := permissive_api));
    [reflexivity|vm_compute; reflexivity].
Defined.
