(* ===== verification/Inject.v ===== *)
(** * The orchestrator of an injection

    [injectInfection] (src/bridge.ts lines 215-258) works on the first root
    of the decoded target file: it runs the removal pass with the fixed
    list [namesToRemove], then the sanitizer, then validates every donor
    root into one shared array of diagnostics and throws at the first root
    that is not valid, and at last clones the donor roots one by one under
    the target root, printing the first three clones with
    [printInstanceHierarchy] (lines 72-79).

    The source mutates the target file in place and returns nothing; the
    model returns the file with its first root replaced.  The call
    [global.gc()] of lines 254-256 has no effect on the state of the model
    and is left out. *)

From Stdlib Require Import String NArith Lia.
From stdpp Require Import base tactics option list strings.
From S2P Require Import Prelude JsString JsMap Effects Instance.
From S2P Require Import Validate Remove Sanitize Clone.

(** ** The code *)

(** A decoded file: the array [Roots]. *)
Record RobloxFile := mkRobloxFile { Roots : list Instance }.

(** [printInstanceHierarchy(instance, prefix)] (lines 72-79).  The test of
    line 74 skips a loop over no children. *)
Fixpoint printInstanceHierarchy (instance : Instance) (prefix : string) : M unit :=
  console_log (prefix +:+ Name instance +:+ " (" +:+ ClassName instance +:+ ")");;
  forM_ (λ child, printInstanceHierarchy child (prefix +:+ "  "))
    (Children instance).

(** Lines 219-223. *)
Definition namesToRemove : list string :=
  [ "qPerfectionweld"; "Effectbuilder"; "Manager"; "Modulescript"; "Controller";
    "zRelativeWeld"; "MeshWeld"; "AutoWeld"; "weld"; "InitWeld"; "ObjectBuilder";
    "ZPartColorize0"; "ObjectGroup"; "ModelOptimizer"; "ModelGrouper";
    "WConstraint" ].

(** The body of the loop of lines 232-238, on the shared array [errors]. *)
Definition validateRoot (errors : list string) (root : Instance) :
    M (list string) :=
  let '(isValid, errors) := validateInstance root errors "" in
  if isValid then mret errors
  else
    console_log "[ERROR] Invalid infection root structure:";;
    forM_ console_log errors;;
    throw (Error "Invalid infection structure").

Section inject.
Context {api : RbxmApi}.

(** The body of the loop of lines 241-257 for the index [i]; the exception
    is rendered after the message, without its stack. *)
Definition injectRoot (i : nat) (root parentObject : Instance) : M Instance :=
  try_catch
    (r ← cloneInstance root parentObject;
     (if i <? 3 then printInstanceHierarchy r.1 "" else mret ());;
     mret r.2)
    (λ e,
       console_log ("[ERROR] Failed to inject infection root "
                    +:+ JsString.of_nat i +:+ ": " +:+ JsError_toString e);;
       throw e).

(** The loop of lines 241-257 from the index [i] on. *)
Fixpoint injectRoots (i : nat) (infectionRoots : list Instance)
    (parentObject : Instance) : M Instance :=
  match infectionRoots with
  | [] => mret parentObject
  | root :: rest =>
      parentObject ← injectRoot i root parentObject;
      injectRoots (S i) rest parentObject
  end.

(** [injectInfection(originalFile, infectionRoots)] (lines 215-258).  On a
    file without roots [Roots[0]] (line 216) is [undefined] and the read of
    [instance.Children] at line 176 throws a [TypeError]; [processModel]
    tests the roots first (line 266) and never makes this call. *)
Definition injectInfection (originalFile : RobloxFile)
    (infectionRoots : list Instance) : M RobloxFile :=
  match Roots originalFile with
  | [] =>
      throw (TypeError "Cannot read properties of undefined (reading 'Children')")
  | parentObject :: others =>
      parentObject ← removeInstances parentObject namesToRemove;
      r ← findAndRemoveSuspiciousScripts parentObject;
      let '(parentObject, removedScripts) := r in
      (if 0 <? removedScripts then
         console_log ("[INFO] Removed/sanitized " +:+ JsString.of_nat removedScripts
                      +:+ " suspicious scripts")
       else mret ());;
      foldM validateRoot infectionRoots [];;
      console_log ("[INFO] Injecting " +:+ JsString.of_nat (length infectionRoots)
                   +:+ " infection roots...");;
      parentObject ← injectRoots 0 infectionRoots parentObject;
      mret (mkRobloxFile (parentObject :: others))
  end.

End inject.

(** ** The specification *)

(** The lines [printInstanceHierarchy] prints. *)
Fixpoint hierarchy (prefix : string) (instance : Instance) : list Line :=
  Out (prefix +:+ Name instance +:+ " (" +:+ ClassName instance +:+ ")")
  :: flat_map (hierarchy (prefix +:+ "  ")) (Children instance).

(** The target root after the removal pass and the sanitizer. *)
Definition prepared (parentObject : Instance) : Instance :=
  scrub (strip namesToRemove parentObject).

(** The first root of the file after a successful injection of [donors]
    from the referent [ref] on. *)
Definition injected (ref : nat) (parentObject : Instance)
    (donors : list Instance) : Instance :=
  set_Children (prepared parentObject)
    (Children (prepared parentObject) ++ map_offsets clone_tree size ref donors).

(** The lines of the removal pass and of the sanitizer, with the summary
    of line 228. *)
Definition preparation_log (parentObject : Instance) : list Line :=
  let stripped := strip namesToRemove parentObject in
  removal_log namesToRemove parentObject ++ scrub_log stripped ++
  (if 0 <? suspicious_count stripped
   then [Out ("[INFO] Removed/sanitized "
              +:+ JsString.of_nat (suspicious_count stripped)
              +:+ " suspicious scripts")]
   else []).

(** The lines of a validation that fails at the root after [valid]. *)
Definition rejection_log (valid : list Instance) (bad : Instance) : list Line :=
  Out "[ERROR] Invalid infection root structure:"
  :: (Out <$> flat_map (diagnostics "") (valid ++ [bad])).

(** ** The steps compute the specification *)

Implicit Types (st : RunState) (root parent : Instance).

Lemma run_print_children children prefix st :
  Forall (λ c, ∀ prefix st, run (printInstanceHierarchy c prefix) st =
                 (Ret (), emit st (hierarchy prefix c))) children →
  run (forM_ (λ child, printInstanceHierarchy child prefix) children) st =
  (Ret (), emit st (flat_map (hierarchy prefix) children)).
Proof.
  intros Hall. revert st. induction Hall as [|c children Hc _ IH]; intros st.
  - by rewrite run_forM__nil, emit_nil.
  - rewrite run_forM__cons, run_bind, Hc, IH, emit_emit. done.
Qed.

(** [printInstanceHierarchy] always returns and prints one line per node,
    in document order. *)
Lemma run_printInstanceHierarchy instance prefix st :
  run (printInstanceHierarchy instance prefix) st =
  (Ret (), emit st (hierarchy prefix instance)).
Proof.
  revert prefix st.
  induction instance as [r k n p cs IH] using Instance_ind; intros prefix st.
  cbn [printInstanceHierarchy hierarchy].
  rewrite run_bind, run_console_log, (run_print_children _ _ _ IH), emit_emit.
  done.
Qed.

Lemma length_hierarchy prefix instance :
  length (hierarchy prefix instance) = size instance.
Proof.
  revert prefix. induction instance as [r k n p cs IH] using Instance_ind.
  intros prefix. rewrite size_eq. cbn [hierarchy Children length]. f_equal.
  rewrite length_flat_map. apply sum_list_with_ext_Forall.
  eapply Forall_impl; [exact IH|]. auto.
Qed.

Lemma run_validateRoot errors root st :
  run (validateRoot errors root) st =
  if valid_tree root then (Ret (errors ++ diagnostics "" root), st)
  else (Throw (Error "Invalid infection structure"),
        emit st (Out "[ERROR] Invalid infection root structure:"
                 :: (Out <$> errors ++ diagnostics "" root))).
Proof.
  unfold validateRoot. rewrite validateInstance_eq.
  destruct (valid_tree root); [done|].
  rewrite !run_bind, run_console_log, run_bind, run_forM__console_log, emit_emit.
  done.
Qed.

(** The loop of lines 232-238 over valid roots returns the diagnostics and
    prints nothing. *)
Lemma run_validate_valid roots errors st :
  forallb valid_tree roots = true →
  run (foldM validateRoot roots errors) st =
  (Ret (errors ++ flat_map (diagnostics "") roots), st).
Proof.
  revert errors. induction roots as [|root roots IH]; intros errors;
    cbn [forallb flat_map].
  - intros _. by rewrite run_foldM_nil, app_nil_r.
  - intros [Hroot Hroots]%andb_true_iff.
    rewrite run_foldM_cons, run_bind, run_validateRoot, Hroot, IH by done.
    by rewrite app_assoc.
Qed.

(** The loop throws at the first root that is not valid, after printing
    the diagnostics gathered so far. *)
Lemma run_validate_invalid valid bad rest errors st :
  forallb valid_tree valid = true → valid_tree bad = false →
  run (foldM validateRoot (valid ++ bad :: rest) errors) st =
  (Throw (Error "Invalid infection structure"),
   emit st (Out "[ERROR] Invalid infection root structure:"
            :: (Out <$> errors ++ flat_map (diagnostics "") (valid ++ [bad])))).
Proof.
  intros Hvalid Hbad.
  rewrite run_foldM_app, run_bind, run_validate_valid by done.
  rewrite run_foldM_cons, run_bind, run_validateRoot, Hbad.
  rewrite flat_map_app. simpl. by rewrite app_nil_r, app_assoc.
Qed.

Section inject_lemmas.
Context {api : RbxmApi}.
Hypothesis accepted : ∀ e, ¬ source_rejected e.

(** One turn of the loop of lines 241-257 with a library that accepts
    source texts. *)
Lemma run_injectRoot i root parent st :
  ∃ new st',
    run (injectRoot i root parent) st = (Ret (appendChild parent new), st') ∧
    faithful (nextReferent st) root new ∧
    nextReferent st' = nextReferent st + size root.
Proof.
  destruct (cloneInstance_faithful root parent st accepted)
    as (new & st1 & Hrun & Hnew & Hnext).
  exists new. unfold injectRoot. rewrite run_try_catch, run_bind, Hrun.
  cbn beta iota. cbn [fst snd].
  destruct (i <? 3); simpl_run; rewrite ?run_printInstanceHierarchy; simpl_run;
    eauto.
Qed.

Lemma run_injectRoots i roots parent st :
  ∃ news st',
    run (injectRoots i roots parent) st =
      (Ret (set_Children parent (Children parent ++ news)), st') ∧
    chain faithful (nextReferent st) roots news ∧
    nextReferent st' = nextReferent st + sum_list_with size roots.
Proof.
  revert i parent st. induction roots as [|root roots IH]; intros i parent st.
  - exists [], st. cbn [injectRoots]. rewrite run_ret, app_nil_r, set_Children_Children.
    simpl. auto with lia.
  - destruct (run_injectRoot i root parent st) as (new & st1 & Hrun & Hnew & Hnext).
    destruct (IH (S i) (appendChild parent new) st1)
      as (news & st2 & Hrun2 & Hchain & Hnext2).
    exists (new :: news), st2. cbn [injectRoots]. rewrite run_bind, Hrun, Hrun2.
    split_and!.
    + unfold appendChild. cbn [set_Children Children]. by rewrite <-app_assoc.
    + cbn [chain]. by rewrite <-Hnext.
    + cbn [sum_list_with]. lia.
Qed.

End inject_lemmas.

Section inject_functional.
Context {api : RbxmApi} (donors : list Instance).
Hypothesis donors_distinct : NoDup (referent <$> universe donors).
Hypothesis accepted : sources_accepted donors.

Lemma run_injectRoot_consistent i root parent st :
  root ∈ universe donors → consistent donors (scriptSourceCache st) →
  ∃ st',
    run (injectRoot i root parent) st =
      (Ret (appendChild parent (clone_tree (nextReferent st) root)), st') ∧
    consistent donors (scriptSourceCache st') ∧
    nextReferent st' = nextReferent st + size root.
Proof.
  intros Hroot HJ.
  destruct (run_cloneInstance_consistent donors donors_distinct root parent st)
    as (st1 & Hrun & HJ1 & Hnext); [done..|].
  unfold injectRoot. rewrite run_try_catch, run_bind, Hrun.
  cbn beta iota. cbn [fst snd].
  destruct (i <? 3); simpl_run; rewrite ?run_printInstanceHierarchy; simpl_run;
    eauto.
Qed.

Lemma run_injectRoots_consistent i roots parent st :
  Forall (λ root, root ∈ universe donors) roots →
  consistent donors (scriptSourceCache st) →
  ∃ st',
    run (injectRoots i roots parent) st =
      (Ret (set_Children parent
              (Children parent ++ map_offsets clone_tree size (nextReferent st) roots)),
       st') ∧
    consistent donors (scriptSourceCache st').
Proof.
  intros Hroots. revert i parent st.
  induction Hroots as [|root roots Hroot _ IH]; intros i parent st HJ.
  - exists st. cbn [injectRoots map_offsets].
    by rewrite run_ret, app_nil_r, set_Children_Children.
  - destruct (run_injectRoot_consistent i root parent st Hroot HJ)
      as (st1 & Hrun & HJ1 & Hnext).
    destruct (IH (S i) (appendChild parent (clone_tree (nextReferent st) root))
                st1 HJ1) as (st2 & Hrun2 & HJ2).
    exists st2. cbn [injectRoots map_offsets]. rewrite run_bind, Hrun, Hrun2, Hnext.
    split; [|done]. unfold appendChild. cbn [set_Children Children].
    by rewrite <-app_assoc.
Qed.

End inject_functional.

(** [injectInfection] on a file with a first root is the preparation
    followed by the validation and the clones. *)
Lemma run_injectInfection `{api : RbxmApi} file parent others roots st :
  Roots file = parent :: others →
  run (injectInfection file roots) st =
  run (foldM validateRoot roots [];;
       console_log ("[INFO] Injecting " +:+ JsString.of_nat (length roots)
                    +:+ " infection roots...");;
       parentObject ← injectRoots 0 roots (prepared parent);
       mret (mkRobloxFile (parentObject :: others)))
    (emit st (preparation_log parent)).
Proof.
  intros Hroots. unfold injectInfection, prepared, preparation_log.
  rewrite Hroots.
  rewrite (run_bind_Ret _ _ _ _ _ (run_removeInstances _ _ _)).
  rewrite (run_bind_Ret _ _ _ _ _ (run_findAndRemoveSuspiciousScripts _ _)).
  cbn beta iota zeta.
  destruct (0 <? _);
    [rewrite (run_bind_Ret _ _ _ _ _ (run_console_log _ _))
    |rewrite (run_bind_Ret _ _ _ _ _ (run_ret _ _))];
    by rewrite !emit_emit, ?app_nil_r, <-?app_assoc.
Qed.

(** A tree of clean nodes passes the validator without a line. *)
Lemma validateInstance_clean instance errors path :
  Forall clean (nodes instance) →
  validateInstance instance errors path = (true, errors).
Proof.
  intros Hclean. rewrite validateInstance_eq.
  assert (valid_tree instance = true) as ->.
  { apply valid_tree_nodes. eapply Forall_impl; [exact Hclean|].
    intros n Hn. apply forallb_Forall_true. eapply Forall_impl; [exact Hn|].
    intros e (_ & _ & He). by apply bool_decide_eq_true. }
  f_equal. rewrite <-(app_nil_r errors) at 2. f_equal.
  revert path Hclean.
  induction instance as [r k n p cs IH] using Instance_ind; intros path.
  rewrite nodes_eq, Forall_cons, Forall_flat_map. intros [Hn Hcs].
  cbn [diagnostics _props Children] in *. apply app_nil. split.
  - apply flat_map_nil_Forall. eapply Forall_impl; [exact Hn|].
    intros [key [v|]] (Hkey & _ & Hv); [|by destruct Hv].
    unfold prop_diagnostics. cbn [fst snd] in *.
    by rewrite bool_decide_eq_false_2.
  - apply flat_map_nil_Forall.
    rewrite Forall_forall in IH, Hcs. apply Forall_forall. intros c Hc.
    by apply IH, Hcs.
Qed.

Section inject_properties.
Context {api : RbxmApi}.

(** C4: when every donor root is valid and the library accepts source
    texts, [injectInfection] returns the file in which the first root is
    the prepared target followed by one faithful clone per donor root, in
    order: each clone has the shape of its donor, holds no [UniqueId], no
    large binary and no null value, and is made of new objects.  The other
    roots of the file are untouched. *)
Theorem injectInfection_injects file parent others roots st :
  Roots file = parent :: others →
  forallb valid_tree roots = true →
  (∀ e, ¬ source_rejected e) →
  ∃ news st',
    run (injectInfection file roots) st =
      (Ret (mkRobloxFile
              (set_Children (prepared parent)
                 (Children (prepared parent) ++ news) :: others)), st') ∧
    shape <$> news = shape <$> roots ∧
    Forall (λ new, Forall clean (nodes new)) news ∧
    flat_map (λ new, referent <$> nodes new) news =
      seq (nextReferent st) (sum_list_with size roots).
Proof.
  intros Hroots Hvalid Hacc.
  rewrite (run_injectInfection _ _ _ _ _ Hroots).
  rewrite run_bind, run_validate_valid, run_bind, run_console_log, run_bind by done.
  destruct (run_injectRoots Hacc 0 roots (prepared parent)
              (emit (emit st (preparation_log parent))
                 [Out ("[INFO] Injecting " +:+ JsString.of_nat (length roots)
                       +:+ " infection roots...")]))
    as (news & st' & -> & Hchain & _).
  exists news, st'. split; [done|]. simpl_run. by apply chain_faithful.
Qed.

(** When every donor root is valid, the donor nodes are distinct objects,
    the cache agrees with the donors and the library accepts their
    sources, the file [injectInfection] returns is a pure function of its
    arguments and of the referent counter: the first root is [injected],
    the prepared target followed by the [clone_tree] of each donor root. *)
Lemma run_injectInfection_consistent file parent others donors st :
  Roots file = parent :: others →
  forallb valid_tree donors = true →
  NoDup (referent <$> universe donors) →
  sources_accepted donors →
  consistent donors (scriptSourceCache st) →
  ∃ st',
    run (injectInfection file donors) st =
      (Ret (mkRobloxFile (injected (nextReferent st) parent donors :: others)), st').
Proof.
  intros Hroots Hvalid Hdistinct Hacc HJ.
  rewrite (run_injectInfection _ _ _ _ _ Hroots).
  rewrite run_bind, run_validate_valid, run_bind, run_console_log, run_bind by done.
  edestruct (run_injectRoots_consistent donors Hdistinct Hacc 0 donors
               (prepared parent)) as (st' & -> & _); [|by simpl_run|].
  - apply Forall_forall. intros root Hroot. apply elem_of_flat_map.
    exists root. split; [done|apply elem_of_nodes_root].
  - exists st'. by simpl_run.
Qed.

(** The run that stops at the first donor root that is not valid. *)
Lemma run_injectInfection_invalid file parent others valid bad rest st :
  Roots file = parent :: others →
  forallb valid_tree valid = true → valid_tree bad = false →
  run (injectInfection file (valid ++ bad :: rest)) st =
  (Throw (Error "Invalid infection structure"),
   emit st (preparation_log parent ++ rejection_log valid bad)).
Proof.
  intros Hroots Hvalid Hbad. rewrite (run_injectInfection _ _ _ _ _ Hroots).
  rewrite run_bind, run_validate_invalid by done. by simpl_run.
Qed.

(** C15: when some donor root is not valid, [injectInfection] throws
    [Invalid infection structure] after printing the diagnostics up to the
    first such root; no donor is cloned: the cache and the referent
    counter are as before. *)
Theorem injectInfection_rejects file parent others roots st :
  Roots file = parent :: others →
  forallb valid_tree roots = false →
  ∃ valid bad rest,
    roots = valid ++ bad :: rest ∧ forallb valid_tree valid = true ∧
    valid_tree bad = false ∧
    run (injectInfection file roots) st =
      (Throw (Error "Invalid infection structure"),
       emit st (preparation_log parent ++ rejection_log valid bad)).
Proof.
  intros Hroots (valid & bad & rest & -> & Hvalid & Hbad)%forallb_false_split.
  exists valid, bad, rest. split_and!; [done..|].
  by apply (run_injectInfection_invalid _ _ others).
Qed.

(** One turn of the loop of lines 241-257, whatever the library accepts:
    when it returns, the parent has one more child, which has the shape of
    the donor, and the referents of one clone were taken; the only
    exception that escapes is the library's refusal of a source text,
    which is rethrown after it was logged. *)
Lemma wp_injectRoot i root parent st :
  wp (injectRoot i root parent)
    (λ p st', ∃ new, p = appendChild parent new ∧ shape new = shape root ∧
                     nextReferent st' = nextReferent st + size root)
    (λ e _, source_rejected e) st.
Proof.
  unfold injectRoot. apply wp_try_catch, wp_bind.
  eapply wp_mono;
    [apply (wp_cloneInstance_structural (λ _ src new, shape new = shape src)
              (λ e _, source_rejected e)); [apply shape_clone|done]| |].
  - intros [new p] st1 (Hshape & -> & Hnext). cbn [fst snd] in *.
    apply wp_bind. destruct (i <? 3); [|wp_steps; eauto].
    unfold wp at 1. rewrite run_printInstanceHierarchy. apply wp_ret. eauto.
  - intros e st1 Hrej. by wp_steps.
Qed.

(** C25: a clone passes the validation of the orchestrator: on the result
    of [cloneInstance] the step [validateRoot] returns the array it was
    given, prints nothing and does not throw, whatever the donor holds. *)
Theorem cloneInstance_validates src parent st errors :
  wp (cloneInstance src parent)
    (λ r st', run (validateRoot errors r.1) st' = (Ret errors, st'))
    (λ e _, source_rejected e) st.
Proof.
  eapply wp_mono;
    [apply (wp_cloneInstance_structural (λ _ _ new, Forall clean (nodes new))
              (λ e _, source_rejected e));
     [apply clean_clone|done]| |done].
  intros r st' (Hclean & _). unfold validateRoot.
  by rewrite validateInstance_clean.
Qed.

(** C31: [printInstanceHierarchy] always returns, prints one line per node
    of the tree, the line of the root first, and changes nothing but the
    console. *)
Theorem printInstanceHierarchy_prints instance prefix st :
  ∃ lines,
    run (printInstanceHierarchy instance prefix) st =
      (Ret (),
       emit st (Out (prefix +:+ Name instance +:+ " (" +:+ ClassName instance
                     +:+ ")") :: lines)) ∧
    S (length lines) = size instance.
Proof.
  exists (flat_map (hierarchy (prefix +:+ "  ")) (Children instance)).
  rewrite run_printInstanceHierarchy, <-length_hierarchy with (prefix := prefix).
  by destruct instance.
Qed.

End inject_properties.

(** ** A target and its donors *)

Definition Backdoor : Instance :=
  mkInstance 3 (LibraryClass "Script") "Fix"
    [("Source", Some (mkRobloxValue "String" (PString "require(4815162342)")))] [].

Definition Target : Instance :=
  mkInstance 1 (LibraryClass "Model") "House" []
    [mkInstance 2 (LibraryClass "Script") "weld" [] []; Backdoor;
     mkInstance 4 (LibraryClass "Folder") "Walls" [] []].

Definition Broken : Instance :=
  mkInstance 9 (LibraryClass "Folder") "Broken" [("Value", None)] [].

Lemma injectInfection_injects_witness :
  ∃ news st',
    run (injectInfection (api := permissive_api) (mkRobloxFile [Target]) [Kit])
      (initial_state 10) =
      (Ret (mkRobloxFile
              [set_Children (prepared Target)
                 (Children (prepared Target) ++ news)]), st') ∧
    shape <$> news = shape <$> [Kit] ∧
    Forall (λ new, Forall clean (nodes new)) news ∧
    flat_map (λ new, referent <$> nodes new) news =
      seq 10 (sum_list_with size [Kit]).
Proof.
  apply (injectInfection_injects (api := permissive_api) _ Target []);
    [reflexivity|reflexivity|exact permissive_accepts].
Defined.

Lemma injectInfection_rejects_witness :
  ∃ valid bad rest,
    [Kit; Broken; Part1] = valid ++ bad :: rest ∧
    forallb valid_tree valid = true ∧ valid_tree bad = false ∧
    run (injectInfection (api := permissive_api) (mkRobloxFile [Target])
           [Kit; Broken; Part1]) (initial_state 10) =
      (Throw (Error "Invalid infection structure"),
       emit (initial_state 10)
         (preparation_log Target ++ rejection_log valid bad)).
Proof.
  apply (injectInfection_rejects (api := permissive_api) _ Target []);
    reflexivity.
Defined.

(** The whole injection on [Target]: the child named [weld] is removed,
    the script that calls [require] is emptied, and the clone of [Kit] is
    the last child of the root. *)
Example inject_Kit :
  run (injectInfection (api := permissive_api) (mkRobloxFile [Target]) [Kit])
    (initial_state 10) =
  (Ret (mkRobloxFile
          [mkInstance 1 (LibraryClass "Model") "House" []
             [mkInstance 3 (LibraryClass "Script") "Fix"
                [("Source", Some (mkRobloxValue "String" (PString placeholder)))] [];
              mkInstance 4 (LibraryClass "Folder") "Walls" [] [];
              clone_tree 10 Kit]]),
   mkRunState [(8, "print(1)")]
     [Out "[INFO] Removed instance: weld (Script)";
      Out (suspicious_line "require" Backdoor);
      Out "[INFO] Removed/sanitized 1 suspicious scripts";
      Out "[INFO] Injecting 1 infection roots...";
      Out "Kit (Folder)"; Out "  Part1 (Model)"; Out "  Loader (Script)"]
     13).
Proof. reflexivity. Qed.

(** The sanitizer runs on the target only: a donor script that calls
    [require] is cloned with its source. *)
Example inject_donor_not_sanitized :
  (run (injectInfection (api := permissive_api) (mkRobloxFile [Workspace])
          [Backdoor]) (initial_state 10)).1 =
  Ret (mkRobloxFile
         [mkInstance 1 (LibraryClass "Workspace") "Workspace" []
            [mkInstance 10 (LibraryClass "Script") "Fix"
               [("Source",
                 Some (mkRobloxValue "String" (PString "require(4815162342)")))]
               []]]).
Proof. reflexivity. Qed.
