(* ===== verification/Bridge.v ===== *)
(** * The pipeline of the [process] command

    [RbxmBridge.processModel] (src/bridge.ts lines 261-297) reads and
    decodes the target file and the donor file, caches the sources of the
    donor scripts, runs [injectInfection], encodes the target and writes
    it.  Every exception is caught at the end: the handler logs it on the
    error stream and ends the process with status 1.

    The file system and the codec of the library are outside the program:
    the class [Host] says what they answer.  A read or a decode either
    throws or returns; [ReadFromBuffer] and [WriteToBuffer] may return
    [null], here [None].  The model returns what the process did: it
    either saved a buffer under a path or exited with a status. *)

From Stdlib Require Import String NArith Lia.
From stdpp Require Import base tactics option list strings.
From S2P Require Import Prelude JsString JsMap Effects Instance.
From S2P Require Import Validate Remove Sanitize Clone Inject.

(** ** The collaborators *)

(** A [Buffer]: its bytes. *)
Abbreviation Buffer := (list N) (only parsing).

Class Host := {
  (** [fs.readFileSync(path)] *)
  readFileSync : string → JsError + Buffer;
  (** [RobloxFile.ReadFromBuffer(buffer)] *)
  ReadFromBuffer : Buffer → JsError + option RobloxFile;
  (** [file.WriteToBuffer()] *)
  WriteToBuffer : RobloxFile → JsError + option Buffer;
  (** [fs.writeFileSync(path, buffer)]: the exception, if any *)
  writeFileSync : string → Buffer → option JsError
}.

(** How a command ends: the function returned after writing the output
    ([Saved]) or without writing ([Returned]), or it called
    [process.exit(code)]. *)
Inductive ProcessResult :=
  | Saved (path : string) (buffer : Buffer)
  | Returned
  | Exit (code : nat).

(** A call that throws or returns. *)
Definition lift {A : Type} (r : JsError + A) : M A :=
  match r with
  | inl e => throw e
  | inr a => mret a
  end.

(** ** The code *)

Section bridge.
Context {api : RbxmApi} {host : Host}.

(** Lines 263-268 and 270-275: read, decode, and refuse a file that is
    [null] or has no root.  [what] is [model] or [infection]. *)
Definition loadFile (path what : string) : M RobloxFile :=
  buffer ← lift (readFileSync path);
  file ← lift (ReadFromBuffer buffer);
  match file with
  | Some file =>
      match Roots file with
      | [] => throw (Error ("Invalid or empty " +:+ what +:+ " file"))
      | _ :: _ => mret file
      end
  | None => throw (Error ("Invalid or empty " +:+ what +:+ " file"))
  end.

(** Lines 285-291: encode, refuse an empty buffer, write. *)
Definition persist (originalFile : RobloxFile) (outputPath : string) :
    M ProcessResult :=
  modifiedBuffer ← lift (WriteToBuffer originalFile);
  match modifiedBuffer with
  | Some (byte :: bytes) =>
      match writeFileSync outputPath (byte :: bytes) with
      | Some e => throw e
      | None =>
          console_log ("[SUCCESS] Saved modified model to " +:+ outputPath);;
          mret (Saved outputPath (byte :: bytes))
      end
  | _ => throw (Error "Failed to serialize modified model")
  end.

(** The body of the [try] of lines 262-292. *)
Definition pipeline (modelPath infectionPath outputPath : string) :
    M ProcessResult :=
  originalFile ← loadFile modelPath "model";
  infectionFile ← loadFile infectionPath "infection";
  let infectionRoots := Roots infectionFile in
  forM_ cacheScriptSources infectionRoots;;
  size ← cache_size;
  console_log ("[INFO] Cached " +:+ JsString.of_N size +:+ " script sources");;
  originalFile ← injectInfection originalFile infectionRoots;
  console_log "[SUCCESS] Injected infection into model";;
  persist originalFile outputPath.

(** [RbxmBridge.processModel(modelPath, infectionPath, outputPath)]
    (lines 261-297). *)
Definition processModel (modelPath infectionPath outputPath : string) :
    M ProcessResult :=
  try_catch (pipeline modelPath infectionPath outputPath)
    (λ error,
       console_error ("[ERROR] Processing failed: " +:+ JsError_toString error);;
       mret (Exit 1)).

End bridge.

(** ** The steps *)

Section bridge_lemmas.
Context {api : RbxmApi} {host : Host}.
Implicit Types (st : RunState) (file : RobloxFile) (buffer : Buffer).

(** The file can be loaded: it is read, decoded, and has a root. *)
Definition loads (path : string) (file : RobloxFile) : Prop :=
  ∃ buffer, readFileSync path = inr buffer ∧
    ReadFromBuffer buffer = inr (Some file) ∧ Roots file ≠ [].

(** The file decodes to nothing or to no root. *)
Definition loads_empty (path : string) : Prop :=
  ∃ buffer, readFileSync path = inr buffer ∧
    (ReadFromBuffer buffer = inr None ∨
     ∃ file, ReadFromBuffer buffer = inr (Some file) ∧ Roots file = []).

Lemma run_loadFile path what file st :
  loads path file → run (loadFile path what) st = (Ret file, st).
Proof.
  intros (buffer & Hread & Hdecode & Hroots). unfold loadFile, lift.
  rewrite Hread. simpl_run. rewrite Hdecode. simpl_run. by destruct (Roots file).
Qed.

Lemma run_loadFile_empty path what st :
  loads_empty path →
  run (loadFile path what) st =
  (Throw (Error ("Invalid or empty " +:+ what +:+ " file")), st).
Proof.
  intros (buffer & Hread & [Hdecode|(file & Hdecode & Hroots)]);
    unfold loadFile, lift; rewrite Hread; simpl_run; rewrite Hdecode; simpl_run;
    [done|].
  by rewrite Hroots.
Qed.

(** [loadFile] changes nothing, and a file it returns is loaded. *)
Lemma wp_loadFile path what st :
  wp (loadFile path what) (λ file st', st' = st ∧ loads path file)
    (λ _ st', st' = st) st.
Proof.
  unfold wp, loadFile, loads, lift.
  destruct (readFileSync path) as [e|buffer] eqn:Hread; [done|]. simpl_run.
  destruct (ReadFromBuffer buffer) as [e|[file|]] eqn:Hdecode; simpl_run;
    [done| |done].
  destruct (Roots file) eqn:Hroots; [done|]. split; [done|].
  exists buffer. by rewrite Hroots.
Qed.

Lemma run_persist file outputPath buffer st :
  WriteToBuffer file = inr (Some buffer) → buffer ≠ [] →
  writeFileSync outputPath buffer = None →
  run (persist file outputPath) st =
  (Ret (Saved outputPath buffer),
   emit st [Out ("[SUCCESS] Saved modified model to " +:+ outputPath)]).
Proof.
  intros Hencode Hbuffer Hwrite. unfold persist, lift. rewrite Hencode. simpl_run.
  destruct buffer as [|byte bytes]; [done|]. rewrite Hwrite. by simpl_run.
Qed.

(** [persist] returns only after a write of a buffer that is not empty,
    and then its last line reports the path. *)
Lemma wp_persist file outputPath st :
  wp (persist file outputPath)
    (λ r st', ∃ buffer,
       r = Saved outputPath buffer ∧ buffer ≠ [] ∧
       WriteToBuffer file = inr (Some buffer) ∧
       writeFileSync outputPath buffer = None ∧
       last (console st') =
         Some (Out ("[SUCCESS] Saved modified model to " +:+ outputPath)))
    (λ _ _, True) st.
Proof.
  unfold wp, persist, lift.
  destruct (WriteToBuffer file) as [e|[[|byte bytes]|]] eqn:Hencode; simpl_run;
    try done.
  destruct (writeFileSync outputPath (byte :: bytes)) eqn:Hwrite; simpl_run;
    [done|].
  exists (byte :: bytes). split_and!; try done. by rewrite last_snoc.
Qed.

(** The pipeline up to the call of [injectInfection]: the cache holds
    the donors' sources, and no referent was taken. *)
Lemma run_pipeline modelPath infectionPath outputPath file donors st :
  loads modelPath file → loads infectionPath donors →
  ∃ st1,
    run (pipeline modelPath infectionPath outputPath) st =
      run (originalFile ← injectInfection file (Roots donors);
           console_log "[SUCCESS] Injected infection into model";;
           persist originalFile outputPath) st1 ∧
    scriptSourceCache st1 =
      fold_left cache_node (universe (Roots donors)) (scriptSourceCache st) ∧
    nextReferent st1 = nextReferent st.
Proof.
  intros Hfile Hdonors. unfold pipeline.
  rewrite (run_bind_Ret _ _ _ _ _ (run_loadFile _ _ _ _ Hfile)).
  rewrite (run_bind_Ret _ _ _ _ _ (run_loadFile _ _ _ _ Hdonors)). cbn zeta.
  rewrite (run_bind_Ret _ _ _ _ _ (run_cache_donors _ _)).
  rewrite (run_bind_Ret _ _ _ _ _ (run_cache_size _)).
  rewrite (run_bind_Ret _ _ _ _ _ (run_console_log _ _)). eauto.
Qed.

End bridge_lemmas.

(** ** The pipeline as a whole *)

Section bridge_properties.
Context {api : RbxmApi} {host : Host}.
Implicit Types (st : RunState) (file : RobloxFile) (buffer : Buffer).

(** The line the handler of line 294 writes. *)
Definition failure_line (e : JsError) : Line :=
  Err ("[ERROR] Processing failed: " +:+ JsError_toString e).

Lemma run_processModel_throw modelPath infectionPath outputPath e st st' :
  run (pipeline modelPath infectionPath outputPath) st = (Throw e, st') →
  run (processModel modelPath infectionPath outputPath) st =
  (Ret (Exit 1), emit st' [failure_line e]).
Proof. intros Hrun. unfold processModel. rewrite run_try_catch, Hrun. by simpl_run. Qed.

(** What the pipeline has done when it returns. *)
Lemma wp_pipeline modelPath infectionPath outputPath st :
  wp (pipeline modelPath infectionPath outputPath)
    (λ r st', ∃ buffer,
       r = Saved outputPath buffer ∧ buffer ≠ [] ∧
       writeFileSync outputPath buffer = None ∧
       last (console st') =
         Some (Out ("[SUCCESS] Saved modified model to " +:+ outputPath)))
    (λ _ _, True) st.
Proof.
  unfold pipeline. do 7 (apply wp_bind_any; [intros ? ?|done]).
  eapply wp_mono; [apply wp_persist| |done].
  intros r stf (buffer & ? & ? & _ & ? & ?). eauto.
Qed.

(** What [processModel] has done when it ends. *)
Definition processed (outputPath : string) (r : ProcessResult) (st' : RunState) :
    Prop :=
  match r with
  | Saved path buffer =>
      path = outputPath ∧ buffer ≠ [] ∧ writeFileSync path buffer = None ∧
      last (console st') =
        Some (Out ("[SUCCESS] Saved modified model to " +:+ outputPath))
  | Returned => False
  | Exit code => code = 1 ∧ ∃ e, last (console st') = Some (failure_line e)
  end.

Lemma wp_processModel modelPath infectionPath outputPath st :
  wp (processModel modelPath infectionPath outputPath) (processed outputPath)
    no_throw st.
Proof.
  unfold processModel. apply wp_try_catch.
  eapply wp_mono; [apply wp_pipeline| |].
  - intros r st' (buffer & -> & ? & ? & ?). done.
  - intros e st' _. apply wp_bind, wp_console_error, wp_ret.
    split; [done|]. exists e. by rewrite console_emit, last_snoc.
Qed.

(** C11: no exception escapes [processModel]: it either saves a buffer that
    is not empty under the output path, its last line reporting the path,
    or it ends the process with status 1, its last line on the error
    stream reporting the exception. *)
Theorem processModel_exits modelPath infectionPath outputPath st :
  ∃ r st',
    run (processModel modelPath infectionPath outputPath) st = (Ret r, st') ∧
    match r with
    | Saved path buffer =>
        path = outputPath ∧ buffer ≠ [] ∧ writeFileSync path buffer = None ∧
        last (console st') =
          Some (Out ("[SUCCESS] Saved modified model to " +:+ outputPath))
    | Returned => False
    | Exit code => code = 1 ∧ ∃ e, last (console st') = Some (failure_line e)
    end.
Proof.
  pose proof (wp_processModel modelPath infectionPath outputPath st) as Hwp.
  apply wp_run in Hwp as (r & st' & Hrun & Hr). exists r, st'. by destruct r.
Qed.

(** C30: a target that decodes to nothing or to a file without roots ends
    the process with status 1 before the donor is read; nothing is
    written and the state is untouched but for the line of the failure. *)
Theorem processModel_empty_model modelPath infectionPath outputPath st :
  loads_empty modelPath →
  run (processModel modelPath infectionPath outputPath) st =
  (Ret (Exit 1),
   emit st [failure_line (Error "Invalid or empty model file")]).
Proof.
  intros Hempty. apply run_processModel_throw. unfold pipeline.
  by rewrite (run_bind_Throw _ _ _ _ _ (run_loadFile_empty _ "model" _ Hempty)).
Qed.

(** C2: fail-fast: when some donor root is not valid the process ends with
    status 1 and nothing is written; no donor was cloned (the referent
    counter is as before), and the last line reports [Invalid infection
    structure]. *)
Theorem processModel_rejects modelPath infectionPath outputPath file donors st :
  loads modelPath file → loads infectionPath donors →
  forallb valid_tree (Roots donors) = false →
  ∃ st',
    run (processModel modelPath infectionPath outputPath) st =
      (Ret (Exit 1), st') ∧
    nextReferent st' = nextReferent st ∧
    last (console st') =
      Some (failure_line (Error "Invalid infection structure")).
Proof.
  intros Hfile Hdonors (valid & bad & rest & Hroots & Hvalid & Hbad)%forallb_false_split.
  assert (∃ parent others, Roots file = parent :: others)
    as (parent & others & Hparent).
  { destruct Hfile as (_ & _ & _ & Hne). destruct (Roots file); [done|eauto]. }
  destruct (run_pipeline modelPath infectionPath outputPath file donors st)
    as (st1 & Hrun & _ & Hnext); [done..|].
  eexists. split.
  - apply run_processModel_throw. rewrite Hrun, Hroots.
    by rewrite (run_bind_Throw _ _ _ _ _
                  (run_injectInfection_invalid _ _ _ _ _ _ _ Hparent Hvalid Hbad)).
  - simpl_run. by rewrite last_snoc.
Qed.

(** C1: the whole pipeline: when both files load, every donor root is
    valid, the donor nodes are distinct objects, the library accepts their
    sources, the cache agrees with the donors, and the encoding of the
    result is written, [processModel] saves the encoding of the target
    file whose first root is [injected]: the prepared first root followed
    by the clones of the donor roots. *)
Theorem processModel_saves modelPath infectionPath outputPath file parent others
    donors buffer st :
  loads modelPath file → Roots file = parent :: others →
  loads infectionPath donors →
  forallb valid_tree (Roots donors) = true →
  NoDup (referent <$> universe (Roots donors)) →
  sources_accepted (Roots donors) →
  consistent (Roots donors) (scriptSourceCache st) →
  WriteToBuffer
    (mkRobloxFile (injected (nextReferent st) parent (Roots donors) :: others)) =
    inr (Some buffer) →
  buffer ≠ [] → writeFileSync outputPath buffer = None →
  ∃ st',
    run (processModel modelPath infectionPath outputPath) st =
      (Ret (Saved outputPath buffer), st').
Proof.
  intros Hfile Hparent Hdonors Hvalid Hdistinct Hacc HJ Hencode Hbuffer Hwrite.
  destruct (run_pipeline modelPath infectionPath outputPath file donors st)
    as (st1 & Hrun & Hcache & Hnext); [done..|].
  destruct (run_injectInfection_consistent file parent others (Roots donors) st1)
    as (st2 & Hrun2); [done..| |].
  { rewrite Hcache. by apply consistent_cache_donors. }
  unfold processModel. rewrite run_try_catch, Hrun.
  rewrite (run_bind_Ret _ _ _ _ _ Hrun2), Hnext.
  rewrite (run_bind_Ret _ _ _ _ _ (run_console_log _ _)).
  rewrite (run_persist _ _ buffer) by done. eauto.
Qed.

End bridge_properties.

(** ** A host *)

(** Four files: a target, a donor, a file without roots and a donor with
    a null property.  Every tree encodes to a buffer of one byte, and
    every write succeeds. *)
Definition example_host : Host := {|
  readFileSync path :=
    if bool_decide (path = "model.rbxm") then inr [1%N]
    else if bool_decide (path = "donor.rbxm") then inr [2%N]
    else if bool_decide (path = "empty.rbxm") then inr [3%N]
    else if bool_decide (path = "broken.rbxm") then inr [4%N]
    else inl (Error "ENOENT: no such file or directory");
  ReadFromBuffer buffer :=
    match buffer with
    | [1%N] => inr (Some (mkRobloxFile [Target]))
    | [2%N] => inr (Some (mkRobloxFile [Kit]))
    | [3%N] => inr (Some (mkRobloxFile []))
    | [4%N] => inr (Some (mkRobloxFile [Kit; Broken]))
    | _ => inl (Error "Invalid file")
    end;
  WriteToBuffer file := inr (Some [N.of_nat (length (Roots file))]);
  writeFileSync _ _ := None
|}.

Lemma processModel_empty_model_witness :
  run (processModel (api := permissive_api) (host := example_host)
         "empty.rbxm" "donor.rbxm" "out.rbxm") (initial_state 10) =
  (Ret (Exit 1),
   emit (initial_state 10) [failure_line (Error "Invalid or empty model file")]).
Proof.
  apply (processModel_empty_model (host := example_host)).
  exists [3%N]. split; [reflexivity|]. right. by eexists.
Defined.

Lemma processModel_rejects_witness :
  ∃ st',
    run (processModel (api := permissive_api) (host := example_host)
           "model.rbxm" "broken.rbxm" "out.rbxm") (initial_state 10) =
      (Ret (Exit 1), st') ∧
    nextReferent st' = 10 ∧
    last (console st') =
      Some (failure_line (Error "Invalid infection structure")).
Proof.
  apply (processModel_rejects (host := example_host) _ _ _
           (mkRobloxFile [Target]) (mkRobloxFile [Kit; Broken])).
  - by exists [1%N].
  - by exists [4%N].
  - reflexivity.
Defined.

Lemma processModel_saves_witness :
  ∃ st',
    run (processModel (api := permissive_api) (host := example_host)
           "model.rbxm" "donor.rbxm" "out.rbxm") (initial_state 10) =
      (Ret (Saved "out.rbxm" [1%N]), st').
Proof.
  apply (processModel_saves (host := example_host) _ _ _
           (mkRobloxFile [Target]) Target [] (mkRobloxFile [Kit])).
  - by exists [1%N].
  - reflexivity.
  - by exists [2%N].
  - reflexivity.
  - compute_done.
  - by intros n text _ _.
  - apply consistent_empty.
  - reflexivity.
  - done.
  - reflexivity.
Defined.

(** The run of the [process] command on the target and the donor. *)
Example process_Kit :
  run (processModel (api := permissive_api) (host := example_host)
         "model.rbxm" "donor.rbxm" "out.rbxm") (initial_state 10) =
  (Ret (Saved "out.rbxm" [1%N]),
   mkRunState [(8, "print(1)")]
     [Out "[INFO] Cached 1 script sources";
      Out "[INFO] Removed instance: weld (Script)";
      Out (suspicious_line "require" Backdoor);
      Out "[INFO] Removed/sanitized 1 suspicious scripts";
      Out "[INFO] Injecting 1 infection roots...";
      Out "Kit (Folder)"; Out "  Part1 (Model)"; Out "  Loader (Script)";
      Out "[SUCCESS] Injected infection into model";
      Out "[SUCCESS] Saved modified model to out.rbxm"]
     13).
Proof. reflexivity. Qed.

(** A donor that cannot be read. *)
Example process_missing_donor :
  run (processModel (api := permissive_api) (host := example_host)
         "model.rbxm" "missing.rbxm" "out.rbxm") (initial_state 10) =
  (Ret (Exit 1),
   mkRunState []
     [Err "[ERROR] Processing failed: Error: ENOENT: no such file or directory"]
     10).
Proof. reflexivity. Qed.
