(* ===== verification/Pipeline.v ===== *)
(** * The pipeline as a state machine

    spec.md 4.7 describes the [process] command as a machine whose states
    are run in strict order, each terminal on failure: Load, Strip,
    Sanitize, ValidateDonors, CloneEach, Persist.  This file gives that
    machine as a step relation on configurations and shows that
    [processModel] implements it: from every state the machine reaches a
    terminal configuration, in a bounded number of steps, and the result
    and the state of [processModel] are those of that configuration.
    Invariants of the reachable configurations are proved by induction on
    the steps.

    A configuration holds the run state of the program and the data the
    stage works on; a step runs the code of one stage, or one turn of the
    clone loop.  [rest c] is the code that remains to be run from [c];
    [next] is the step as a function and [exec] its iteration.  The stages
    are those of the code: [Sanitize] runs on the first root of the
    target (line 227), where spec.md 4.7 names the donor roots. *)

From Stdlib Require Import String NArith Lia.
From stdpp Require Import base tactics option list strings relations.
From S2P Require Import Prelude JsString JsMap Effects Instance.
From S2P Require Import Validate Remove Sanitize Clone Inject Bridge.

(** The states of spec.md 4.7, with the two ends. *)
Inductive Stage :=
  | Load | Strip | Sanitize | ValidateDonors | CloneEach | Persist
  | Finished | Failed.

#[export] Instance Stage_eq_dec : EqDecision Stage.
Proof. solve_decision. Defined.

(** A configuration: the stage, the run state and the data of the stage.
    [parent] is the first root of the target, [others] its other roots,
    [donors] the donor roots, [i] the index of the next donor to clone. *)
Inductive Config :=
  | AtLoad (st : RunState)
  | AtStrip (st : RunState) (parent : Instance) (others donors : list Instance)
  | AtSanitize (st : RunState) (parent : Instance) (others donors : list Instance)
  | AtValidate (st : RunState) (parent : Instance) (others donors : list Instance)
  | AtClone (st : RunState) (i : nat) (parent : Instance)
      (others donors : list Instance)
  | AtPersist (st : RunState) (file : RobloxFile)
  | AtFinished (st : RunState) (r : ProcessResult)
  | AtFailed (st : RunState) (e : JsError).

Definition stage (c : Config) : Stage :=
  match c with
  | AtLoad _ => Load
  | AtStrip _ _ _ _ => Strip
  | AtSanitize _ _ _ _ => Sanitize
  | AtValidate _ _ _ _ => ValidateDonors
  | AtClone _ _ _ _ _ => CloneEach
  | AtPersist _ _ => Persist
  | AtFinished _ _ => Finished
  | AtFailed _ _ => Failed
  end.

Definition state (c : Config) : RunState :=
  match c with
  | AtLoad st | AtStrip st _ _ _ | AtSanitize st _ _ _ | AtValidate st _ _ _
  | AtClone st _ _ _ _ | AtPersist st _ | AtFinished st _ | AtFailed st _ => st
  end.

Definition terminal (c : Config) : bool :=
  bool_decide (stage c = Finished) || bool_decide (stage c = Failed).

Section machine.
Context {api : RbxmApi} {host : Host}.
Context (modelPath infectionPath outputPath : string).

(** ** The code of each stage *)

(** Lines 263-280: both files are loaded and the donor sources cached. *)
Definition load_stage : M (RobloxFile * RobloxFile) :=
  originalFile ← loadFile modelPath "model";
  infectionFile ← loadFile infectionPath "infection";
  forM_ cacheScriptSources (Roots infectionFile);;
  size ← cache_size;
  console_log ("[INFO] Cached " +:+ JsString.of_N size +:+ " script sources");;
  mret (originalFile, infectionFile).

(** Lines 227-230: the sanitizer and its summary. *)
Definition sanitize_stage (parent : Instance) : M Instance :=
  r ← findAndRemoveSuspiciousScripts parent;
  (if 0 <? r.2 then
     console_log ("[INFO] Removed/sanitized " +:+ JsString.of_nat r.2
                  +:+ " suspicious scripts")
   else mret ());;
  mret r.1.

(** Lines 232-240: the validation of the donors and the line that
    announces the clones. *)
Definition validate_stage (donors : list Instance) : M unit :=
  foldM validateRoot donors [];;
  console_log ("[INFO] Injecting " +:+ JsString.of_nat (length donors)
               +:+ " infection roots...").

(** The code that remains to be run from a configuration. *)
Definition from_persist (file : RobloxFile) : M ProcessResult :=
  persist file outputPath.

Definition from_clone (i : nat) (parent : Instance)
    (others donors : list Instance) : M ProcessResult :=
  parent ← injectRoots i (drop i donors) parent;
  console_log "[SUCCESS] Injected infection into model";;
  from_persist (mkRobloxFile (parent :: others)).

Definition from_validate (parent : Instance) (others donors : list Instance) :
    M ProcessResult :=
  validate_stage donors;;
  from_clone 0 parent others donors.

Definition from_sanitize (parent : Instance) (others donors : list Instance) :
    M ProcessResult :=
  parent ← sanitize_stage parent;
  from_validate parent others donors.

Definition from_strip (parent : Instance) (others donors : list Instance) :
    M ProcessResult :=
  parent ← removeInstances parent namesToRemove;
  from_sanitize parent others donors.

Definition rest (c : Config) : M ProcessResult :=
  match c with
  | AtLoad _ => pipeline modelPath infectionPath outputPath
  | AtStrip _ parent others donors => from_strip parent others donors
  | AtSanitize _ parent others donors => from_sanitize parent others donors
  | AtValidate _ parent others donors => from_validate parent others donors
  | AtClone _ i parent others donors => from_clone i parent others donors
  | AtPersist _ file => from_persist file
  | AtFinished _ r => mret r
  | AtFailed _ e => throw e
  end.

(** ** The steps *)

Inductive step : Config → Config → Prop :=
  | step_load st file dfile parent others st' :
      run load_stage st = (Ret (file, dfile), st') →
      Roots file = parent :: others →
      step (AtLoad st) (AtStrip st' parent others (Roots dfile))
  | step_load_fail st e st' :
      run load_stage st = (Throw e, st') →
      step (AtLoad st) (AtFailed st' e)
  | step_strip st parent others donors parent' st' :
      run (removeInstances parent namesToRemove) st = (Ret parent', st') →
      step (AtStrip st parent others donors) (AtSanitize st' parent' others donors)
  | step_sanitize st parent others donors parent' st' :
      run (sanitize_stage parent) st = (Ret parent', st') →
      step (AtSanitize st parent others donors) (AtValidate st' parent' others donors)
  | step_validate st parent others donors st' :
      run (validate_stage donors) st = (Ret (), st') →
      step (AtValidate st parent others donors) (AtClone st' 0 parent others donors)
  | step_validate_fail st parent others donors e st' :
      run (validate_stage donors) st = (Throw e, st') →
      step (AtValidate st parent others donors) (AtFailed st' e)
  | step_clone st i parent others donors root parent' st' :
      donors !! i = Some root →
      run (injectRoot i root parent) st = (Ret parent', st') →
      step (AtClone st i parent others donors) (AtClone st' (S i) parent' others donors)
  | step_clone_fail st i parent others donors root e st' :
      donors !! i = Some root →
      run (injectRoot i root parent) st = (Throw e, st') →
      step (AtClone st i parent others donors) (AtFailed st' e)
  | step_clone_done st i parent others donors :
      length donors ≤ i →
      step (AtClone st i parent others donors)
        (AtPersist (emit st [Out "[SUCCESS] Injected infection into model"])
           (mkRobloxFile (parent :: others)))
  | step_persist st file r st' :
      run (persist file outputPath) st = (Ret r, st') →
      step (AtPersist st file) (AtFinished st' r)
  | step_persist_fail st file e st' :
      run (persist file outputPath) st = (Throw e, st') →
      step (AtPersist st file) (AtFailed st' e).

(** What [processModel] answers when the machine ends in [c]. *)
Definition final (c : Config) : Outcome ProcessResult * RunState :=
  match c with
  | AtFinished st r => (Ret r, st)
  | AtFailed st e => (Ret (Exit 1), emit st [failure_line e])
  | _ => (Ret (Exit 1), state c)
  end.

(** The machine as a function: the configuration after one step, and
    after at most [n] steps. *)
Definition next (c : Config) : option Config :=
  match c with
  | AtLoad st =>
      match run load_stage st with
      | (Ret files, st') =>
          match Roots files.1 with
          | parent :: others => Some (AtStrip st' parent others (Roots files.2))
          | [] => None
          end
      | (Throw e, st') => Some (AtFailed st' e)
      end
  | AtStrip st parent others donors =>
      match run (removeInstances parent namesToRemove) st with
      | (Ret parent', st') => Some (AtSanitize st' parent' others donors)
      | (Throw e, st') => Some (AtFailed st' e)
      end
  | AtSanitize st parent others donors =>
      match run (sanitize_stage parent) st with
      | (Ret parent', st') => Some (AtValidate st' parent' others donors)
      | (Throw e, st') => Some (AtFailed st' e)
      end
  | AtValidate st parent others donors =>
      match run (validate_stage donors) st with
      | (Ret _, st') => Some (AtClone st' 0 parent others donors)
      | (Throw e, st') => Some (AtFailed st' e)
      end
  | AtClone st i parent others donors =>
      match donors !! i with
      | Some root =>
          match run (injectRoot i root parent) st with
          | (Ret parent', st') => Some (AtClone st' (S i) parent' others donors)
          | (Throw e, st') => Some (AtFailed st' e)
          end
      | None =>
          Some (AtPersist (emit st [Out "[SUCCESS] Injected infection into model"])
                  (mkRobloxFile (parent :: others)))
      end
  | AtPersist st file =>
      match run (persist file outputPath) st with
      | (Ret r, st') => Some (AtFinished st' r)
      | (Throw e, st') => Some (AtFailed st' e)
      end
  | AtFinished _ _ | AtFailed _ _ => None
  end.

Fixpoint exec (n : nat) (c : Config) : Config :=
  match n with
  | 0 => c
  | S n => match next c with Some c' => exec n c' | None => c end
  end.

(** ** The code is the composition of its stages *)

Implicit Types (c : Config) (st : RunState).

(** [injectInfection] followed by the rest of the pipeline is the code
    from [Strip] on. *)
Lemma run_from_strip file parent others donors st :
  Roots file = parent :: others →
  run (originalFile ← injectInfection file donors;
       console_log "[SUCCESS] Injected infection into model";;
       persist originalFile outputPath) st =
  run (from_strip parent others donors) st.
Proof.
  intros Hroots. unfold injectInfection. rewrite Hroots.
  unfold from_strip, from_sanitize, sanitize_stage, from_validate,
    validate_stage, from_clone, from_persist.
  rewrite run_bind_assoc. apply run_bind_ext. intros p1 st1.
  rewrite !run_bind_assoc. apply run_bind_ext. intros [p2 n] st2.
  cbn [fst snd]. rewrite !run_bind_assoc. apply run_bind_ext. intros [] st3.
  rewrite (run_bind (mret p2)), run_ret, !run_bind_assoc.
  apply run_bind_ext. intros errors st4. rewrite !run_bind_assoc.
  apply run_bind_ext. intros [] st5. rewrite !run_bind_assoc.
  apply run_bind_ext. intros p3 st6. by rewrite run_bind, run_ret.
Qed.

Lemma run_pipeline_load st :
  run (pipeline modelPath infectionPath outputPath) st =
  run (files ← load_stage;
       originalFile ← injectInfection files.1 (Roots files.2);
       console_log "[SUCCESS] Injected infection into model";;
       persist originalFile outputPath) st.
Proof.
  unfold pipeline, load_stage. rewrite !run_bind_assoc.
  apply run_bind_ext. intros file st1. rewrite !run_bind_assoc.
  apply run_bind_ext. intros dfile st2. cbn zeta. rewrite !run_bind_assoc.
  apply run_bind_ext. intros [] st3. rewrite !run_bind_assoc.
  apply run_bind_ext. intros size st4. rewrite !run_bind_assoc.
  apply run_bind_ext. intros [] st5. by rewrite (run_bind (mret _)), run_ret.
Qed.

(** A step runs the code that remains up to the next configuration. *)
Lemma step_sound c c' :
  step c c' → run (rest c) (state c) = run (rest c') (state c').
Proof.
  destruct 1 as [st file dfile parent others st' Hrun Hroots|st e st' Hrun
    |st parent others donors parent' st' Hrun
    |st parent others donors parent' st' Hrun
    |st parent others donors st' Hrun|st parent others donors e st' Hrun
    |st i parent others donors root parent' st' Hroot Hrun
    |st i parent others donors root e st' Hroot Hrun
    |st i parent others donors Hi|st file r st' Hrun|st file e st' Hrun];
    cbn [rest state].
  - rewrite run_pipeline_load, (run_bind_Ret _ _ _ _ _ Hrun).
    by apply run_from_strip.
  - by rewrite run_pipeline_load, (run_bind_Throw _ _ _ _ _ Hrun).
  - unfold from_strip. by rewrite (run_bind_Ret _ _ _ _ _ Hrun).
  - unfold from_sanitize. by rewrite (run_bind_Ret _ _ _ _ _ Hrun).
  - unfold from_validate. by rewrite (run_bind_Ret _ _ _ _ _ Hrun).
  - unfold from_validate. by rewrite (run_bind_Throw _ _ _ _ _ Hrun).
  - unfold from_clone. rewrite (drop_S _ _ _ Hroot). cbn [injectRoots].
    by rewrite run_bind_assoc, (run_bind_Ret _ _ _ _ _ Hrun).
  - unfold from_clone. rewrite (drop_S _ _ _ Hroot). cbn [injectRoots].
    by rewrite run_bind_assoc, (run_bind_Throw _ _ _ _ _ Hrun).
  - unfold from_clone. rewrite drop_ge by done. cbn [injectRoots].
    by rewrite run_bind, run_ret, run_bind, run_console_log.
  - unfold from_persist. by rewrite Hrun.
  - unfold from_persist. by rewrite Hrun.
Qed.

Lemma steps_sound c c' :
  rtc step c c' → run (rest c) (state c) = run (rest c') (state c').
Proof.
  induction 1 as [c|c c1 c' Hstep _ IH]; [done|].
  by rewrite (step_sound _ _ Hstep).
Qed.

(** ** What each stage does to the state *)

Lemma run_sanitize_stage parent st :
  run (sanitize_stage parent) st =
  (Ret (scrub parent),
   emit st (scrub_log parent ++
            if 0 <? suspicious_count parent
            then [Out ("[INFO] Removed/sanitized "
                       +:+ JsString.of_nat (suspicious_count parent)
                       +:+ " suspicious scripts")]
            else [])).
Proof.
  unfold sanitize_stage.
  rewrite (run_bind_Ret _ _ _ _ _ (run_findAndRemoveSuspiciousScripts _ _)).
  cbn [fst snd]. destruct (0 <? _); simpl_run; by rewrite ?app_nil_r.
Qed.

(** A load that returns has loaded both files and taken no referent; a
    load that throws has taken none either. *)
Lemma wp_load_stage st :
  wp load_stage
    (λ files st', loads modelPath files.1 ∧ loads infectionPath files.2 ∧
                  nextReferent st' = nextReferent st)
    (λ _ st', nextReferent st' = nextReferent st) st.
Proof.
  unfold load_stage. apply wp_bind.
  eapply wp_mono; [apply wp_loadFile| |by intros ?? ->].
  intros file st1 [-> Hfile]. apply wp_bind.
  eapply wp_mono; [apply wp_loadFile| |by intros ?? ->].
  intros dfile st2 [-> Hdfile]. apply wp_bind. unfold wp at 1.
  rewrite run_cache_donors. by wp_steps.
Qed.

(** A validation that returns has found every donor valid, and has taken
    no referent. *)
Lemma validate_stage_Ret donors st st' :
  run (validate_stage donors) st = (Ret (), st') →
  forallb valid_tree donors = true ∧ nextReferent st' = nextReferent st.
Proof.
  unfold validate_stage. destruct (forallb valid_tree donors) eqn:Hvalid.
  - rewrite (run_bind_Ret _ _ _ _ _ (run_validate_valid _ _ _ Hvalid)).
    rewrite run_console_log. by intros [= <-].
  - apply forallb_false_split in Hvalid as (valid & bad & rest & -> & Hv & Hb).
    by rewrite (run_bind_Throw _ _ _ _ _ (run_validate_invalid _ _ _ _ _ Hv Hb)).
Qed.

(** ** The machine runs to an end *)

(** The function [next] is the relation [step]. *)
Lemma next_step c c' : next c = Some c' → step c c'.
Proof.
  destruct c as [st|st parent others donors|st parent others donors
    |st parent others donors|st i parent others donors|st file|st r|st e];
    cbn [next]; rewrite ?run_removeInstances, ?run_sanitize_stage; try done.
  - destruct (run load_stage st) as [[[file dfile]|e] st'] eqn:Hrun;
      [|intros [= <-]; by eapply step_load_fail].
    cbn [fst snd]. destruct (Roots file) as [|parent others] eqn:Hroots; [done|].
    intros [= <-]. by eapply step_load.
  - intros [= <-]. eapply step_strip, run_removeInstances.
  - intros [= <-]. eapply step_sanitize, run_sanitize_stage.
  - destruct (run (validate_stage donors) st) as [[[]|e] st'] eqn:Hrun;
      intros [= <-]; [by eapply step_validate|by eapply step_validate_fail].
  - destruct (donors !! i) as [root|] eqn:Hroot;
      [|intros [= <-]; by apply step_clone_done, lookup_ge_None].
    destruct (run (injectRoot i root parent) st) as [[p|e] st'] eqn:Hrun;
      intros [= <-]; [by eapply step_clone|by eapply step_clone_fail].
  - destruct (run (persist file outputPath) st) as [[r|e] st'] eqn:Hrun;
      intros [= <-]; [by eapply step_persist|by eapply step_persist_fail].
Qed.

Lemma step_next c c' : step c c' → next c = Some c'.
Proof.
  destruct 1 as [st file dfile parent others st' Hrun Hroots| | | |
    |? ? ? ? ? ? Hrun| | |? ? ? ? ? Hi| |]; cbn [next];
    repeat match goal with
      | H : run _ _ = _ |- _ => rewrite H
      | H : _ !! _ = Some _ |- _ => rewrite H
      end; cbn [fst snd]; try done.
  - by rewrite Hroots.
  - by rewrite (lookup_ge_None_2 _ _ Hi).
Qed.

(** Every configuration that is not an end has a step. *)
Lemma next_progress c : terminal c = false → is_Some (next c).
Proof.
  destruct c as [st|st parent others donors|st parent others donors
    |st parent others donors|st i parent others donors|st file|st r|st e];
    intros Hc; try done; cbn [next].
  - pose proof (wp_load_stage st) as Hwp. unfold wp in Hwp.
    destruct (run load_stage st) as [[[file dfile]|e] st'] eqn:Hrun; [|done].
    destruct Hwp as ((buffer & _ & _ & Hroots) & _). cbn [fst] in *.
    by destruct (Roots file).
  - by rewrite run_removeInstances.
  - by rewrite run_sanitize_stage.
  - by destruct (run (validate_stage donors) st) as [[[]|e] st'].
  - destruct (donors !! i) as [root|]; [|done].
    by destruct (run (injectRoot i root parent) st) as [[p|e] st'].
  - by destruct (run (persist file outputPath) st) as [[r|e] st'].
Qed.

Lemma step_progress c : terminal c = false → ∃ c', step c c'.
Proof. intros [c' Hc']%next_progress. exists c'. by apply next_step. Qed.

(** The number of steps that remain at most: one per stage, and one per
    donor that is still to be cloned. *)
Definition weight (c : Config) : nat :=
  match c with
  | AtLoad st =>
      match run load_stage st with
      | (Ret files, _) => length (Roots files.2) + 6
      | (Throw _, _) => 1
      end
  | AtStrip _ _ _ donors => length donors + 5
  | AtSanitize _ _ _ donors => length donors + 4
  | AtValidate _ _ _ donors => length donors + 3
  | AtClone _ i _ _ donors => length donors - i + 2
  | AtPersist _ _ => 1
  | AtFinished _ _ | AtFailed _ _ => 0
  end.

Lemma step_weight c c' : step c c' → weight c' < weight c.
Proof.
  destruct 1; cbn [weight];
    try match goal with H : run load_stage _ = _ |- _ => rewrite H end;
    try match goal with H : _ !! _ = Some _ |- _ => apply lookup_lt_Some in H end;
    cbn [fst snd]; lia.
Qed.

(** [exec] follows the steps of the machine, and with the fuel [weight c]
    it reaches an end. *)
Lemma exec_steps n c : rtc step c (exec n c).
Proof.
  revert c. induction n as [|n IH]; intros c; cbn [exec]; [done|].
  destruct (next c) as [c'|] eqn:Hnext; [|done].
  eapply rtc_l; [by apply next_step|apply IH].
Qed.

Lemma exec_end n c : weight c ≤ n → terminal (exec n c) = true.
Proof.
  revert c. induction n as [|n IH]; intros c Hn; cbn [exec].
  - destruct (terminal c) eqn:Hc; [done|].
    destruct (step_progress c Hc) as [c' ?%step_weight]. lia.
  - destruct (next c) as [c'|] eqn:Hnext.
    + apply next_step, step_weight in Hnext. apply IH. lia.
    + destruct (terminal c) eqn:Hc; [done|].
      apply next_progress in Hc as [c' ?]. congruence.
Qed.

(** [processModel] answers what the end of the machine holds. *)
Lemma run_processModel_end st c :
  rtc step (AtLoad st) c → terminal c = true →
  run (processModel modelPath infectionPath outputPath) st = final c.
Proof.
  intros Hsteps%steps_sound Hend. cbn [rest state] in Hsteps.
  unfold processModel. rewrite run_try_catch, Hsteps.
  destruct c; try done; by simpl_run.
Qed.

(** ** Invariants of the reachable configurations *)

(** A node the removal pass and the sanitizer would leave alone. *)
Definition prepared_node (n : Instance) : Prop :=
  allowed namesToRemove n ∧ suspicious n = false.

(** The children of the first root in the clone loop: the children it
    had after the sanitizer, all prepared, and then one clone per donor
    cloned so far, of the shape of its donor. *)
Definition grown (parent : Instance) (donors : list Instance) (i : nat) : Prop :=
  ∃ olds news, Children parent = olds ++ news ∧
    Forall prepared_node (flat_map nodes olds) ∧
    shape <$> news = shape <$> take i donors.

(** What holds of a configuration the machine reaches from [AtLoad st0]. *)
Definition invariant (st0 : RunState) (c : Config) : Prop :=
  match c with
  | AtLoad st => st = st0
  | AtStrip st parent others donors =>
      nextReferent st = nextReferent st0 ∧
      (∃ file, loads modelPath file ∧ Roots file = parent :: others) ∧
      (∃ dfile, loads infectionPath dfile ∧ Roots dfile = donors)
  | AtSanitize st parent others donors =>
      nextReferent st = nextReferent st0 ∧
      Forall (allowed namesToRemove) (descendants parent)
  | AtValidate st parent others donors =>
      nextReferent st = nextReferent st0 ∧
      Forall prepared_node (descendants parent)
  | AtClone st i parent others donors =>
      forallb valid_tree donors = true ∧ i ≤ length donors ∧
      nextReferent st = nextReferent st0 + sum_list_with size (take i donors) ∧
      grown parent donors i
  | AtPersist st file => Roots file ≠ []
  | AtFinished st r =>
      ∃ buffer, r = Saved outputPath buffer ∧ buffer ≠ [] ∧
        writeFileSync outputPath buffer = None
  | AtFailed st e => True
  end.

(** The sanitizer keeps the descendants allowed, and leaves none
    suspicious. *)
Lemma prepared_scrub parent :
  Forall (allowed namesToRemove) (descendants parent) →
  Forall prepared_node (descendants (scrub parent)).
Proof.
  intros Hallowed. apply Forall_and. split.
  - pose proof (Name_nodes_scrub parent) as Hnames.
    rewrite (nodes_eq parent), (nodes_eq (scrub parent)), !fmap_cons in Hnames.
    injection Hnames as _ Hnames. unfold allowed, descendants in *.
    apply (Forall_fmap Name (λ name, name ∉ namesToRemove)).
    rewrite Hnames. by apply Forall_fmap.
  - pose proof (nodes_scrub_clean parent) as Hclean.
    rewrite nodes_eq in Hclean. by apply Forall_cons in Hclean as [_ ?].
Qed.

(** One turn of the clone loop keeps the invariant. *)
Lemma invariant_clone st0 st i parent others donors root parent' st' :
  invariant st0 (AtClone st i parent others donors) →
  donors !! i = Some root →
  run (injectRoot i root parent) st = (Ret parent', st') →
  invariant st0 (AtClone st' (S i) parent' others donors).
Proof.
  intros (Hvalid & Hi & Hnext & olds & news & Hchildren & Holds & Hnews) Hroot Hrun.
  pose proof (wp_injectRoot i root parent st) as Hwp. unfold wp in Hwp.
  rewrite Hrun in Hwp. destruct Hwp as (new & -> & Hshape & Hnext').
  cbn [invariant]. rewrite (take_S_r _ _ _ Hroot), sum_list_with_app.
  split_and!; [done|by eapply lookup_lt_Some|simpl; lia|].
  exists olds, (news ++ [new]). split_and!; [|done|].
  - destruct parent. simpl in *. by rewrite Hchildren, app_assoc.
  - rewrite (take_S_r _ _ _ Hroot), !fmap_app, Hnews. cbn [fmap list_fmap].
    by rewrite Hshape.
Qed.

Lemma step_invariant st0 c c' : invariant st0 c → step c c' → invariant st0 c'.
Proof.
  intros Hinv Hstep.
  destruct Hstep as [st file dfile parent others st' Hrun Hroots|st e st' Hrun
    |st parent others donors parent' st' Hrun
    |st parent others donors parent' st' Hrun
    |st parent others donors st' Hrun|st parent others donors e st' Hrun
    |st i parent others donors root parent' st' Hroot Hrun
    |st i parent others donors root e st' Hroot Hrun
    |st i parent others donors Hi|st file r st' Hrun|st file e st' Hrun];
    try done.
  - cbn [invariant] in *. subst st0.
    pose proof (wp_load_stage st) as Hwp. unfold wp in Hwp. rewrite Hrun in Hwp.
    destruct Hwp as (Hfile & Hdfile & Hnext). eauto 10.
  - rewrite run_removeInstances in Hrun. injection Hrun as <- <-.
    destruct Hinv as (Hnext & _). split; [done|apply strip_clean].
  - rewrite run_sanitize_stage in Hrun. injection Hrun as <- <-.
    destruct Hinv as (Hnext & Hallowed). split; [done|by apply prepared_scrub].
  - apply validate_stage_Ret in Hrun as [Hvalid Hnext].
    destruct Hinv as (Hnext0 & Hprepared). cbn [invariant take sum_list_with].
    rewrite take_0. split_and!; [done|lia|simpl; lia|].
    exists (Children parent), []. by rewrite app_nil_r.
  - by eapply invariant_clone.
  - pose proof (wp_persist file outputPath st) as Hwp. unfold wp in Hwp.
    rewrite Hrun in Hwp. destruct Hwp as (buffer & -> & ? & _ & ? & _).
    by exists buffer.
Qed.


(** ** The theorems of the machine *)

(** C3: [processModel] implements the machine of spec.md 4.7: from the
    state it is called in the machine, run as the function [exec] with
    the fuel [weight], follows the steps to an end, and the result and the
    state of [processModel] are those of that end: the result of [Persist]
    when the machine finishes, the exit code 1 after one line on the error
    stream when a stage fails. *)
Theorem processModel_implements st :
  let c := exec (weight (AtLoad st)) (AtLoad st) in
  rtc step (AtLoad st) c ∧ terminal c = true ∧
  run (processModel modelPath infectionPath outputPath) st = final c.
Proof.
  intros c. pose proof (exec_steps (weight (AtLoad st)) (AtLoad st)) as Hsteps.
  pose proof (exec_end _ (AtLoad st) (le_n _)) as Hend.
  split_and!; [done..|]. by apply run_processModel_end.
Qed.

(** C12: every configuration the machine reaches from [Load] satisfies
    [invariant]: no referent is taken before [CloneEach]; [CloneEach] is
    entered only with donors that are all valid; in the clone loop the
    first root holds its prepared children followed by one clone per donor
    cloned so far, of the shape of its donor, and the referents taken are
    those of these clones; [Persist] never sees a file without roots; the
    machine finishes only with a buffer that was written. *)
Theorem reachable_invariant st0 c : rtc step (AtLoad st0) c → invariant st0 c.
Proof.
  intros Hsteps. apply (rtc_ind_r (R := step) (invariant st0) (AtLoad st0)); [done| |done].
  intros c1 c2 _ Hstep IH. by eapply step_invariant.
Qed.

End machine.

(** ** The machine on the files of [example_host] *)

(** The target and the donor: the machine finishes in the seven steps
    [weight] allows, with the state [process_Kit] shows. *)
Example machine_Kit :
  weight (host := example_host) "model.rbxm" "donor.rbxm"
    (AtLoad (initial_state 10)) = 7 ∧
  exec (api := permissive_api) (host := example_host)
    "model.rbxm" "donor.rbxm" "out.rbxm" 7 (AtLoad (initial_state 10)) =
  AtFinished
    (mkRunState [(8, "print(1)")]
       [Out "[INFO] Cached 1 script sources";
        Out "[INFO] Removed instance: weld (Script)";
        Out (suspicious_line "require" Backdoor);
        Out "[INFO] Removed/sanitized 1 suspicious scripts";
        Out "[INFO] Injecting 1 infection roots...";
        Out "Kit (Folder)"; Out "  Part1 (Model)"; Out "  Loader (Script)";
        Out "[SUCCESS] Injected infection into model";
        Out "[SUCCESS] Saved modified model to out.rbxm"]
       13)
    (Saved "out.rbxm" [1%N]).
Proof. split; reflexivity. Qed.

(** A donor file with a root that is not valid: the machine fails at
    [ValidateDonors], its fourth step, and has taken no referent. *)
Example machine_Broken :
  let c := exec (api := permissive_api) (host := example_host)
             "model.rbxm" "broken.rbxm" "out.rbxm" 4 (AtLoad (initial_state 10)) in
  stage c = Failed ∧ nextReferent (state c) = 10 ∧
  final c = run (processModel (api := permissive_api) (host := example_host)
                   "model.rbxm" "broken.rbxm" "out.rbxm") (initial_state 10).
Proof. split_and!; reflexivity. Qed.

Lemma reachable_invariant_witness :
  invariant (host := example_host) "model.rbxm" "donor.rbxm" "out.rbxm"
    (initial_state 10)
    (exec (api := permissive_api) (host := example_host)
       "model.rbxm" "donor.rbxm" "out.rbxm" 5 (AtLoad (initial_state 10))).
Proof. apply (reachable_invariant (api := permissive_api)), exec_steps. Defined.
