(* ===== verification/Json.v ===== *)
(** * JSON.stringify

    [loadInfection] and [validateModel] of src/bridge.ts print one line
    each: [JSON.stringify] of an object of strings, numbers, booleans and
    arrays.  [Json.value] is such a value and [Json.stringify] its text, as
    ECMAScript defines it for these values: no white space, members in
    insertion order, strings quoted by [quote].

    [quote] escapes the double quote, the backslash and the control
    characters below 32; [unquote] reads a quoted string back, and is its
    left inverse, so two different strings never print alike. *)

From Stdlib Require Import String Ascii NArith Lia.
From stdpp Require Import base tactics option list strings.
From S2P Require Import Prelude JsString.

Module Json.

Unset Elimination Schemes.
Inductive value :=
  | Bool (b : bool)
  | Number (n : nat)
  | Str (s : string)
  | Array (elements : list value)
  | Object (members : list (string * value)).
Set Elimination Schemes.

(** ** Strings *)

Definition backslash : ascii := ascii_of_nat 92.
Definition quotation : ascii := ascii_of_nat 34.

(** A hexadecimal digit, in lower case. *)
Definition hex_digit (n : nat) : ascii :=
  if n <? 10 then ascii_of_nat (48 + n) else ascii_of_nat (87 + n).

(** The value of a hexadecimal digit in lower case. *)
Definition hex_value (c : ascii) : option nat :=
  let n := nat_of_ascii c in
  if (48 <=? n) && (n <=? 57) then Some (n - 48)
  else if (97 <=? n) && (n <=? 102) then Some (n - 87)
  else None.

(** The text of one character inside a quoted string. *)
Definition escape (c : ascii) : string :=
  let n := nat_of_ascii c in
  if n =? 34 then String backslash (String quotation EmptyString)
  else if n =? 92 then String backslash (String backslash EmptyString)
  else if n =? 8 then String backslash "b"
  else if n =? 12 then String backslash "f"
  else if n =? 10 then String backslash "n"
  else if n =? 13 then String backslash "r"
  else if n =? 9 then String backslash "t"
  else if n <? 32 then
    String backslash
      (String "u" (String "0" (String "0"
         (String (hex_digit (n / 16)) (String (hex_digit (n mod 16)) EmptyString)))))
  else String c EmptyString.

Fixpoint escape_string (s : string) : string :=
  match s with
  | EmptyString => EmptyString
  | String c s' => escape c +:+ escape_string s'
  end.

(** [QuoteJSONString]. *)
Definition quote (s : string) : string :=
  String quotation (escape_string s +:+ String quotation EmptyString).

(** The character an escape sequence that starts with [\c] stands for,
    and the rest of the text. *)
Definition unescape_sequence (c : ascii) (rest : string) : option (ascii * string) :=
  let n := nat_of_ascii c in
  if n =? 34 then Some (quotation, rest)
  else if n =? 92 then Some (backslash, rest)
  else if n =? 98 then Some (ascii_of_nat 8, rest)
  else if n =? 102 then Some (ascii_of_nat 12, rest)
  else if n =? 110 then Some (ascii_of_nat 10, rest)
  else if n =? 114 then Some (ascii_of_nat 13, rest)
  else if n =? 116 then Some (ascii_of_nat 9, rest)
  else if n =? 117 then
    match rest with
    | String "0" (String "0" (String h (String l rest'))) =>
        hi ← hex_value h; lo ← hex_value l;
        Some (ascii_of_nat (16 * hi + lo), rest')
    | _ => None
    end
  else None.

(** Read a quoted string from the character after its opening quote:
    the string and the text after the closing quote.  [fuel] bounds the
    number of characters read; the length of the text is enough. *)
Fixpoint read_string (fuel : nat) (s : string) : option (string * string) :=
  match fuel with
  | 0 => None
  | S fuel =>
      match s with
      | EmptyString => None
      | String c rest =>
          if nat_of_ascii c =? 34 then Some (EmptyString, rest)
          else if nat_of_ascii c =? 92 then
            match rest with
            | String c' rest' =>
                '(d, rest'') ← unescape_sequence c' rest';
                prod_map (String d) id <$> read_string fuel rest''
            | EmptyString => None
            end
          else if nat_of_ascii c <? 32 then None
          else prod_map (String c) id <$> read_string fuel rest
      end
  end.

(** The string a quoted text stands for. *)
Definition unquote (text : string) : option string :=
  match text with
  | String c inside =>
      if nat_of_ascii c =? 34
      then fst <$> read_string (S (String.length inside)) inside
      else None
  | EmptyString => None
  end.

(** ** Values *)

Definition comma_separated (texts : list string) : string :=
  match texts with
  | [] => EmptyString
  | text :: texts => fold_left (λ acc t, acc +:+ "," +:+ t) texts text
  end.

(** [JSON.stringify(value)]. *)
Fixpoint stringify (v : value) : string :=
  match v with
  | Bool b => if b then "true" else "false"
  | Number n => JsString.of_nat n
  | Str s => quote s
  | Array elements => "[" +:+ comma_separated (stringify <$> elements) +:+ "]"
  | Object members =>
      "{" +:+ comma_separated
                ((λ member, quote member.1 +:+ ":" +:+ stringify member.2)
                   <$> members) +:+ "}"
  end.

(** ** Quoting is injective *)

(** One step of [read_string] reads the text of one character. *)
Lemma read_escape c fuel rest :
  read_string (S fuel) (escape c +:+ rest) =
  prod_map (String c) id <$> read_string fuel rest.
Proof. destruct c as [[] [] [] [] [] [] [] []]; reflexivity. Qed.

Lemma length_escape c : 1 ≤ String.length (escape c).
Proof. destruct c as [[] [] [] [] [] [] [] []]; vm_compute; lia. Qed.

Lemma length_escape_string s : String.length s ≤ String.length (escape_string s).
Proof.
  induction s as [|c s IH]; [done|]. cbn [escape_string String.length].
  rewrite JsString.String_length_app. pose proof (length_escape c). lia.
Qed.

Lemma read_escape_string s fuel rest :
  String.length s < fuel →
  read_string fuel (escape_string s +:+ String quotation rest) = Some (s, rest).
Proof.
  revert fuel. induction s as [|c s IH]; intros [|fuel] Hfuel; simpl in Hfuel;
    try lia; [done|].
  cbn [escape_string]. rewrite JsString.append_assoc, read_escape, IH by lia.
  done.
Qed.

(** [unquote] reads back what [quote] wrote. *)
Lemma unquote_quote s : unquote (quote s) = Some s.
Proof.
  unfold unquote, quote. cbn [nat_of_ascii quotation Nat.eqb].
  change (nat_of_ascii quotation =? 34) with true. cbn iota.
  rewrite read_escape_string; [done|].
  rewrite JsString.String_length_app. pose proof (length_escape_string s).
  simpl. lia.
Qed.

Lemma quote_inj s t : quote s = quote t → s = t.
Proof.
  intros Heq. apply (f_equal unquote) in Heq.
  rewrite !unquote_quote in Heq. by injection Heq.
Qed.

End Json.
