(* ===== verification/Cli.v ===== *)
(** * The commands [load] and [validate] and the dispatch of [main]

    [RbxmBridge.loadInfection] (src/bridge.ts lines 299-322) decodes the
    donor file and prints the name, class name and number of children of
    each root as one line of JSON.  [RbxmBridge.validateModel] (lines
    324-352) decodes the target file, runs [validateInstance] over every
    root into one array and prints the verdict, the array and the number
    of roots as one line of JSON.  [printUsage] (lines 354-364) prints the
    usage.  [main] (lines 367-415) takes the arguments of the process
    after the script name and runs the command they name.

    Each command catches every exception, logs it on the error stream and
    exits with status 1, and so does [main]: the handlers of lines 417-425
    for exceptions that nobody caught are never run, and are not
    modelled. *)

From Stdlib Require Import String NArith Lia.
From stdpp Require Import base tactics option list strings.
From S2P Require Import Prelude JsString JsMap Effects Instance.
From S2P Require Import Validate Remove Sanitize Clone Inject Bridge Json.

(** ** The code *)

(** [text || "Unknown"]: the empty string is falsy. *)
Definition or_Unknown (text : string) : string :=
  if bool_decide (text = "") then "Unknown" else text.

(** Lines 309-313: the metadata of one root. *)
Definition rootMetadata (root : Instance) : Json.value :=
  Json.Object
    [("name", Json.Str (or_Unknown (Name root)));
     ("className", Json.Str (or_Unknown (ClassName root)));
     ("childrenCount", Json.Number (length (Children root)))].

(** The body of the loop of lines 336-338, on the running verdict and the
    shared array. *)
Definition validateModelRoot (acc : bool * list string) (root : Instance) :
    bool * list string :=
  let '(isValid, errors) := acc in
  let '(rootValid, errors) := validateInstance root errors "" in
  (rootValid && isValid, errors).

(** Lines 354-364. *)
Definition usage : list string :=
  ["Usage:";
   "  node rbxm_bridge.js process <model_path> <infection_path> <output_path>";
   "  node rbxm_bridge.js load <infection_path>";
   "  node rbxm_bridge.js validate <model_path>";
   "";
   "Commands:";
   "  process   - Inject infection into model and save result";
   "  load      - Load infection file and return metadata";
   "  validate  - Validate model file structure"].

(** [RbxmBridge.printUsage()] (lines 354-364). *)
Definition printUsage : M unit := forM_ console_log usage.

Section cli.
Context {api : RbxmApi} {host : Host}.

(** [RbxmBridge.loadInfection(infectionPath)] (lines 299-322). *)
Definition loadInfection (infectionPath : string) : M ProcessResult :=
  try_catch
    (infectionFile ← loadFile infectionPath "infection";
     let metadata :=
       Json.Object [("roots", Json.Array (rootMetadata <$> Roots infectionFile))] in
     console_log (Json.stringify metadata);;
     mret Returned)
    (λ error,
       console_error ("[ERROR] Loading infection failed: "
                      +:+ JsError_toString error);;
       mret (Exit 1)).

(** [RbxmBridge.validateModel(modelPath)] (lines 324-352). *)
Definition validateModel (modelPath : string) : M ProcessResult :=
  try_catch
    (modelFile ← loadFile modelPath "model";
     let '(isValid, errors) :=
       fold_left validateModelRoot (Roots modelFile) (true, []) in
     let result :=
       Json.Object
         [("valid", Json.Bool isValid);
          ("errors", Json.Array (Json.Str <$> errors));
          ("rootCount", Json.Number (length (Roots modelFile)))] in
     console_log (Json.stringify result);;
     mret Returned)
    (λ error,
       console_error ("[ERROR] Validation failed: " +:+ JsError_toString error);;
       mret (Exit 1)).

(** Lines 381-383, 390-392, 399-401 and 407-409: a malformed invocation. *)
Definition reject (message : string) : M ProcessResult :=
  console_error message;;
  printUsage;;
  mret (Exit 1).

(** The [switch] of lines 378-410 on [args]. *)
Definition dispatch (command : string) (args : list string) : M ProcessResult :=
  if bool_decide (command = "process") then
    match args with
    | [_; modelPath; infectionPath; outputPath] =>
        processModel modelPath infectionPath outputPath
    | _ => reject "Error: process command requires 3 arguments"
    end
  else if bool_decide (command = "load") then
    match args with
    | [_; infectionPath] => loadInfection infectionPath
    | _ => reject "Error: load command requires 1 argument"
    end
  else if bool_decide (command = "validate") then
    match args with
    | [_; modelPath] => validateModel modelPath
    | _ => reject "Error: validate command requires 1 argument"
    end
  else reject ("Error: Unknown command '" +:+ command +:+ "'").

(** [main()] (lines 367-415) on [process.argv.slice(2)]. *)
Definition main (args : list string) : M ProcessResult :=
  match args with
  | [] => printUsage;; mret (Exit 1)
  | command :: _ =>
      try_catch (dispatch command args)
        (λ error,
           console_error ("[FATAL] Command execution failed: "
                          +:+ JsError_toString error);;
           mret (Exit 1))
  end.

End cli.

(** ** The steps *)

Implicit Types (st : RunState) (file : RobloxFile).

Lemma run_printUsage st : run printUsage st = (Ret (), emit st (Out <$> usage)).
Proof. apply run_forM__console_log. Qed.

(** The loop of lines 336-338 computes the verdict and the diagnostics of
    the roots. *)
Lemma fold_validateModelRoot roots isValid errors :
  fold_left validateModelRoot roots (isValid, errors) =
  (isValid && forallb valid_tree roots,
   errors ++ flat_map (diagnostics "") roots).
Proof.
  revert isValid errors.
  induction roots as [|root roots IH]; intros isValid errors;
    cbn [fold_left forallb flat_map].
  - by rewrite andb_true_r, app_nil_r.
  - unfold validateModelRoot at 2. rewrite validateInstance_eq, IH, app_assoc.
    f_equal. by rewrite (andb_comm _ isValid), andb_assoc.
Qed.

(** The line [validateModel] prints for a file. *)
Definition validation_report (file : RobloxFile) : string :=
  Json.stringify
    (Json.Object
       [("valid", Json.Bool (forallb valid_tree (Roots file)));
        ("errors", Json.Array (Json.Str <$> flat_map (diagnostics "") (Roots file)));
        ("rootCount", Json.Number (length (Roots file)))]).

(** The line [loadInfection] prints for a file. *)
Definition metadata_report (file : RobloxFile) : string :=
  Json.stringify
    (Json.Object [("roots", Json.Array (rootMetadata <$> Roots file))]).

(** Well-formed invocations: a command with the number of arguments it
    takes. *)
Definition well_formed (args : list string) : bool :=
  match args with
  | [command; _; _; _] => bool_decide (command = "process")
  | [command; _] =>
      bool_decide (command = "load") || bool_decide (command = "validate")
  | _ => false
  end.

Section cli_lemmas.
Context {api : RbxmApi} {host : Host}.

Lemma run_reject message st :
  run (reject message) st =
  (Ret (Exit 1), emit st (Err message :: (Out <$> usage))).
Proof.
  unfold reject. rewrite run_bind, run_console_error, run_bind, run_printUsage.
  by simpl_run.
Qed.

(** How [loadInfection] and [validateModel] end: after printing the
    report of a file that loads, or with status 1 after one line on the
    error stream. *)
Definition reported (path prefix : string) (report : RobloxFile → string)
    (st : RunState) (r : ProcessResult) (st' : RunState) : Prop :=
  match r with
  | Returned => ∃ file, loads path file ∧ st' = emit st [Out (report file)]
  | Exit code =>
      code = 1 ∧ ∃ e, st' = emit st [Err (prefix +:+ JsError_toString e)]
  | Saved _ _ => False
  end.

Lemma run_validateModel modelPath file st :
  loads modelPath file →
  run (validateModel modelPath) st =
  (Ret Returned, emit st [Out (validation_report file)]).
Proof.
  intros Hfile. unfold validateModel.
  rewrite run_try_catch, (run_bind_Ret _ _ _ _ _ (run_loadFile _ _ _ _ Hfile)).
  rewrite fold_validateModelRoot. by simpl_run.
Qed.

Lemma run_loadInfection infectionPath file st :
  loads infectionPath file →
  run (loadInfection infectionPath) st =
  (Ret Returned, emit st [Out (metadata_report file)]).
Proof.
  intros Hfile. unfold loadInfection.
  rewrite run_try_catch, (run_bind_Ret _ _ _ _ _ (run_loadFile _ _ _ _ Hfile)).
  by simpl_run.
Qed.

Lemma wp_validateModel modelPath st :
  wp (validateModel modelPath)
    (reported modelPath "[ERROR] Validation failed: " validation_report st)
    no_throw st.
Proof.
  pose proof (wp_loadFile modelPath "model" st) as Hload. unfold wp in Hload.
  destruct (run (loadFile modelPath "model") st) as [[file|e] st1] eqn:Hrun.
  - destruct Hload as [-> Hfile]. unfold wp.
    rewrite (run_validateModel _ file) by done. by exists file.
  - subst st1. unfold wp, validateModel.
    rewrite run_try_catch, (run_bind_Throw _ _ _ _ _ Hrun). simpl_run.
    split; [done|by exists e].
Qed.

Lemma wp_loadInfection infectionPath st :
  wp (loadInfection infectionPath)
    (reported infectionPath "[ERROR] Loading infection failed: " metadata_report st)
    no_throw st.
Proof.
  pose proof (wp_loadFile infectionPath "infection" st) as Hload. unfold wp in Hload.
  destruct (run (loadFile infectionPath "infection") st) as [[file|e] st1] eqn:Hrun.
  - destruct Hload as [-> Hfile]. unfold wp.
    rewrite (run_loadInfection _ file) by done. by exists file.
  - subst st1. unfold wp, loadInfection.
    rewrite run_try_catch, (run_bind_Throw _ _ _ _ _ Hrun). simpl_run.
    split; [done|by exists e].
Qed.

(** A computation that cannot throw is not changed by a handler. *)
Lemma run_try_catch_no_throw {A} (m : M A) h (Q : A → RunState → Prop) st :
  wp m Q no_throw st → run (try_catch m h) st = run m st.
Proof.
  unfold wp. rewrite run_try_catch. by destruct (run m st) as [[a|e] st'].
Qed.

(** Every branch of the [switch] ends the command or exits with status 1,
    and only a well-formed invocation runs a command. *)
Lemma wp_dispatch command rest st :
  wp (dispatch command (command :: rest))
    (λ r st', match r with
              | Exit code => code = 1
              | _ => well_formed (command :: rest) = true
              end)
    no_throw st.
Proof.
  unfold dispatch, well_formed.
  destruct (decide (command = "process")) as [->|Hprocess].
  { rewrite ?(bool_decide_eq_true_2 ("process" = "process")) by done.
    destruct rest as [|a1 [|a2 [|a3 [|a4 rest]]]];
      cbn beta iota;
      try (unfold wp; by rewrite run_reject).
    eapply wp_mono; [apply wp_processModel| |done].
    intros [] ? Hr; [done|done|by destruct Hr]. }
  rewrite (bool_decide_eq_false_2 (command = "process")) by done.
  destruct (decide (command = "load")) as [->|Hload].
  { rewrite ?(bool_decide_eq_true_2 ("load" = "load")) by done.
    destruct rest as [|a1 [|a2 rest]]; cbn beta iota;
      try (unfold wp; by rewrite run_reject).
    eapply wp_mono; [apply wp_loadInfection| |done].
    intros [] ? Hr; [done|done|by destruct Hr]. }
  rewrite (bool_decide_eq_false_2 (command = "load")) by done.
  destruct (decide (command = "validate")) as [->|Hvalidate].
  { rewrite ?(bool_decide_eq_true_2 ("validate" = "validate")) by done.
    destruct rest as [|a1 [|a2 rest]]; cbn beta iota;
      try (unfold wp; by rewrite run_reject).
    eapply wp_mono; [apply wp_validateModel| |done].
    intros [] ? Hr; [done|done|by destruct Hr]. }
  rewrite (bool_decide_eq_false_2 (command = "validate")) by done.
  unfold wp. by rewrite run_reject.
Qed.

End cli_lemmas.

(** ** The commands as a whole *)

Section cli_properties.
Context {api : RbxmApi} {host : Host}.

(** C14: on a file that loads, [validateModel] prints one line, the JSON
    object whose member [valid] says that no property of any root is null,
    whose member [errors] holds the diagnostics of the roots in order and
    whose member [rootCount] is the number of roots; it returns without
    exiting. *)
Theorem validateModel_reports modelPath file st :
  loads modelPath file →
  run (validateModel modelPath) st =
  (Ret Returned,
   emit st
     [Out (Json.stringify
             (Json.Object
                [("valid",
                  Json.Bool (forallb (λ root, (validateInstance root [] "").1)
                               (Roots file)));
                 ("errors",
                  Json.Array
                    (Json.Str <$>
                     flat_map (λ root, (validateInstance root [] "").2)
                       (Roots file)));
                 ("rootCount", Json.Number (length (Roots file)))]))]).
Proof.
  intros Hfile.
  rewrite (forallb_ext_pointwise _ valid_tree)
    by (intros root; by rewrite validateInstance_eq).
  rewrite (flat_map_ext_pointwise _ (diagnostics ""))
    by (intros root; by rewrite validateInstance_eq).
  by apply run_validateModel.
Qed.

(** C29: on a file that loads, [loadInfection] prints one line, the JSON
    object with one entry per root, in order: its name and class name
    ([Unknown] when empty) and its number of children; it returns without
    exiting. *)
Theorem loadInfection_reports infectionPath file st :
  loads infectionPath file →
  ∃ line,
    run (loadInfection infectionPath) st = (Ret Returned, emit st [Out line]) ∧
    line =
      Json.stringify
        (Json.Object
           [("roots",
             Json.Array
               ((λ root,
                   Json.Object
                     [("name", Json.Str (or_Unknown (Name root)));
                      ("className", Json.Str (or_Unknown (ClassName root)));
                      ("childrenCount", Json.Number (length (Children root)))])
                <$> Roots file))]).
Proof.
  intros Hfile. eexists. split; [by apply run_loadInfection|done].
Qed.

(** C13: no exception escapes [main]; when it exits the status is 1; it
    runs a command to its end only on a well-formed invocation. *)
Theorem main_exits args st :
  ∃ r st',
    run (main args) st = (Ret r, st') ∧
    match r with
    | Exit code => code = 1
    | _ => well_formed args = true
    end.
Proof.
  apply wp_run. destruct args as [|command rest]; cbn [main].
  - apply wp_bind. unfold wp at 1. by rewrite run_printUsage.
  - unfold wp. rewrite (run_try_catch_no_throw _ _ _ _ (wp_dispatch command rest st)).
    apply wp_dispatch.
Qed.

(** C28: a malformed invocation (no argument, an unknown command, a wrong
    number of arguments) prints the usage last and exits with status 1. *)
Theorem main_malformed args st :
  well_formed args = false →
  ∃ lines,
    run (main args) st = (Ret (Exit 1), emit st (lines ++ (Out <$> usage))).
Proof.
  intros Hargs. destruct args as [|command rest]; cbn [main].
  { exists []. by rewrite run_bind, run_printUsage. }
  rewrite (run_try_catch_no_throw _ _ _ _ (wp_dispatch command rest st)).
  unfold dispatch, well_formed in *.
  destruct (decide (command = "process")) as [->|Hprocess].
  { rewrite ?(bool_decide_eq_true_2 ("process" = "process")) by done.
    destruct rest as [|a1 [|a2 [|a3 [|a4 rest]]]]; cbn beta iota in *;
      try done; rewrite run_reject; by eexists [_]. }
  rewrite (bool_decide_eq_false_2 (command = "process")) by done.
  destruct (decide (command = "load")) as [->|Hload].
  { rewrite ?(bool_decide_eq_true_2 ("load" = "load")) by done.
    destruct rest as [|a1 [|a2 rest]]; cbn beta iota in *;
      try done; rewrite run_reject; by eexists [_]. }
  rewrite (bool_decide_eq_false_2 (command = "load")) by done.
  destruct (decide (command = "validate")) as [->|Hvalidate].
  { rewrite ?(bool_decide_eq_true_2 ("validate" = "validate")) by done.
    destruct rest as [|a1 [|a2 rest]]; cbn beta iota in *;
      try done; rewrite run_reject; by eexists [_]. }
  rewrite (bool_decide_eq_false_2 (command = "validate")) by done.
  rewrite run_reject. by eexists [_].
Qed.

End cli_properties.

Lemma validateModel_reports_witness :
  run (validateModel (host := example_host) "broken.rbxm") (initial_state 10) =
  (Ret Returned,
   emit (initial_state 10)
     [Out (Json.stringify
             (Json.Object
                [("valid",
                  Json.Bool (forallb (λ root, (validateInstance root [] "").1)
                               [Kit; Broken]));
                 ("errors",
                  Json.Array
                    (Json.Str <$>
                     flat_map (λ root, (validateInstance root [] "").2)
                       [Kit; Broken]));
                 ("rootCount", Json.Number 2)]))]).
Proof.
  apply (validateModel_reports (host := example_host) _
           (mkRobloxFile [Kit; Broken])).
  by exists [4%N].
Defined.

Lemma loadInfection_reports_witness :
  ∃ line,
    run (loadInfection (host := example_host) "donor.rbxm") (initial_state 10) =
      (Ret Returned, emit (initial_state 10) [Out line]) ∧
    line =
      Json.stringify
        (Json.Object
           [("roots",
             Json.Array
               ((λ root,
                   Json.Object
                     [("name", Json.Str (or_Unknown (Name root)));
                      ("className", Json.Str (or_Unknown (ClassName root)));
                      ("childrenCount", Json.Number (length (Children root)))])
                <$> [Kit]))]).
Proof.
  apply (loadInfection_reports (host := example_host) _ (mkRobloxFile [Kit])).
  by exists [2%N].
Defined.

Lemma main_malformed_witness :
  ∃ lines,
    run (main (api := permissive_api) (host := example_host)
           ["process"; "model.rbxm"]) (initial_state 10) =
    (Ret (Exit 1), emit (initial_state 10) (lines ++ (Out <$> usage))).
Proof.
  apply (main_malformed (api := permissive_api) (host := example_host)).
  reflexivity.
Defined.

(** The lines of the two reports. *)
Example validate_broken :
  (run (main (api := permissive_api) (host := example_host)
          ["validate"; "broken.rbxm"]) (initial_state 10)).2 =
  emit (initial_state 10)
    [Out ("{" +:+ Json.quote "valid" +:+ ":false,"
          +:+ Json.quote "errors" +:+ ":["
          +:+ Json.quote "[WARN] Found UniqueId at Kit" +:+ ","
          +:+ Json.quote "[WARN] Found UniqueId at Kit.Part1" +:+ ","
          +:+ Json.quote "[ERROR] Null/undefined property Value at Broken"
          +:+ "]," +:+ Json.quote "rootCount" +:+ ":2}")].
Proof. reflexivity. Qed.

Example load_donor :
  (run (main (api := permissive_api) (host := example_host)
          ["load"; "donor.rbxm"]) (initial_state 10)).2 =
  emit (initial_state 10)
    [Out ("{" +:+ Json.quote "roots" +:+ ":[{"
          +:+ Json.quote "name" +:+ ":" +:+ Json.quote "Kit" +:+ ","
          +:+ Json.quote "className" +:+ ":" +:+ Json.quote "Folder" +:+ ","
          +:+ Json.quote "childrenCount" +:+ ":2}]}")].
Proof. reflexivity. Qed.
